(** * DocFlowAssistant: the browser-side upload workflow of [static/js/main.js]

    A shallow embedding of the script's handlers as functions over an explicit
    page state (globals, DOM store, issued requests, pending continuations),
    followed by the properties of the upload workflow, the dashboard chart and
    the chat widget.

    Conventions of the embedding:
    - a JavaScript string is the list of its UTF-16 code units;
    - a JavaScript number is an IEEE 754 binary64 value (primitive floats);
    - the document is a finite map from element ids (or selectors) to elements;
      the set of elements is fixed after load, so the references the script
      takes at load time ([const processingSection = ...]) coincide with a
      lookup by id at the time of use;
    - a function that can throw runs in a state-and-exception monad; the state
      keeps the mutations made before the throw;
    - server responses are records with optional fields, at the shapes the
      endpoints document; [None] stands for an absent (undefined or null) field. *)

From Stdlib Require Import ZArith NArith List String Ascii Lia.
From Stdlib Require Import Numbers.Cyclic.Int63.Uint63.
From Stdlib Require Import Floats.PrimFloat Floats.FloatOps Floats.SpecFloat.
From Stdlib Require Import Floats.FloatAxioms.
From stdpp Require Import gmap strings list.

Set Default Proof Using "Type".
Set Warnings "-inexact-float".
Local Open Scope N_scope.

(* ===================================================================== *)
(** ** JavaScript strings *)
(* ===================================================================== *)

Module JsString.

(** A string is a sequence of UTF-16 code units. *)
Abbreviation jsstring := (list N).

(** The code units of an ASCII literal of the source. *)
Fixpoint lit (s : string) : jsstring :=
  match s with
  | EmptyString => []
  | String a s' => N_of_ascii a :: lit s'
  end.

(** The characters a template of the source contains and a literal of this
    file cannot: the double quote and the line feed. *)
Definition dq : jsstring := [34].
Definition nl : jsstring := [10].

(** [n] spaces of indentation inside a template literal. *)
Definition spaces (n : nat) : jsstring := repeat 32 n.

(** ToBoolean on a string: only the empty string is falsy. *)
Definition truthy (s : jsstring) : bool :=
  match s with [] => false | _ :: _ => true end.

(** ToBoolean on a possibly absent string. *)
Definition truthy_opt (o : option jsstring) : bool :=
  match o with Some s => truthy s | None => false end.

(** [o || d] for a possibly absent string [o]. *)
Definition or_else (o : option jsstring) (d : jsstring) : jsstring :=
  match o with
  | Some s => if truthy s then s else d
  | None => d
  end.

(** WhiteSpace and LineTerminator code points of ECMAScript (all of them lie
    in the basic plane, so each is one code unit). *)
Definition is_white_space (c : N) : bool :=
  (c =? 9) || (c =? 10) || (c =? 11) || (c =? 12) || (c =? 13) ||
  (c =? 32) || (c =? 160) || (c =? 5760) ||
  ((8192 <=? c) && (c <=? 8202)) ||
  (c =? 8232) || (c =? 8233) || (c =? 8239) || (c =? 8287) ||
  (c =? 12288) || (c =? 65279).

Fixpoint trim_start (s : jsstring) : jsstring :=
  match s with
  | c :: s' => if is_white_space c then trim_start s' else s
  | [] => []
  end.

Definition trim_end (s : jsstring) : jsstring :=
  rev (trim_start (rev s)).

(** String.prototype.trim *)
Definition trim (s : jsstring) : jsstring := trim_end (trim_start s).

(** The decimal digits of a natural number, as code units. *)
Fixpoint digits_fuel (fuel : nat) (n : N) (acc : jsstring) : jsstring :=
  match fuel with
  | O => acc
  | S fuel' =>
      let acc' := (48 + n mod 10) :: acc in
      if n <? 10 then acc' else digits_fuel fuel' (n / 10) acc'
  end.

Definition decimal (n : N) : jsstring :=
  digits_fuel (S (N.to_nat (N.log2 n))) n [].

End JsString.
Export JsString.

(* ===================================================================== *)
(** ** JavaScript numbers *)
(* ===================================================================== *)

Module JsNumber.

Local Open Scope Z_scope.

(** The exact value of a finite nonzero float: [(sign, m, e)] stands for
    [(-1)^sign * m * 2^e]. *)
Definition decode (x : float) : spec_float := Prim2SF x.

(** A nonnegative integer below [2^63] as a float (exact below [2^53]). *)
Definition of_Z_small (z : Z) : float :=
  PrimFloat.of_uint63 (Uint63.of_Z z).

(** Math.round: the integer closest to [x], ties towards +infinity; NaN,
    the infinities and the zeros are returned as they are, and a negative
    [x] that rounds to zero gives [-0]. *)
Definition Math_round (x : float) : float :=
  match decode x with
  | S754_finite s m e =>
      if 0 <=? e then x
      else
        (* here |x| < 2^53: floor (x + 1/2) is computed exactly *)
        let den := 2 ^ (- e) in
        let num := if s then - Z.pos m else Z.pos m in
        let r := (2 * num + den) / (2 * den) in
        if 0 <=? r
        then (if s && (r =? 0) then (- of_Z_small 0)%float else of_Z_small r)
        else (- of_Z_small (- r))%float
  | _ => x
  end.

(** [decimal_exponent m e] is the [n] with [10^(n-1) <= m * 2^e < 10^n]. *)
Fixpoint below_one_fuel (fuel : nat) (m d : Z) (j : Z) : Z :=
  match fuel with
  | O => j
  | S fuel' => if d <=? m * 10 ^ j then j else below_one_fuel fuel' m d (j + 1)
  end.

Definition decimal_exponent (m : positive) (e : Z) : Z :=
  if 0 <=? e then Z.of_nat (length (decimal (Z.to_N (Z.pos m * 2 ^ e))))
  else
    let d := 2 ^ (- e) in
    if d <=? Z.pos m
    then Z.of_nat (length (decimal (Z.to_N (Z.pos m / d))))
    else 1 - below_one_fuel 400 (Z.pos m) d 1.

(** Comparison of [a * 10^p] with [b * 2^q] for integers [a], [b] and
    possibly negative exponents [p], [q], by cross-multiplication. *)
Definition scaled_compare (a p b q : Z) : comparison :=
  (a * 10 ^ Z.max p 0 * 2 ^ Z.max (- q) 0
     ?= b * 2 ^ Z.max q 0 * 10 ^ Z.max (- p) 0).

(** Whether [s * 10^p] reads back as the float [m * 2^e] under
    round-to-nearest, ties to even: it lies within half a unit in the last
    place on either side (a quarter below a power of two), the bounds
    included when [m] is even.  Bounds are counted in units of [2^(e-2)]. *)
Definition reads_back (m : positive) (e : Z) (s p : Z) : bool :=
  let M := Z.pos m in
  let lo := if (M =? 2 ^ 52) && (-1074 <? e) then 4 * M - 1 else 4 * M - 2 in
  let hi := 4 * M + 2 in
  let even := Z.even M in
  let above_lo :=
    match scaled_compare s p lo (e - 2) with
    | Gt => true | Eq => even | Lt => false end in
  let below_hi :=
    match scaled_compare s p hi (e - 2) with
    | Lt => true | Eq => even | Gt => false end in
  above_lo && below_hi.

(** Of the two candidates [s * 10^p] and [(s+1) * 10^p] around the value
    [v = m * 2^e], the lower one is kept when it is the closer one, that is
    when [2v <= (2s+1) * 10^p]; at equal distance the even one is kept. *)
Definition closer_low (m : positive) (e : Z) (s p : Z) : bool :=
  match scaled_compare (2 * s + 1) p (2 * Z.pos m) e with
  | Gt => true | Eq => Z.even s | Lt => false end.

(** The shortest digit string [s] (with [k] digits) and exponent [n] such
    that [s * 10^(n-k)] reads back as the float, the closest such [s] to
    the float's value when several have [k] digits. *)
Fixpoint shortest_fuel (fuel : nat) (m : positive) (e n k : Z) : Z * Z :=
  match fuel with
  | O => (Z.pos m, n)
  | S fuel' =>
      let p := n - k in
      let s_lo :=
        if 0 <=? p
        then (Z.pos m * 2 ^ Z.max e 0) / (10 ^ p * 2 ^ Z.max (- e) 0)
        else (Z.pos m * 2 ^ Z.max e 0 * 10 ^ (- p)) / 2 ^ Z.max (- e) 0 in
      let ok_lo := reads_back m e s_lo p in
      let ok_hi := reads_back m e (s_lo + 1) p in
      if ok_lo && (negb ok_hi || closer_low m e s_lo p) then (s_lo, n)
      else if ok_hi then
        (if s_lo + 1 =? 10 ^ k then (10 ^ (k - 1), n + 1) else (s_lo + 1, n))
      else shortest_fuel fuel' m e n (k + 1)
  end.

Definition shortest (m : positive) (e : Z) : Z * Z :=
  shortest_fuel 17 m e (decimal_exponent m e) 1.

Definition zeros (n : Z) : jsstring := repeat 48%N (Z.to_nat n).

(** Number::toString of a positive finite value with digits [ds] and
    decimal exponent [n]. *)
Definition format_digits (ds : jsstring) (n : Z) : jsstring :=
  let k := Z.of_nat (length ds) in
  if (k <=? n) && (n <=? 21) then ds ++ zeros (n - k)
  else if (0 <? n) && (n <=? 21)
    then take (Z.to_nat n) ds ++ lit "." ++ drop (Z.to_nat n) ds
  else if (-6 <? n) && (n <=? 0) then lit "0." ++ zeros (- n) ++ ds
  else
    let ex := (if 0 <=? n - 1 then lit "+" else lit "-")
                ++ decimal (Z.to_N (Z.abs (n - 1))) in
    if k =? 1 then ds ++ lit "e" ++ ex
    else take 1 ds ++ lit "." ++ drop 1 ds ++ lit "e" ++ ex.

(** Number::toString (radix 10), used by string concatenation and by
    template literals. *)
Definition Number_toString (x : float) : jsstring :=
  match decode x with
  | S754_nan => lit "NaN"
  | S754_zero _ => lit "0"
  | S754_infinity s => if s then lit "-Infinity" else lit "Infinity"
  | S754_finite s m e =>
      let '(d, n) := shortest m e in
      (if s then lit "-" else []) ++ format_digits (decimal (Z.to_N d)) n
  end.

End JsNumber.
Export JsNumber.


(* ===================================================================== *)
(** ** The page state *)
(* ===================================================================== *)

(** What an element holds, as the assignments that built it:
    - [textContent = t] leaves one text node;
    - [innerHTML = h] leaves the children the parser builds from the markup
      [h];
    - [innerHTML += line] on an element that holds [c] leaves the children the
      parser builds from the serialisation of [c] followed by [line];
    - [appendChild(el)] on an element that holds [c], for an element [el]
      created with the tag [tag], the class [cls] and [innerHTML = h], leaves
      the children of [c] followed by [el].
    The markup is kept as written: what the browser gives when it reads the
    content back is [serialization] below. *)
Inductive content :=
| Text (t : jsstring)
| Html (h : jsstring)
| Reparsed (c : content) (line : jsstring)
| Child (c : content) (tag : string) (cls : jsstring) (h : jsstring).

(** The properties of an element the script reads or writes. *)
Record element := Element {
  display : jsstring;          (* style.display *)
  width : jsstring;            (* style.width *)
  inner : content;             (* textContent / innerHTML *)
  value : jsstring;            (* value of a form control *)
  disabled : bool;
  classes : list jsstring;     (* classList *)
  scrollTop : option content   (* scrollTop, as the content whose scroll height
                                  it was last set to; None before any assignment *)
}.

Definition set_display (d : jsstring) (e : element) : element :=
  Element d (width e) (inner e) (value e) (disabled e) (classes e) (scrollTop e).
Definition set_width (w : jsstring) (e : element) : element :=
  Element (display e) w (inner e) (value e) (disabled e) (classes e) (scrollTop e).
Definition set_inner (c : content) (e : element) : element :=
  Element (display e) (width e) c (value e) (disabled e) (classes e) (scrollTop e).
Definition set_value (v : jsstring) (e : element) : element :=
  Element (display e) (width e) (inner e) v (disabled e) (classes e) (scrollTop e).
Definition set_disabled (b : bool) (e : element) : element :=
  Element (display e) (width e) (inner e) (value e) b (classes e) (scrollTop e).
Definition set_classes (c : list jsstring) (e : element) : element :=
  Element (display e) (width e) (inner e) (value e) (disabled e) c (scrollTop e).
Definition set_scrollTop (t : option content) (e : element) : element :=
  Element (display e) (width e) (inner e) (value e) (disabled e) (classes e) t.

(** Serialisation of a text node when [innerHTML] is read. *)
Fixpoint escape_text (t : jsstring) : jsstring :=
  match t with
  | [] => []
  | c :: t' =>
      (if c =? 38 then lit "&amp;"
       else if c =? 60 then lit "&lt;"
       else if c =? 62 then lit "&gt;"
       else if c =? 160 then lit "&nbsp;"
       else [c]) ++ escape_text t'
  end.

(** *** Markup that reads back as written

    Reading [innerHTML] serialises the children the parser built, which is
    in general not the markup that was assigned (an ampersand in text comes
    back as an entity, tags are balanced, names are lowercased).  The model
    determines the serialisation on a fragment on which parsing followed by
    serialisation is the identity, in an element that takes flow content:
    text without the characters the parser or the serialiser treat specially
    (NUL, carriage return, ampersand, less-than, greater-than, no-break
    space), and the tags [<div>], [</div>], [<strong>] and [</strong>] written
    exactly so and properly nested, a [strong] element holding text only. *)

Inductive flow_tag := TagDiv | TagStrong.

(** Where a scan of the markup stands: in text inside the open elements
    (innermost first), or inside a tag of which [name] has been read
    (latest character first). *)
Inductive scan :=
| InText (open : list flow_tag)
| InTag (open : list flow_tag) (name : jsstring).

Definition plain_char (c : N) : bool :=
  negb ((c =? 0) || (c =? 13) || (c =? 38) || (c =? 60) || (c =? 62) || (c =? 160)).

(** Text that is its own serialisation. *)
Definition plain (t : jsstring) : bool := forallb plain_char t.

Definition scan_tag (open : list flow_tag) (name : jsstring) : option scan :=
  if bool_decide (name = lit "div") then
    match open with
    | TagStrong :: _ => None
    | _ => Some (InText (TagDiv :: open))
    end
  else if bool_decide (name = lit "strong") then
    match open with
    | TagStrong :: _ => None
    | _ => Some (InText (TagStrong :: open))
    end
  else if bool_decide (name = lit "/div") then
    match open with
    | TagDiv :: rest => Some (InText rest)
    | _ => None
    end
  else if bool_decide (name = lit "/strong") then
    match open with
    | TagStrong :: rest => Some (InText rest)
    | _ => None
    end
  else None.

Definition scan_step (st : option scan) (c : N) : option scan :=
  match st with
  | None => None
  | Some (InText open) =>
      if c =? 60 then Some (InTag open [])
      else if plain_char c then Some (InText open)
      else None
  | Some (InTag open name) =>
      if c =? 62 then scan_tag open (rev name)
      else Some (InTag open (c :: name))
  end.

(** Markup of the fragment, with every element closed. *)
Definition stable (h : jsstring) : bool :=
  match foldl scan_step (Some (InText [])) h with
  | Some (InText []) => true
  | _ => false
  end.

(** What reading [innerHTML] gives, where the model determines it. *)
Fixpoint serialization (c : content) : option jsstring :=
  match c with
  | Text t => Some (escape_text t)
  | Html h => if stable h then Some h else None
  | Reparsed c' line =>
      match serialization c' with
      | Some h => if stable (h ++ line) then Some (h ++ line) else None
      | None => None
      end
  | Child _ _ _ _ => None
  end.

(** A reference to an element of the document, or null. *)
Abbreviation eref := (option string).

(** The event being dispatched ([window.event]), as far as the script looks
    at it: the button [event.target.closest('button')] finds, if any. *)
Record dom_event := DomEvent { closest_button : eref }.

Inductive js_error :=
| Error (msg : jsstring)          (* new Error(msg) *)
| TypeError (msg : jsstring).     (* raised by the engine *)

Definition message (e : js_error) : jsstring :=
  match e with Error m | TypeError m => m end.

Record file := File {
  file_name : jsstring;
  file_type : jsstring;
  file_size : N
}.

Inductive body :=
| NoBody
| FormData (entries : list (jsstring * file))
| JsonBody (fields : list (jsstring * jsstring)).   (* JSON.stringify of an object of strings *)

Record request := Request {
  url : jsstring;
  http_method : jsstring;
  headers : list (jsstring * jsstring);
  req_body : body
}.

(** *** Server responses *)

(** [success] is read for its truthiness only. *)
Record upload_response := UploadResponse {
  up_success : bool;
  document_id : option jsstring;
  up_error : option jsstring
}.

Record classification := Classification {
  cls_type : option jsstring;
  confidence : option float
}.

Record routing := Routing { department : option jsstring }.

Record process_response := ProcessResponse {
  pr_success : bool;
  pr_classification : option classification;
  pr_routing : option routing;
  extracted_text : option jsstring;
  pr_error : option jsstring
}.

Record reclassified_document := ReclassifiedDocument { document_type : option jsstring }.

Record reclassify_response := ReclassifyResponse {
  rc_success : bool;
  rc_document : option reclassified_document;
  rc_routing : option routing;
  rc_error : option jsstring
}.

(** The reply of the chatbot is interpolated as it is, so undefined and null
    are told apart. *)
Inductive reply :=
| ReplyUndefined
| ReplyNull
| ReplyText (t : jsstring).

Record chat_response := ChatResponse { response : reply }.

(** How a [fetch(...).then(r => r.json())] chain settles: rejected (network
    failure, or a body that is not JSON) or fulfilled with the parsed body,
    [None] when the body is the JSON [null]. *)
Inductive settled (A : Type) :=
| Rejected (e : js_error)
| Fulfilled (data : option A).
Arguments Rejected {A} e.
Arguments Fulfilled {A} data.

(** *** Charts (Chart.js) *)

Record chart := Chart {
  chart_id : nat;
  chart_canvas : string;
  chart_kind : jsstring;
  chart_labels : list jsstring;
  chart_data : list float;
  chart_colors : list jsstring;
  chart_legend : jsstring
}.

(** An alert banner inserted by [showAlert]. *)
Record alert := Alert {
  alert_id : nat;
  alert_class : jsstring;
  alert_html : jsstring
}.

(** Continuations waiting for the network or for a timer. *)
Inductive task :=
| UploadReply                                  (* uploadFile's chain on /upload *)
| ProcessReply                                 (* processDocument's chain *)
| ResultsTimer (data : option process_response) (* its setTimeout(..., 1000) *)
| ReclassifyReply                              (* handleManualReclassification's chain *)
| ChatReply (messagesDiv : string)             (* the chat chain, closed over messagesDiv *)
| AlertTimer (id : nat).                       (* showAlert's setTimeout(..., 5000) *)

Record state := State {
  currentDocumentId : option jsstring;     (* let currentDocumentId = null *)
  typeChart : option nat;                  (* let typeChart = null; the chart object by id *)
  document : gmap string element;
  window_event : option dom_event;
  null_message : jsstring;                 (* the engine's text for a TypeError on null *)
  network : list request;                  (* requests issued, the latest first *)
  pending : list task;
  charts : list chart;                     (* chart instances constructed and not destroyed *)
  next_chart : nat;                        (* identity of the next chart constructed *)
  alerts : list alert;                     (* children of .container inserted by showAlert, the latest first *)
  next_alert : nat                         (* identity of the next banner created *)
}.

Definition set_currentDocumentId (v : option jsstring) (s : state) : state :=
  State v (typeChart s) (document s) (window_event s)
        (null_message s) (network s) (pending s) (charts s)
        (next_chart s) (alerts s) (next_alert s).
Definition set_typeChart (v : option nat) (s : state) : state :=
  State (currentDocumentId s) v (document s) (window_event s)
        (null_message s) (network s) (pending s) (charts s)
        (next_chart s) (alerts s) (next_alert s).
Definition set_document (v : gmap string element) (s : state) : state :=
  State (currentDocumentId s) (typeChart s) v (window_event s)
        (null_message s) (network s) (pending s) (charts s)
        (next_chart s) (alerts s) (next_alert s).
Definition set_window_event (v : option dom_event) (s : state) : state :=
  State (currentDocumentId s) (typeChart s) (document s) v
        (null_message s) (network s) (pending s) (charts s)
        (next_chart s) (alerts s) (next_alert s).
Definition set_network (v : list request) (s : state) : state :=
  State (currentDocumentId s) (typeChart s) (document s) (window_event s)
        (null_message s) v (pending s) (charts s)
        (next_chart s) (alerts s) (next_alert s).
Definition set_pending (v : list task) (s : state) : state :=
  State (currentDocumentId s) (typeChart s) (document s) (window_event s)
        (null_message s) (network s) v (charts s)
        (next_chart s) (alerts s) (next_alert s).
Definition set_charts (v : list chart) (s : state) : state :=
  State (currentDocumentId s) (typeChart s) (document s) (window_event s)
        (null_message s) (network s) (pending s) v
        (next_chart s) (alerts s) (next_alert s).
Definition set_next_chart (v : nat) (s : state) : state :=
  State (currentDocumentId s) (typeChart s) (document s) (window_event s)
        (null_message s) (network s) (pending s) (charts s)
        v (alerts s) (next_alert s).
Definition set_alerts (v : list alert) (s : state) : state :=
  State (currentDocumentId s) (typeChart s) (document s) (window_event s)
        (null_message s) (network s) (pending s) (charts s)
        (next_chart s) v (next_alert s).
Definition set_next_alert (v : nat) (s : state) : state :=
  State (currentDocumentId s) (typeChart s) (document s) (window_event s)
        (null_message s) (network s) (pending s) (charts s)
        (next_chart s) (alerts s) v.

(* ===================================================================== *)
(** ** Computations: state and exceptions *)
(* ===================================================================== *)

Inductive completion (A : Type) :=
| Normal (a : A)
| Abrupt (e : js_error).
Arguments Normal {A} a.
Arguments Abrupt {A} e.

(** A piece of script: from a state to a completion and the state it leaves. *)
Definition js (A : Type) : Type := state → completion A * state.

Definition js_ret_def {A} (a : A) : js A := λ s, (Normal a, s).

Definition js_bind_def {A B} (k : A → js B) (c : js A) : js B :=
  λ s, match c s with
       | (Normal a, s') => k a s'
       | (Abrupt e, s') => (Abrupt e, s')
       end.

#[global] Instance js_ret : MRet js := @js_ret_def.
#[global] Instance js_bind : MBind js := @js_bind_def.

Definition throw {A} (e : js_error) : js A := λ s, (Abrupt e, s).

(** [try { c } catch (e) { h e }], also the [.catch(h)] at the end of a
    promise chain whose earlier callback is [c]. *)
Definition try_catch {A} (c : js A) (h : js_error → js A) : js A :=
  λ s, match c s with
       | (Normal a, s') => (Normal a, s')
       | (Abrupt e, s') => h e s'
       end.

Definition get {A} (f : state → A) : js A := λ s, (Normal (f s), s).
Definition modify (f : state → state) : js unit := λ s, (Normal tt, f s).

(** [if (b) c] *)
Definition when (b : bool) (c : js unit) : js unit :=
  if b then c else mret tt.

(** The state a computation leaves, whether it completed or threw. *)
Definition exec {A} (c : js A) (s : state) : state := snd (c s).

(** The TypeError of a property access on null or undefined. *)
Definition throw_null {A} : js A :=
  λ s, (Abrupt (TypeError (null_message s)), s).

(** *** The document *)

(** Whether a document has an element under [id]. *)
Definition has (id : string) (d : gmap string element) : bool :=
  match d !! id with Some _ => true | None => false end.

Definition present (id : string) (s : state) : bool := has id (document s).

(** The reference a lookup of [id] returns. *)
Definition ref (id : string) (s : state) : eref :=
  if present id s then Some id else None.

Definition getElementById (id : string) : js eref := get (ref id).

(** [document.querySelector(sel)]: the store holds the first match of a
    selector under the selector's text. *)
Definition querySelector (sel : string) : js eref := get (ref sel).

Definition is_present (r : eref) : bool :=
  match r with Some _ => true | None => false end.

(** [r.p = v], where [f] performs the assignment on the element. *)
Definition assign (r : eref) (f : element → element) : js unit :=
  match r with
  | Some id => modify (λ s, set_document (alter f id (document s)) s)
  | None => throw_null
  end.

(** [r.p], where [f] reads the property. *)
Definition read {A} (r : eref) (f : element → A) : js A :=
  match r with
  | Some id => λ s, match document s !! id with
                    | Some e => (Normal (f e), s)
                    | None => (Abrupt (TypeError (null_message s)), s)
                    end
  | None => throw_null
  end.

(** *** The network and timers *)

(** [fetch(url, init)] followed by the chain [k]: the request is issued and the
    chain waits for it to settle. *)
Definition fetch (r : request) (k : task) : js unit :=
  modify (λ s, set_pending (pending s ++ [k]) (set_network (r :: network s) s)).

Definition setTimeout (k : task) : js unit :=
  modify (λ s, set_pending (pending s ++ [k]) s).

Definition POST : jsstring := lit "POST".
Definition json_headers : list (jsstring * jsstring) :=
  [(lit "Content-Type", lit "application/json")].

(* ===================================================================== *)
(** ** The script *)
(* ===================================================================== *)

(** The element references taken when the script loads. *)
Definition uploadArea : js eref := getElementById "uploadArea".
Definition fileInput : js eref := getElementById "fileInput".
Definition browseBtn : js eref := getElementById "browseBtn".
Definition processingSection : js eref := getElementById "processingSection".
Definition resultsSection : js eref := getElementById "resultsSection".
Definition errorSection : js eref := getElementById "errorSection".

Definition none : jsstring := lit "none".
Definition block : jsstring := lit "block".

Definition hideAllSections : js unit :=
  p ← processingSection;
  when (is_present p) (assign p (set_display none));;
  r ← resultsSection;
  when (is_present r) (assign r (set_display none));;
  e ← errorSection;
  when (is_present e) (assign e (set_display none)).

Definition showError (msg : jsstring) : js unit :=
  hideAllSections;;
  e ← errorSection;
  when (is_present e)
    (assign e (set_display block);;
     errorMessage ← getElementById "errorMessage";
     when (is_present errorMessage) (assign errorMessage (set_inner (Text msg)))).

Definition updateProgress (percent : float) (msg : jsstring) : js unit :=
  progressBar ← getElementById "progressBar";
  statusText ← getElementById "processingStatus";
  container ← getElementById "progressContainer";
  when (is_present progressBar)
    (assign progressBar (set_width (Number_toString percent ++ lit "%")));;
  when (is_present statusText) (assign statusText (set_inner (Text msg)));;
  when (is_present container) (assign container (set_display block)).

Definition resetUploadForm : js unit :=
  hideAllSections;;
  f ← fileInput;
  when (is_present f) (assign f (set_value []));;
  modify (set_currentDocumentId None);;
  (* Show upload area *)
  uploadSection ← querySelector ".upload-section";
  when (is_present uploadSection) (assign uploadSection (set_display block)).

Definition getConfidenceBadgeClass (c : float) : jsstring :=
  if (0.8 <=? c)%float then lit "success"
  else if (0.6 <=? c)%float then lit "warning"
  else lit "danger".

(** *** Upload *)

Definition allowedTypes : list jsstring :=
  [ lit "application/pdf";
    lit "application/vnd.openxmlformats-officedocument.wordprocessingml.document";
    lit "image/jpeg"; lit "image/jpg"; lit "image/png" ].

Definition max_size : N := 16 * 1024 * 1024.

Definition invalid_type_message : jsstring :=
  lit "Invalid file type. Please upload PDF, DOCX, JPG, or PNG files.".
Definition too_large_message : jsstring :=
  lit "File too large. Maximum size is 16MB.".

(** The spinner [processDocument] puts on the clicked button. *)
Definition spinner_html : jsstring :=
  lit "<i class=" ++ dq ++ lit "fas fa-spinner fa-spin me-1" ++ dq
    ++ lit "></i>Processing...".

Definition processDocument (documentId : option jsstring) : js unit :=
  if negb (truthy_opt documentId) then showError (lit "No document ID provided")
  else
    (* Show spinner on clicked button *)
    event ← get window_event;
    match event with
    | Some ev =>
        let button := closest_button ev in
        assign button (set_disabled true);;
        assign button (set_inner (Html spinner_html))
    | None => mret tt
    end;;
    updateProgress 50 (lit "Extracting text using OCR...");;
    fetch (Request (lit "/process/" ++ default [] documentId) POST [] NoBody)
          ProcessReply.

Definition uploadFile (f : file) : js unit :=
  let formData := [(lit "file", f)] in
  (* Show processing section *)
  hideAllSections;;
  p ← processingSection;
  assign p (set_display block);;
  updateProgress 10 (lit "Uploading file...");;
  fetch (Request (lit "/upload") POST [] (FormData formData)) UploadReply.

(** The [.then(data => ...)] of [uploadFile]. *)
Definition uploadFile_then (data : option upload_response) : js unit :=
  match data with
  | None => throw_null                      (* data.success on null *)
  | Some d =>
      if up_success d then
        modify (set_currentDocumentId (document_id d));;
        updateProgress 30 (lit "File uploaded successfully. Starting processing...");;
        id ← get currentDocumentId;
        processDocument id
      else throw (Error (or_else (up_error d) (lit "Upload failed")))
  end.

(** The [.catch(error => ...)] of [uploadFile]. *)
Definition uploadFile_catch (error : js_error) : js unit :=
  showError (lit "Upload failed: " ++ message error).

(** The whole chain of [uploadFile] once the request has settled. *)
Definition uploadFile_settled (o : settled upload_response) : js unit :=
  match o with
  | Rejected e => uploadFile_catch e
  | Fulfilled data => try_catch (uploadFile_then data) uploadFile_catch
  end.

Definition handleFile (f : file) : js unit :=
  (* Validate file type *)
  if negb (bool_decide (file_type f ∈ allowedTypes)) then
    showError invalid_type_message
  (* Validate file size (16MB limit) *)
  else if max_size <? file_size f then
    showError too_large_message
  else uploadFile f.

(** [classList.add] and [classList.remove] *)
Definition add_class (c : jsstring) (e : element) : element :=
  if bool_decide (c ∈ classes e) then e else set_classes (classes e ++ [c]) e.
Definition remove_class (c : jsstring) (e : element) : element :=
  set_classes (filter (λ x, x ≠ c) (classes e)) e.

Definition handleDragOver : js unit :=
  a ← uploadArea; assign a (add_class (lit "drag-over")).

Definition handleDragLeave : js unit :=
  a ← uploadArea; assign a (remove_class (lit "drag-over")).

(** [files] is [e.dataTransfer.files]. *)
Definition handleDrop (files : list file) : js unit :=
  a ← uploadArea;
  assign a (remove_class (lit "drag-over"));;
  match files with
  | f :: _ => handleFile f
  | [] => mret tt
  end.

(** [files] is [e.target.files]. *)
Definition handleFileSelect (files : list file) : js unit :=
  match files with
  | f :: _ => handleFile f
  | [] => mret tt
  end.

(** *** Results *)

Definition badge_html (cls : jsstring) (txt : jsstring) : jsstring :=
  nl ++ spaces 8 ++ lit "<span class=" ++ dq ++ lit "badge bg-" ++ cls ++ dq ++ lit ">"
     ++ nl ++ spaces 12 ++ txt
     ++ nl ++ spaces 8 ++ lit "</span>"
     ++ nl ++ spaces 4.

Definition percent_text (c : float) : jsstring :=
  Number_toString (Math_round (c * 100)%float) ++ lit "%".

Definition extracted_html (t : jsstring) : jsstring :=
  lit "<pre class=" ++ dq ++ lit "text-wrap" ++ dq ++ lit ">" ++ t ++ lit "</pre>".

Definition showResults (data : option process_response) : js unit :=
  hideAllSections;;
  r ← resultsSection;
  assign r (set_display block);;
  (* Safely access nested values with fallback *)
  let docType := or_else ((data ≫= pr_classification) ≫= cls_type) (lit "Not classified") in
  let conf := default 0%float ((data ≫= pr_classification) ≫= confidence) in
  let routedTo := or_else ((data ≫= pr_routing) ≫= department) (lit "Unassigned") in
  documentType ← getElementById "documentType";
  assign documentType (set_inner (Text docType));;
  confidenceEl ← getElementById "confidence";
  assign confidenceEl
    (set_inner (Html (badge_html (getConfidenceBadgeClass conf) (percent_text conf))));;
  routedToEl ← getElementById "routedTo";
  assign routedToEl (set_inner (Text routedTo));;
  (* Update extracted text preview *)
  extractedTextDiv ← getElementById "extractedText";
  match data with
  | None => throw_null                      (* data.extracted_text on null *)
  | Some d =>
      assign extractedTextDiv
        (set_inner (Html (extracted_html
                            (or_else (extracted_text d) (lit "[No text extracted]")))))
  end;;
  (* Reset manual classification *)
  manualClassification ← getElementById "manualClassification";
  reclassifyBtn ← getElementById "reclassifyBtn";
  when (is_present manualClassification) (assign manualClassification (set_value []));;
  when (is_present reclassifyBtn) (assign reclassifyBtn (set_display none)).

(** The [.then(data => ...)] of [processDocument]. *)
Definition processDocument_then (data : option process_response) : js unit :=
  match data with
  | None => throw_null
  | Some d =>
      if pr_success d then
        updateProgress 80 (lit "Classifying document...");;
        setTimeout (ResultsTimer data)
      else throw (Error (or_else (pr_error d) (lit "Processing failed")))
  end.

Definition processDocument_catch (error : js_error) : js unit :=
  showError (lit "Processing failed: " ++ message error).

Definition processDocument_settled (o : settled process_response) : js unit :=
  match o with
  | Rejected e => processDocument_catch e
  | Fulfilled data => try_catch (processDocument_then data) processDocument_catch
  end.

(** The callback of [processDocument]'s [setTimeout]. *)
Definition processDocument_timer (data : option process_response) : js unit :=
  updateProgress 100 (lit "Processing complete!");;
  showResults data.

(** *** Alerts and manual reclassification *)

Definition alert_html_of (msg : jsstring) : jsstring :=
  nl ++ spaces 8 ++ msg
     ++ nl ++ spaces 8 ++ lit "<button type=" ++ dq ++ lit "button" ++ dq
     ++ lit " class=" ++ dq ++ lit "btn-close" ++ dq
     ++ lit " data-bs-dismiss=" ++ dq ++ lit "alert" ++ dq ++ lit "></button>"
     ++ nl ++ spaces 4.

Definition showAlert (msg : jsstring) (type : jsstring) : js unit :=
  id ← get next_alert;
  modify (set_next_alert (S id));;
  let alertDiv :=
    Alert id (lit "alert alert-" ++ type ++ lit " alert-dismissible fade show")
          (alert_html_of msg) in
  (* Insert at top of container *)
  container ← querySelector ".container";
  when (is_present container)
    (modify (λ s, set_alerts (alertDiv :: alerts s) s);;
     (* Auto-dismiss after 5 seconds *)
     setTimeout (AlertTimer id)).

(** The callback of [showAlert]'s [setTimeout]: the banner is removed if it is
    still in the document. *)
Definition showAlert_timer (id : nat) : js unit :=
  modify (λ s, set_alerts (filter (λ a, alert_id a ≠ id) (alerts s)) s).

Definition manual_badge_html : jsstring :=
  nl ++ spaces 16 ++ lit "<span class=" ++ dq ++ lit "badge bg-success" ++ dq
     ++ lit ">100%</span> <small class=" ++ dq ++ lit "text-muted" ++ dq
     ++ lit ">(Manual)</small>"
     ++ nl ++ spaces 12.

Definition handleManualReclassification : js unit :=
  m ← getElementById "manualClassification";
  newType ← read m value;
  cur ← get currentDocumentId;
  if negb (truthy newType) || negb (truthy_opt cur) then mret tt
  else
    fetch (Request (lit "/reclassify/" ++ default [] cur) POST json_headers
                   (JsonBody [(lit "new_type", newType)]))
          ReclassifyReply.

Definition handleManualReclassification_then (data : option reclassify_response) : js unit :=
  match data with
  | None => throw_null
  | Some d =>
      if rc_success d then
        (* Update display with new classification *)
        documentType ← getElementById "documentType";
        match rc_document d with
        | None => throw_null
        | Some doc => assign documentType (set_inner (Text (default [] (document_type doc))))
        end;;
        confidenceEl ← getElementById "confidence";
        assign confidenceEl (set_inner (Html manual_badge_html));;
        routedTo ← getElementById "routedTo";
        match rc_routing d with
        | None => throw_null
        | Some r => assign routedTo (set_inner (Text (default [] (department r))))
        end;;
        (* Hide reclassify button *)
        reclassifyBtn ← getElementById "reclassifyBtn";
        assign reclassifyBtn (set_display none);;
        manualClassification ← getElementById "manualClassification";
        assign manualClassification (set_value []);;
        showAlert (lit "Document reclassified successfully!") (lit "success")
      else throw (Error (or_else (rc_error d) (lit "Reclassification failed")))
  end.

Definition handleManualReclassification_catch (error : js_error) : js unit :=
  showAlert (lit "Reclassification failed: " ++ message error) (lit "danger").

Definition handleManualReclassification_settled (o : settled reclassify_response) : js unit :=
  match o with
  | Rejected e => handleManualReclassification_catch e
  | Fulfilled data =>
      try_catch (handleManualReclassification_then data) handleManualReclassification_catch
  end.

(** The change listener [initializeReclassification] puts on the
    manualClassification control. *)
Definition manualClassification_change : js unit :=
  this ← getElementById "manualClassification";
  reclassifyBtn ← getElementById "reclassifyBtn";
  v ← read this value;
  if truthy v && is_present reclassifyBtn
  then assign reclassifyBtn (set_display (lit "inline-block"))
  else when (is_present reclassifyBtn) (assign reclassifyBtn (set_display none)).

(** *** The type-distribution chart *)

Definition chart_palette : list jsstring :=
  [ lit "#0d6efd"; lit "#6f42c1"; lit "#d63384"; lit "#dc3545"; lit "#fd7e14";
    lit "#ffc107"; lit "#198754"; lit "#20c997"; lit "#0dcaf0"; lit "#6c757d" ].

(** [chart.destroy()]: the instance leaves the set of live charts. *)
Definition destroy (id : nat) : js unit :=
  modify (λ s, set_charts (filter (λ c, chart_id c ≠ id) (charts s)) s).

(** [new Chart(ctx, config)]: a fresh live instance. *)
Definition new_Chart (ctx : string) (kind : jsstring) (labels : list jsstring)
    (data : list float) (colors : list jsstring) (legend : jsstring) : js nat :=
  id ← get next_chart;
  modify (set_next_chart (S id));;
  modify (λ s, set_charts (Chart id ctx kind labels data colors legend :: charts s) s);;
  mret id.

(** [typeDistribution] is the object's own enumerable properties in
    enumeration order, [None] when it is undefined or null. *)
Definition updateTypeChart (typeDistribution : option (list (jsstring * float))) : js unit :=
  ctx ← getElementById "typeChart";
  match ctx with
  | None => mret tt
  | Some canvas =>
      match typeDistribution with
      | None => throw_null                  (* Object.keys(undefined) *)
      | Some dist =>
          let labels := dist.*1 in
          let data := dist.*2 in
          old ← get typeChart;
          match old with
          | Some c => destroy c
          | None => mret tt
          end;;
          c ← new_Chart canvas (lit "doughnut") labels data chart_palette (lit "bottom");
          modify (set_typeChart (Some c))
      end
  end.

(** *** The chat widget *)

Definition chat_line (who : string) (text : jsstring) : jsstring :=
  lit "<div><strong>" ++ lit who ++ lit ":</strong> " ++ text ++ lit "</div>".

Definition reply_text (r : reply) : jsstring :=
  match r with
  | ReplyUndefined => lit "undefined"
  | ReplyNull => lit "null"
  | ReplyText t => t
  end.

(** [messagesDiv.innerHTML += line]: the markup is read and the markup
    followed by [line] is assigned. *)
Definition append_html (r : eref) (line : jsstring) : js unit :=
  c ← read r inner;
  assign r (set_inner (Reparsed c line)).

(** The keypress listener of chat-input; [key] is [e.key]. *)
Definition chat_keypress (key : jsstring) : js unit :=
  if bool_decide (key = lit "Enter") then
    this ← getElementById "chat-input";
    v ← read this value;
    let msg := trim v in
    if truthy msg then
      messagesDiv ← getElementById "chat-messages";
      match messagesDiv with
      | None => throw_null                  (* messagesDiv.innerHTML on null *)
      | Some div =>
          append_html messagesDiv (chat_line "You" msg);;
          assign this (set_value []);;
          fetch (Request (lit "/api/chatbot") POST json_headers
                         (JsonBody [(lit "message", msg)]))
                (ChatReply div)
      end
    else mret tt
  else mret tt.

Definition chat_then (messagesDiv : string) (data : option chat_response) : js unit :=
  match data with
  | None => throw_null
  | Some d =>
      append_html (Some messagesDiv) (chat_line "Bot" (reply_text (response d)));;
      (* messagesDiv.scrollTop = messagesDiv.scrollHeight *)
      assign (Some messagesDiv) (λ e, set_scrollTop (Some (inner e)) e)
  end.

Definition chat_catch (messagesDiv : string) (_ : js_error) : js unit :=
  append_html (Some messagesDiv) (chat_line "Bot" (lit "Error processing your message.")).

Definition chat_settled (messagesDiv : string) (o : settled chat_response) : js unit :=
  match o with
  | Rejected e => chat_catch messagesDiv e
  | Fulfilled data => try_catch (chat_then messagesDiv data) (chat_catch messagesDiv)
  end.

(* ===================================================================== *)
(** ** The event loop *)
(* ===================================================================== *)

(** What can happen to the page: the user acts on a control the script
    listens to, a request settles, a timer fires, or the page calls one of
    the script's functions ([updateTypeChart] from the dashboard refresh,
    [processDocument] from a button of the page). *)
Inductive event :=
| FileChange (files : list file)                 (* change on fileInput *)
| DragOver
| DragLeave
| Drop (files : list file)                       (* drop on uploadArea *)
| ClickProcessAnother
| ClickRetry
| ManualClassificationChange (v : jsstring)      (* the user picks [v] *)
| ClickReclassify
| ChatInput (v : jsstring)                       (* the user edits the chat input *)
| ChatKeypress (key : jsstring)
| UploadSettled (i : nat) (o : settled upload_response)
| ProcessSettled (i : nat) (o : settled process_response)
| ReclassifySettled (i : nat) (o : settled reclassify_response)
| ChatSettled (i : nat) (o : settled chat_response)
| TimerFired (i : nat)
| CallUpdateTypeChart (d : option (list (jsstring * float)))
| CallProcessDocument (id : option jsstring) (ev : dom_event).

(** [initializeUpload] registers its listeners only when the three controls
    exist. *)
Definition upload_wired (s : state) : bool :=
  present "uploadArea" s && present "fileInput" s && present "browseBtn" s.

(** The listener an event reaches, if one is registered; [None] when the event
    finds no listener or no pending continuation. *)
Definition listener (ev : event) (s : state) : option (js unit) :=
  match ev with
  | FileChange files =>
      if upload_wired s then Some (handleFileSelect files) else None
  | DragOver => if upload_wired s then Some handleDragOver else None
  | DragLeave => if upload_wired s then Some handleDragLeave else None
  | Drop files => if upload_wired s then Some (handleDrop files) else None
  | ClickProcessAnother =>
      if upload_wired s && present "processAnotherBtn" s
      then Some resetUploadForm else None
  | ClickRetry =>
      if upload_wired s && present "retryBtn" s then Some resetUploadForm else None
  | ManualClassificationChange v =>
      if present "manualClassification" s
      then Some (assign (Some "manualClassification") (set_value v);;
                 manualClassification_change)
      else None
  | ClickReclassify =>
      if present "reclassifyBtn" s then Some handleManualReclassification else None
  | ChatInput v =>
      if present "chat-input" s
      then Some (assign (Some "chat-input") (set_value v)) else None
  | ChatKeypress key =>
      if present "chat-input" s then Some (chat_keypress key) else None
  | UploadSettled i o =>
      match pending s !! i with
      | Some UploadReply => Some (uploadFile_settled o)
      | _ => None
      end
  | ProcessSettled i o =>
      match pending s !! i with
      | Some ProcessReply => Some (processDocument_settled o)
      | _ => None
      end
  | ReclassifySettled i o =>
      match pending s !! i with
      | Some ReclassifyReply => Some (handleManualReclassification_settled o)
      | _ => None
      end
  | ChatSettled i o =>
      match pending s !! i with
      | Some (ChatReply div) => Some (chat_settled div o)
      | _ => None
      end
  | TimerFired i =>
      match pending s !! i with
      | Some (ResultsTimer data) => Some (processDocument_timer data)
      | Some (AlertTimer id) => Some (showAlert_timer id)
      | _ => None
      end
  | CallUpdateTypeChart d => Some (updateTypeChart d)
  | CallProcessDocument id _ => Some (processDocument id)
  end.

(** The continuation an event consumes. *)
Definition consumed (ev : event) : option nat :=
  match ev with
  | UploadSettled i _ | ProcessSettled i _ | ReclassifySettled i _
  | ChatSettled i _ | TimerFired i => Some i
  | _ => None
  end.

(** [window.event] while the listener runs: undefined in promise reactions
    and timer callbacks, the event itself during a dispatch. *)
Definition current_event (ev : event) : option dom_event :=
  match ev with
  | UploadSettled _ _ | ProcessSettled _ _ | ReclassifySettled _ _
  | ChatSettled _ _ | TimerFired _ | CallUpdateTypeChart _ => None
  | ClickProcessAnother => Some (DomEvent (Some "processAnotherBtn"))
  | ClickRetry => Some (DomEvent (Some "retryBtn"))
  | ClickReclassify => Some (DomEvent (Some "reclassifyBtn"))
  | CallProcessDocument _ e => Some e
  | _ => Some (DomEvent None)
  end.

(** One turn of the event loop; an exception no handler catches ends the turn
    and leaves the state as it is then. *)
Definition dispatch (s : state) (ev : event) : state :=
  match listener ev s with
  | None => s
  | Some handler =>
      let s1 := match consumed ev with
                | Some i => set_pending (delete i (pending s)) s
                | None => s
                end in
      let s2 := exec handler (set_window_event (current_event ev) s1) in
      set_window_event None s2
  end.

Definition run (s : state) (evs : list event) : state := foldl dispatch s evs.

(** The page right after the script has loaded. *)
Definition load (page : gmap string element) (null_msg : jsstring) : state :=
  State None None page None null_msg [] [] [] 0 [] 0.

(* ===================================================================== *)
(** ** Notions the properties are stated with *)
(* ===================================================================== *)

Definition upload_section : string := ".upload-section".

(** A change of the document alone. *)
Definition on_document (g : gmap string element → gmap string element) (s : state) : state :=
  set_document (g (document s)) s.

(** What [hideAllSections] does to the document. *)
Definition hide (d : gmap string element) : gmap string element :=
  alter (set_display none) "errorSection"
    (alter (set_display none) "resultsSection"
       (alter (set_display none) "processingSection" d)).

(** What [updateProgress] does to the document. *)
Definition progress (percent : float) (msg : jsstring) (d : gmap string element) :
    gmap string element :=
  alter (set_display block) "progressContainer"
    (alter (set_inner (Text msg)) "processingStatus"
       (alter (set_width (Number_toString percent ++ lit "%")) "progressBar" d)).

(** What [showError] does to a document that has the error section. *)
Definition show_error (msg : jsstring) (d : gmap string element) : gmap string element :=
  alter (set_inner (Text msg)) "errorMessage"
    (alter (set_display block) "errorSection" (hide d)).

(** What [uploadFile] does to a document that has the processing section. *)
Definition show_processing (d : gmap string element) : gmap string element :=
  progress 10 (lit "Uploading file...")
    (alter (set_display block) "processingSection" (hide d)).

(** The values [showResults] renders for a response. *)
Definition rendered_type (d : process_response) : jsstring :=
  or_else (pr_classification d ≫= cls_type) (lit "Not classified").
Definition rendered_confidence (d : process_response) : float :=
  default 0%float (pr_classification d ≫= confidence).
Definition rendered_department (d : process_response) : jsstring :=
  or_else (pr_routing d ≫= department) (lit "Unassigned").
Definition rendered_text (d : process_response) : jsstring :=
  or_else (extracted_text d) (lit "[No text extracted]").

(** [n] is the integer nearest to the value [m * 2^e], the upper one of the
    two when the value lies halfway: [n - 1/2 <= m * 2^e < n + 1/2]. *)
Definition nearest_integer (m : positive) (e : Z) (n : Z) : Prop :=
  ((2 * n - 1) * 2 ^ Z.max (- e) 0 ≤ 2 * Z.pos m * 2 ^ Z.max e 0
   < (2 * n + 1) * 2 ^ Z.max (- e) 0)%Z.

(** What [showResults] does to a document that has the results elements. *)
Definition show_results (d : process_response) (doc : gmap string element) :
    gmap string element :=
  alter (set_display none) "reclassifyBtn"
    (alter (set_value []) "manualClassification"
       (alter (set_inner (Html (extracted_html (rendered_text d)))) "extractedText"
          (alter (set_inner (Text (rendered_department d))) "routedTo"
             (alter (set_inner
                       (Html (badge_html
                                (getConfidenceBadgeClass (rendered_confidence d))
                                (percent_text (rendered_confidence d)))))
                    "confidence"
                (alter (set_inner (Text (rendered_type d))) "documentType"
                   (alter (set_display block) "resultsSection" (hide doc))))))).

(** The elements [showResults] writes to without checking for them. *)
Definition results_ready (s : state) : bool :=
  present "resultsSection" s && present "documentType" s && present "confidence" s
  && present "routedTo" s && present "extractedText" s.

(** What [resetUploadForm] does to the document. *)
Definition reset_form (d : gmap string element) : gmap string element :=
  alter (set_display block) upload_section
    (alter (set_value []) "fileInput" (hide d)).

(** The request [uploadFile] issues for a file. *)
Definition upload_request (f : file) : request :=
  Request (lit "/upload") POST [] (FormData [(lit "file", f)]).

(** The request [processDocument] issues for a document reference. *)
Definition process_request (id : jsstring) : request :=
  Request (lit "/process/" ++ id) POST [] NoBody.

(** The request the chat widget issues for a message. *)
Definition chat_request (msg : jsstring) : request :=
  Request (lit "/api/chatbot") POST json_headers (JsonBody [(lit "message", msg)]).

(** Readings of the document. *)
Definition display_of (id : string) (s : state) : option jsstring :=
  display <$> document s !! id.
Definition inner_of (id : string) (s : state) : option content :=
  inner <$> document s !! id.
Definition value_of (id : string) (s : state) : option jsstring :=
  value <$> document s !! id.

(** What the chat transcript reads as, where the model determines it. *)
Definition transcript (s : state) : option jsstring :=
  document s !! "chat-messages" ≫= λ e, serialization (inner e).


(** An element is on screen unless it is missing or its inline style hides it. *)
Definition visible (id : string) (d : gmap string element) : bool :=
  match d !! id with
  | Some e => negb (bool_decide (display e = none))
  | None => false
  end.

Definition shown (id : string) (s : state) : bool := visible id (document s).

(** The four sections of the workflow: the idle upload area and the three
    sections [hideAllSections] knows. *)
Definition result_sections : list string :=
  ["processingSection"; "resultsSection"; "errorSection"].
Definition workflow_sections : list string := upload_section :: result_sections.

Definition count_shown (ids : list string) (s : state) : nat :=
  length (filter (λ id, shown id s = true) ids).

(** The claim of the specification: one section on screen, no more, no less. *)
Definition exactly_one_section (s : state) : Prop :=
  count_shown workflow_sections s = 1%nat.

(** What the script maintains: processing, results and error exclude each other. *)
Definition at_most_one_result_section (s : state) : Prop :=
  (count_shown result_sections s ≤ 1)%nat.

Definition all_hidden (s : state) : Prop :=
  count_shown result_sections s = 0%nat.

(** The inline display styles of some elements. *)
Definition displays (ids : list string) (s : state) : list (option jsstring) :=
  (λ id, display_of id s) <$> ids.

(** A computation that keeps processing, results and error exclusive. *)
Definition safe {A} (c : js A) : Prop :=
  ∀ s, at_most_one_result_section s → at_most_one_result_section (exec c s).

(** The global [typeChart] and the live charts agree: no chart is live besides
    the one the global refers to. *)
Definition chart_inv (s : state) : Prop :=
  match typeChart s with
  | None => charts s = []
  | Some id => ∃ c, charts s = [c] ∧ chart_id c = id
  end ∧
  Forall (λ c, chart_id c < next_chart s)%nat (charts s).

(** The part of the state the charts live in. *)
Definition chart_view (s : state) : option nat * list chart * nat :=
  (typeChart s, charts s, next_chart s).

(** The chart [updateTypeChart] constructs for a distribution. *)
Definition type_chart (id : nat) (dist : list (jsstring * float)) : chart :=
  Chart id "typeChart" (lit "doughnut") (dist.*1) (dist.*2) chart_palette (lit "bottom").

(** The live charts once the one the global refers to has been destroyed. *)
Definition without_current (s : state) : list chart :=
  match typeChart s with
  | Some old => filter (λ c, chart_id c ≠ old) (charts s)
  | None => charts s
  end.

(** The state [updateTypeChart] leaves on a page that has the canvas. *)
Definition rebuilt (dist : list (jsstring * float)) (s : state) : state :=
  set_typeChart (Some (next_chart s))
    (set_charts (type_chart (next_chart s) dist :: without_current s)
       (set_next_chart (S (next_chart s)) s)).

(** A computation that leaves an aspect [π] of the state as it found it. *)
Definition preserves {A X} (π : state → X) (c : js A) : Prop :=
  ∀ s, π (exec c s) = π s.

(** *** A page and inputs to run the script on *)

Module Sample.

Definition el (d : jsstring) : element := Element d [] (Text []) [] false [] None.

(** The upload page: the three result sections start hidden. *)
Definition page : gmap string element :=
  list_to_map
    [ ("uploadArea", el []); ("fileInput", el []); ("browseBtn", el []);
      (upload_section, el []);
      ("processingSection", el none); ("resultsSection", el none);
      ("errorSection", el none); ("errorMessage", el []);
      ("progressBar", el []); ("processingStatus", el []);
      ("progressContainer", el []);
      ("documentType", el []); ("confidence", el []); ("routedTo", el []);
      ("extractedText", el []);
      ("manualClassification", el []); ("reclassifyBtn", el none);
      ("processAnotherBtn", el []); ("retryBtn", el []);
      ("typeChart", el []);
      ("chat-input", el []); ("chat-messages", Element [] [] (Html []) [] false [] None) ].

Definition start : state := load page (lit "Cannot set properties of null").

Definition pdf : file := File (lit "invoice.pdf") (lit "application/pdf") 2048.
Definition text_file : file := File (lit "notes.txt") (lit "text/plain") 2048.
Definition huge_pdf : file :=
  File (lit "scan.pdf") (lit "application/pdf") (17 * 1024 * 1024).
Definition huge_text_file : file :=
  File (lit "dump.txt") (lit "text/plain") (17 * 1024 * 1024).

Definition uploaded (id : jsstring) : upload_response :=
  UploadResponse true (Some id) None.
Definition upload_refused : upload_response :=
  UploadResponse false None (Some (lit "No file selected")).

Definition processed (c : float) : process_response :=
  ProcessResponse true (Some (Classification (Some (lit "Invoice")) (Some c)))
    (Some (Routing (Some (lit "Accounting")))) (Some (lit "Total due: 120")) None.
Definition processed_bare : process_response :=
  ProcessResponse true None None None None.

(** The page while an upload is in flight. *)
Definition uploading : state := run start [FileChange [pdf]].

(** The page once the document [A] has been uploaded and processed. *)
Definition with_results : state :=
  run uploading
    [ UploadSettled 0 (Fulfilled (Some (uploaded (lit "A"))));
      ProcessSettled 0 (Fulfilled (Some (processed 0.85)));
      TimerFired 0 ].

Definition distribution : list (jsstring * float) :=
  [(lit "Invoice", 3%float); (lit "Resume", 1%float)].

End Sample.

(* ===================================================================== *)
(** ** The dashboard and the pipeline demo *)
(* ===================================================================== *)

(** The requests of this part are followed through their chains directly:
    [issue] records the request, and the chain that waits for it is the
    function named [..._settled] beside it. *)
Definition issue (r : request) : js unit :=
  modify (λ s, set_network (r :: network s) s).

Definition GET : jsstring := lit "GET".

(** [list.forEach(f)] *)
Fixpoint forEach {A} (l : list A) (f : A → js unit) : js unit :=
  match l with
  | [] => mret tt
  | x :: l' => f x;; forEach l' f
  end.

(** [list.forEach((x, index) => f index x)], counting from [i]. *)
Fixpoint forEach_from {A} (i : nat) (l : list A) (f : nat → A → js unit) : js unit :=
  match l with
  | [] => mret tt
  | x :: l' => f i x;; forEach_from (S i) l' f
  end.

(** [promise.finally(f)]: [f] runs whatever the outcome of [c], which is kept
    unless [f] throws. *)
Definition finally {A} (c : js A) (f : js unit) : js A :=
  λ s, match c s with
       | (r, s') =>
           match f s' with
           | (Normal _, s'') => (r, s'')
           | (Abrupt e, s'') => (Abrupt e, s'')
           end
       end.

(** ToBoolean on a number: zero (of either sign) and NaN are falsy. *)
Definition truthy_number (x : float) : bool :=
  negb (PrimFloat.is_zero x || PrimFloat.is_nan x).

(** [v || 0] for a possibly absent number [v]. *)
Definition or_zero (v : option float) : float :=
  match v with
  | Some x => if truthy_number x then x else 0%float
  | None => 0%float
  end.

(** *** Statistics *)

Record stats_response := StatsResponse {
  total_documents : option float;
  completed_documents : option float;
  processing_documents : option float;
  error_documents : option float;
  type_distribution : option (list (jsstring * float))
}.

(** The object [elements] of [updateStatsCards], in the order of its keys. *)
Definition stats_cards (st : stats_response) : list (string * option float) :=
  [ ("totalDocs", total_documents st);
    ("completedDocs", completed_documents st);
    ("processingDocs", processing_documents st);
    ("errorDocs", error_documents st) ].

Definition count_text (v : option float) : content :=
  Text (Number_toString (or_zero v)).

Definition updateStatsCards (stats : option stats_response) : js unit :=
  match stats with
  | None => throw_null                      (* stats.total_documents on null *)
  | Some st =>
      forEach (stats_cards st)
        (λ '(id, v),
           element ← getElementById id;
           when (is_present element) (assign element (set_inner (count_text v))))
  end.

Definition loadDashboardStats : js unit :=
  issue (Request (lit "/api/dashboard_stats") GET [] NoBody).

(** The [.then(data => ...)] of [loadDashboardStats]: the four cards are
    written to without a check for them. *)
Definition loadDashboardStats_then (data : option stats_response) : js unit :=
  match data with
  | None => throw_null
  | Some d =>
      forEach (stats_cards d)
        (λ '(id, v),
           element ← getElementById id;
           assign element (set_inner (count_text v)))
  end.

Definition loadDashboardStats_catch (error : js_error) : js unit :=
  showAlert (lit "Failed to load dashboard stats: " ++ message error) (lit "danger").

Definition loadDashboardStats_settled (o : settled stats_response) : js unit :=
  match o with
  | Rejected e => loadDashboardStats_catch e
  | Fulfilled data => try_catch (loadDashboardStats_then data) loadDashboardStats_catch
  end.

(** *** The routing summary *)

Definition routingMap : list (jsstring * jsstring) :=
  [ (lit "Invoice", lit "Accounting");
    (lit "Resume", lit "Human Resources");
    (lit "Contract", lit "Legal");
    (lit "Bank Statement", lit "Finance");
    (lit "Other", lit "General Office") ].

(** The own property of an object literal under a key. *)
Fixpoint own_property (key : jsstring) (o : list (jsstring * jsstring)) : option jsstring :=
  match o with
  | [] => None
  | (k, v) :: o' => if bool_decide (k = key) then Some v else own_property key o'
  end.

(** [routingMap[type] || 'General Office'].  A key the literal does not have
    is looked up on Object.prototype: [inherited key] is the text a truthy
    property found there interpolates to (engine and page specific), [None]
    when there is no such property. *)
Definition department_for (inherited : jsstring → option jsstring) (type : jsstring) :
    jsstring :=
  match own_property type routingMap with
  | Some d => if truthy d then d else lit "General Office"
  | None =>
      match inherited type with
      | Some text => text
      | None => lit "General Office"
      end
  end.

Definition routing_row (type department : jsstring) (count : float) : jsstring :=
  nl ++ spaces 12 ++ lit "<div class=" ++ dq
     ++ lit "d-flex justify-content-between align-items-center mb-2" ++ dq ++ lit ">"
     ++ nl ++ spaces 16 ++ lit "<span><strong>" ++ type ++ lit ":</strong> "
     ++ department ++ lit "</span>"
     ++ nl ++ spaces 16 ++ lit "<span class=" ++ dq ++ lit "badge bg-primary" ++ dq
     ++ lit ">" ++ Number_toString count ++ lit "</span>"
     ++ nl ++ spaces 12 ++ lit "</div>"
     ++ nl ++ spaces 8.

Definition no_documents_html : jsstring :=
  lit "<p class=" ++ dq ++ lit "text-muted" ++ dq
    ++ lit ">No documents processed yet</p>".

(** The markup the loop of [updateRoutingSummary] builds. *)
Definition routing_rows (inherited : jsstring → option jsstring)
    (dist : list (jsstring * float)) : jsstring :=
  concat ((λ '(type, count), routing_row type (department_for inherited type) count)
            <$> dist).

Definition updateRoutingSummary (inherited : jsstring → option jsstring)
    (typeDistribution : option (list (jsstring * float))) : js unit :=
  routingSummary ← getElementById "routingSummary";
  match routingSummary with
  | None => mret tt
  | Some _ =>
      match typeDistribution with
      | None => throw_null                  (* Object.keys(undefined) *)
      | Some dist =>
          let html := routing_rows inherited dist in
          if truthy html
          then assign routingSummary (set_inner (Html html))
          else assign routingSummary (set_inner (Html no_documents_html))
      end
  end.

(** *** Analytics *)

(** How [fetch] itself settles, for the chain that looks at the response:
    rejected, or a response with its [ok] flag, its status and what
    [response.json()] settles to. *)
Inductive http_result (A : Type) :=
| NoResponse (e : js_error)
| HttpResponse (ok : bool) (status : N) (body : settled A).
Arguments NoResponse {A} e.
Arguments HttpResponse {A} ok status body.

Definition loadAnalytics : js unit :=
  issue (Request (lit "/api/stats") GET [] NoBody).

Definition loadAnalytics_then (inherited : jsstring → option jsstring)
    (data : option stats_response) : js unit :=
  updateStatsCards data;;
  match data with
  | None => throw_null
  | Some d =>
      updateTypeChart (type_distribution d);;
      updateRoutingSummary inherited (type_distribution d)
  end.

(** The [.catch] of [loadAnalytics] writes to the console only. *)
Definition loadAnalytics_catch (error : js_error) : js unit := mret tt.

Definition loadAnalytics_settled (inherited : jsstring → option jsstring)
    (r : http_result stats_response) : js unit :=
  match r with
  | NoResponse e => loadAnalytics_catch e
  | HttpResponse ok status body =>
      if negb ok then loadAnalytics_catch (Error (lit "HTTP " ++ decimal status))
      else
        match body with
        | Rejected e => loadAnalytics_catch e
        | Fulfilled data =>
            try_catch (loadAnalytics_then inherited data) loadAnalytics_catch
        end
  end.

(** *** The pipeline demo *)

(** A number of a JSON answer as arithmetic sees it: a missing field is
    undefined (NaN), a null field counts as zero. *)
Inductive json_number :=
| NumberUndefined
| NumberNull
| NumberValue (x : float).

Definition to_number (v : json_number) : float :=
  match v with
  | NumberUndefined => PrimFloat.nan
  | NumberNull => 0%float
  | NumberValue x => x
  end.

(** The answer of /api/pipeline-demo.  An entry of [pipeline_demo] may be
    null and may lack its [classification_result]; the fields a template
    interpolates may be missing or null. *)
Record classification_result := ClassificationResult {
  cr_type : reply;
  cr_confidence : json_number;
  cr_method : reply
}.

Record demo_result := DemoResult {
  sample_text : reply;
  demo_classification : option classification_result
}.

Record pipeline_response := PipelineResponse {
  pl_success : bool;
  pipeline_stages : option (list jsstring);
  pipeline_demo : option (list (jsstring * option demo_result));
  pl_error : reply
}.

(** [confidence] is a percentage here. *)
Definition getConfidenceColor (c : float) : jsstring :=
  if (80 <=? c)%float then lit "success"
  else if (60 <=? c)%float then lit "warning"
  else lit "danger".

(** [s.replace(from, to)] for a one-character pattern: the first occurrence
    only. *)
Fixpoint replace_first (from : N) (to : jsstring) (s : jsstring) : jsstring :=
  match s with
  | [] => []
  | c :: s' => if c =? from then to ++ s' else c :: replace_first from to s'
  end.

(** The class and the [innerHTML] of the list item of a stage. *)
Definition stage_class : jsstring :=
  lit "list-group-item d-flex justify-content-between align-items-center".

Definition stage_html (index : nat) (stage : jsstring) : jsstring :=
  nl ++ spaces 12 ++ stage
     ++ nl ++ spaces 12 ++ lit "<span class=" ++ dq
     ++ lit "badge bg-primary rounded-pill" ++ dq ++ lit ">"
     ++ Number_toString (of_Z_small (Z.of_nat index) + 1)%float ++ lit "</span>"
     ++ nl ++ spaces 8.

(** The class and the [innerHTML] of the card of a sample. *)
Definition card_class : jsstring := lit "card mb-2".

Definition card_html (docType : jsstring) (result : demo_result)
    (classificationResult : classification_result) : jsstring :=
  let confidence :=
    Math_round (to_number (cr_confidence classificationResult) * 100)%float in
  nl ++ spaces 12 ++ lit "<div class=" ++ dq ++ lit "card-body p-2" ++ dq ++ lit ">"
     ++ nl ++ spaces 16 ++ lit "<h6 class=" ++ dq ++ lit "card-title text-capitalize"
     ++ dq ++ lit ">" ++ replace_first 95 (lit " ") docType ++ lit "</h6>"
     ++ nl ++ spaces 16 ++ lit "<p class=" ++ dq ++ lit "card-text small" ++ dq
     ++ lit ">" ++ dq ++ reply_text (sample_text result) ++ dq ++ lit "</p>"
     ++ nl ++ spaces 16 ++ lit "<div class=" ++ dq
     ++ lit "d-flex justify-content-between align-items-center" ++ dq ++ lit ">"
     ++ nl ++ spaces 20 ++ lit "<span class=" ++ dq ++ lit "badge bg-"
     ++ getConfidenceColor confidence ++ dq ++ lit ">"
     ++ reply_text (cr_type classificationResult) ++ lit "</span>"
     ++ nl ++ spaces 20 ++ lit "<small class=" ++ dq ++ lit "text-muted" ++ dq
     ++ lit ">" ++ Number_toString confidence ++ lit "% confidence</small>"
     ++ nl ++ spaces 16 ++ lit "</div>"
     ++ nl ++ spaces 16 ++ lit "<small class=" ++ dq ++ lit "text-muted" ++ dq
     ++ lit ">" ++ reply_text (cr_method classificationResult) ++ lit "</small>"
     ++ nl ++ spaces 12 ++ lit "</div>"
     ++ nl ++ spaces 8.

(** [container.appendChild(el)] for an element [el] created by
    [document.createElement(tag)] and given [className = cls] and
    [innerHTML = html]. *)
Definition appendChild (container : eref) (tag : string) (cls html : jsstring) :
    js unit :=
  c ← read container inner;
  assign container (set_inner (Child c tag cls html)).

Definition displayPipelineResults (data : pipeline_response) : js unit :=
  (* Display pipeline stages *)
  stagesContainer ← getElementById "pipelineStages";
  assign stagesContainer (set_inner (Html []));;
  match pipeline_stages data with
  | None => throw_null
  | Some stages =>
      forEach_from 0 stages
        (λ index stage,
           appendChild stagesContainer "li" stage_class (stage_html index stage))
  end;;
  (* Display sample results *)
  resultsContainer ← getElementById "sampleResults";
  assign resultsContainer (set_inner (Html []));;
  match pipeline_demo data with
  | None => throw_null
  | Some demo =>
      forEach demo
        (λ '(docType, result),
           match result with
           | None => throw_null             (* result.classification_result *)
           | Some result =>
               match demo_classification result with
               | None => throw_null         (* classificationResult.confidence *)
               | Some classificationResult =>
                   appendChild resultsContainer "div" card_class
                     (card_html docType result classificationResult)
               end
           end)
  end.

Definition showMessage (msg type : jsstring) : js unit := showAlert msg type.

Definition loadPipelineDemo : js unit :=
  demoDiv ← getElementById "pipelineDemo";
  loadingDiv ← getElementById "pipelineLoading";
  (* Show loading, hide demo *)
  assign demoDiv (set_display none);;
  assign loadingDiv (set_display block);;
  issue (Request (lit "/api/pipeline-demo") GET [] NoBody).

Definition loadPipelineDemo_then (demoDiv : string) (data : option pipeline_response) :
    js unit :=
  match data with
  | None => throw_null
  | Some d =>
      if pl_success d then
        displayPipelineResults d;;
        assign (Some demoDiv) (set_display block)
      else
        showMessage (lit "Error running pipeline demo: " ++ reply_text (pl_error d))
                    (lit "error")
  end.

Definition loadPipelineDemo_catch (error : js_error) : js unit :=
  showAlert (lit "Error running pipeline demo") (lit "danger").

(** The chain of [loadPipelineDemo], closed over the two elements it looked
    up before the request. *)
Definition loadPipelineDemo_settled (demoDiv loadingDiv : string)
    (o : settled pipeline_response) : js unit :=
  finally
    match o with
    | Rejected e => loadPipelineDemo_catch e
    | Fulfilled data =>
        try_catch (loadPipelineDemo_then demoDiv data) loadPipelineDemo_catch
    end
    (assign (Some loadingDiv) (set_display none)).

(* ===================================================================== *)
(** ** The reclassification dialog of the document list *)
(* ===================================================================== *)

(** [submitReclassification] acts on the window besides the page: it shows
    [alert] dialogs, hides the Bootstrap modal of reclassifyModal and reloads
    the location. *)
Record window := Window {
  page : state;
  dialogs : list jsstring;          (* the texts shown by alert(...), the latest first *)
  modal_instance : option bool;     (* the Modal instance of reclassifyModal, if one was
                                       created, and whether it is shown *)
  reloaded : bool                   (* location.reload() was called *)
}.

Definition set_page (v : state) (w : window) : window :=
  Window v (dialogs w) (modal_instance w) (reloaded w).
Definition set_dialogs (v : list jsstring) (w : window) : window :=
  Window (page w) v (modal_instance w) (reloaded w).
Definition set_modal_instance (v : option bool) (w : window) : window :=
  Window (page w) (dialogs w) v (reloaded w).
Definition set_reloaded (v : bool) (w : window) : window :=
  Window (page w) (dialogs w) (modal_instance w) v.

(** A piece of script that acts on the window. *)
Definition wjs (A : Type) : Type := window → completion A * window.

#[global] Instance wjs_ret : MRet wjs := λ A a w, (Normal a, w).
#[global] Instance wjs_bind : MBind wjs :=
  λ A B k c w, match c w with
               | (Normal a, w') => k a w'
               | (Abrupt e, w') => (Abrupt e, w')
               end.

(** A piece of script that acts on the page only. *)
Definition on_page {A} (c : js A) : wjs A :=
  λ w, match c (page w) with (r, s') => (r, set_page s' w) end.

Definition wtry_catch {A} (c : wjs A) (h : js_error → wjs A) : wjs A :=
  λ w, match c w with
       | (Normal a, w') => (Normal a, w')
       | (Abrupt e, w') => h e w'
       end.

(** [alert(msg)] *)
Definition window_alert (msg : jsstring) : wjs unit :=
  λ w, (Normal tt, set_dialogs (msg :: dialogs w) w).

(** [bootstrap.Modal.getInstance(el)]: the instance created for the element,
    null when there is none or when [el] is null. *)
Definition Modal_getInstance (el : eref) : wjs (option bool) :=
  λ w, (Normal (match el with Some _ => modal_instance w | None => None end), w).

(** [modal.hide()] *)
Definition Modal_hide (modal : option bool) : wjs unit :=
  match modal with
  | Some _ => λ w, (Normal tt, set_modal_instance (Some false) w)
  | None => on_page throw_null
  end.

(** [location.reload()] *)
Definition location_reload : wjs unit :=
  λ w, (Normal tt, set_reloaded true w).

Definition submitReclassification : wjs unit :=
  documentId ← on_page (e ← getElementById "reclassifyDocId"; read e value);
  newType ← on_page (e ← getElementById "newType"; read e value);
  if negb (truthy newType) then
    window_alert (lit "Please select a new document type")
  else
    on_page (issue (Request (lit "/reclassify/" ++ documentId) POST json_headers
                            (JsonBody [(lit "new_type", newType)]))).

Definition submitReclassification_then (data : option reclassify_response) : wjs unit :=
  match data with
  | None => on_page throw_null
  | Some d =>
      if rc_success d then
        (* Close modal *)
        el ← on_page (getElementById "reclassifyModal");
        modal ← Modal_getInstance el;
        Modal_hide modal;;
        (* Refresh the page to show updated data *)
        location_reload
      else on_page (throw (Error (or_else (rc_error d) (lit "Reclassification failed"))))
  end.

Definition submitReclassification_catch (error : js_error) : wjs unit :=
  window_alert (lit "Reclassification failed: " ++ message error).

Definition submitReclassification_settled (o : settled reclassify_response) : wjs unit :=
  match o with
  | Rejected e => submitReclassification_catch e
  | Fulfilled data =>
      wtry_catch (submitReclassification_then data) submitReclassification_catch
  end.

(* ===================================================================== *)
(** ** Notions for the error paths and the other handlers *)
(* ===================================================================== *)

(** Why a settled upload chain ends in its [.catch], and with which text;
    [None] when the upload succeeded. *)
Definition upload_failure (o : settled upload_response) (s : state) : option jsstring :=
  match o with
  | Rejected e => Some (message e)
  | Fulfilled None => Some (null_message s)
  | Fulfilled (Some d) =>
      if up_success d then None else Some (or_else (up_error d) (lit "Upload failed"))
  end.

(** The same for the processing chain. *)
Definition process_failure (o : settled process_response) (s : state) : option jsstring :=
  match o with
  | Rejected e => Some (message e)
  | Fulfilled None => Some (null_message s)
  | Fulfilled (Some d) =>
      if pr_success d then None else Some (or_else (pr_error d) (lit "Processing failed"))
  end.

(** The same for the reclassification chain, for the answers that fail
    before anything is rendered. *)
Definition reclassify_failure (o : settled reclassify_response) (s : state) :
    option jsstring :=
  match o with
  | Rejected e => Some (message e)
  | Fulfilled None => Some (null_message s)
  | Fulfilled (Some d) =>
      if rc_success d then None
      else Some (or_else (rc_error d) (lit "Reclassification failed"))
  end.

(** The banner [showAlert] builds. *)
Definition banner (id : nat) (msg type : jsstring) : alert :=
  Alert id (lit "alert alert-" ++ type ++ lit " alert-dismissible fade show")
        (alert_html_of msg).

(** The request [handleManualReclassification] issues. *)
Definition reclassify_request (id newType : jsstring) : request :=
  Request (lit "/reclassify/" ++ id) POST json_headers
          (JsonBody [(lit "new_type", newType)]).

(** The banners on the page are all older than the next one created. *)
Definition alerts_fresh (s : state) : Prop :=
  Forall (λ a, alert_id a < next_alert s)%nat (alerts s).

(** The requests the upload page issues. *)
Definition workflow_request (r : request) : Prop :=
  (∃ f, r = upload_request f) ∨
  (∃ x, x ≠ [] ∧ r = process_request x) ∨
  (∃ x t, x ≠ [] ∧ t ≠ [] ∧ r = reclassify_request x t) ∨
  (∃ v, trim v ≠ [] ∧ r = chat_request (trim v)).

(** A computation that issues at most one request, and only such a one. *)
Definition sends {A} (c : js A) : Prop :=
  ∀ s, network (exec c s) = network s ∨
       ∃ r, workflow_request r ∧ network (exec c s) = r :: network s.

Definition classes_of (id : string) (s : state) : option (list jsstring) :=
  classes <$> document s !! id.

(** What a successful reclassification renders. *)
Definition reclassified (type dept : jsstring) (d : gmap string element) :
    gmap string element :=
  alter (set_value []) "manualClassification"
    (alter (set_display none) "reclassifyBtn"
       (alter (set_inner (Text dept)) "routedTo"
          (alter (set_inner (Html manual_badge_html)) "confidence"
             (alter (set_inner (Text type)) "documentType" d)))).

(** The page after [showAlert]: the banner on top and its timer queued when
    the page has a container, only the banner's identity used up otherwise. *)
Definition alerted (msg type : jsstring) (s : state) : state :=
  let id := next_alert s in
  if present ".container" s
  then set_pending (pending s ++ [AlertTimer id])
         (set_alerts (banner id msg type :: alerts s) (set_next_alert (S id) s))
  else set_next_alert (S id) s.

(** The banners and the identity of the next one. *)
Definition alert_view (s : state) : list alert * nat := (alerts s, next_alert s).

(** A computation that keeps an invariant of the page. *)
Definition keeps {A} (I : state → Prop) (c : js A) : Prop :=
  ∀ s, I s → I (exec c s).

(** What [updateStatsCards] does to the document. *)
Definition stats_rendered (st : stats_response) (d : gmap string element) :
    gmap string element :=
  alter (set_inner (count_text (error_documents st))) "errorDocs"
    (alter (set_inner (count_text (processing_documents st))) "processingDocs"
       (alter (set_inner (count_text (completed_documents st))) "completedDocs"
          (alter (set_inner (count_text (total_documents st))) "totalDocs" d))).

(** The identifiers of the four cards. *)
Definition card_ids : list string :=
  ["totalDocs"; "completedDocs"; "processingDocs"; "errorDocs"].

(** What the script tells the user and the server: banners, requests,
    continuations, and the stored reference. *)
Definition outcome_view (s : state) :
    list alert * nat * list request * list task * option jsstring :=
  (alerts s, next_alert s, network s, pending s, currentDocumentId s).

(** The rows [updateRoutingSummary] renders for a distribution. *)
Definition routing_summary_html (inherited : jsstring → option jsstring)
    (dist : list (jsstring * float)) : jsstring :=
  if bool_decide (dist = []) then no_documents_html else routing_rows inherited dist.

(** The children of a container after elements of one tag and class have
    been appended to those of [c], one for each [innerHTML] of [items]. *)
Definition appended (c : content) (tag : string) (cls : jsstring)
    (items : list jsstring) : content :=
  foldl (λ c h, Child c tag cls h) c items.

(** The card of an entry of [pipeline_demo], when the entry can be rendered:
    it is not null and has its classification result. *)
Definition card_of (entry : jsstring * option demo_result) : option jsstring :=
  result ← entry.2;
  classificationResult ← demo_classification result;
  Some (card_html entry.1 result classificationResult).

(** The cards of the entries before the first one that cannot be rendered,
    and whether every entry can. *)
Fixpoint cards_until (demo : list (jsstring * option demo_result)) :
    list jsstring * bool :=
  match demo with
  | [] => ([], true)
  | entry :: demo' =>
      match card_of entry with
      | Some card => let '(cards, ok) := cards_until demo' in (card :: cards, ok)
      | None => ([], false)
      end
  end.

(** Whether [displayPipelineResults] can go through: the two containers
    exist, the answer has its stages and its sample results, and every
    sample can be rendered. *)
Definition pipeline_renders (d : pipeline_response) (s : state) : bool :=
  present "pipelineStages" s && bool_decide (is_Some (pipeline_stages d))
  && present "sampleResults" s
  && match pipeline_demo d with
     | Some demo => (cards_until demo).2
     | None => false
     end.

(** Whether the chain of [loadPipelineDemo] gets to display the demo. *)
Definition pipeline_shown (o : settled pipeline_response) (s : state) : bool :=
  match o with
  | Fulfilled (Some d) => pl_success d && pipeline_renders d s
  | _ => false
  end.

(** The banner the chain of [loadPipelineDemo] raises: its text and its type,
    [None] when the demo is displayed. *)
Definition pipeline_banner (o : settled pipeline_response) (s : state) :
    option (jsstring * jsstring) :=
  match o with
  | Fulfilled (Some d) =>
      if pl_success d then
        if pipeline_renders d s then None
        else Some (lit "Error running pipeline demo", lit "danger")
      else Some (lit "Error running pipeline demo: " ++ reply_text (pl_error d),
                 lit "error")
  | _ => Some (lit "Error running pipeline demo", lit "danger")
  end.

Definition pipeline_request : request :=
  Request (lit "/api/pipeline-demo") GET [] NoBody.

(** *** Pages and answers to run the other handlers on *)

Module Board.

(** The upload page inside the layout's container. *)
Definition page : gmap string element :=
  <[".container" := Sample.el []]> Sample.page.

(** The results page inside the layout's container. *)
Definition results : state :=
  on_document (insert ".container" (Sample.el [])) Sample.with_results.

Definition reclassified_ok : reclassify_response :=
  ReclassifyResponse true (Some (ReclassifiedDocument (Some (lit "Invoice"))))
    (Some (Routing (Some (lit "Finance")))) None.

Definition reclassify_refused : reclassify_response :=
  ReclassifyResponse false None None (Some (lit "Unknown type")).

(** The document list with its reclassification dialog open on document 7. *)
Definition list_page : gmap string element :=
  list_to_map
    [ ("reclassifyModal", Sample.el block);
      ("reclassifyDocId", Element [] [] (Text []) (lit "7") false [] None);
      ("newType", Element [] [] (Text []) (lit "Contract") false [] None) ].

Definition list_window : window :=
  Window (load list_page (lit "null")) [] (Some true) false.

(** The dashboard, with the pipeline demo. *)
Definition dashboard_page : gmap string element :=
  list_to_map
    [ (".container", Sample.el []);
      ("totalDocs", Sample.el []); ("completedDocs", Sample.el []);
      ("processingDocs", Sample.el []); ("errorDocs", Sample.el []);
      ("typeChart", Sample.el []);
      ("routingSummary", Element [] [] (Html []) [] false [] None);
      ("pipelineDemo", Sample.el none); ("pipelineLoading", Sample.el none);
      ("pipelineStages", Element [] [] (Html (lit "<li>old</li>")) [] false [] None);
      ("sampleResults", Element [] [] (Html []) [] false [] None) ].

Definition dashboard : state := load dashboard_page (lit "null").

(** A dashboard that lacks the card of the completed documents. *)
Definition dashboard_without_card : state :=
  on_document (delete "completedDocs") dashboard.

Definition stats : stats_response :=
  StatsResponse (Some 4%float) (Some 3%float) None (Some 0%float)
                (Some Sample.distribution).

Definition bank_statement : demo_result :=
  DemoResult (ReplyText (lit "Balance: 10"))
    (Some (ClassificationResult (ReplyText (lit "Bank Statement"))
                                (NumberValue 0.795%float)
                                (ReplyText (lit "keywords")))).

Definition pipeline : pipeline_response :=
  PipelineResponse true
    (Some [lit "OCR & layout"; lit "Classification"])
    (Some [(lit "bank_statement", Some bank_statement)])
    ReplyUndefined.

(** An answer whose second sample lacks its classification result. *)
Definition pipeline_broken : pipeline_response :=
  PipelineResponse true
    (Some [lit "OCR"])
    (Some [(lit "bank_statement", Some bank_statement);
           (lit "memo", Some (DemoResult (ReplyText (lit "Hello")) None))])
    ReplyUndefined.

End Board.

(* ===================================================================== *)
(** ** The number model on known values *)
(* ===================================================================== *)

Section NumberExamples.
Local Open Scope float_scope.
Example ts1 : Number_toString 0.1 = lit "0.1". Proof. vm_compute. reflexivity. Qed.
Example ts2 : Number_toString (0.1 + 0.2) = lit "0.30000000000000004". Proof. vm_compute. reflexivity. Qed.
Example ts3 : Number_toString 1e21 = lit "1e+21". Proof. vm_compute. reflexivity. Qed.
Example ts4 : Number_toString 1e-7 = lit "1e-7". Proof. vm_compute. reflexivity. Qed.
Example ts5 : Number_toString 0.000001 = lit "0.000001". Proof. vm_compute. reflexivity. Qed.
Example ts6 : Number_toString 123456789012345680000 = lit "123456789012345680000". Proof. vm_compute. reflexivity. Qed.
Example ts7 : Number_toString 5e-324 = lit "5e-324". Proof. vm_compute. reflexivity. Qed.
Example ts8 : Number_toString 1.7976931348623157e308 = lit "1.7976931348623157e+308". Proof. vm_compute. reflexivity. Qed.
Example ts9 : Number_toString 9007199254740992 = lit "9007199254740992". Proof. vm_compute. reflexivity. Qed.
Example ts10 : Number_toString (1 / 3) = lit "0.3333333333333333". Proof. vm_compute. reflexivity. Qed.
Example ts11 : Number_toString (100 / 3) = lit "33.333333333333336". Proof. vm_compute. reflexivity. Qed.
Example ts12 : Number_toString (2 / 3) = lit "0.6666666666666666". Proof. vm_compute. reflexivity. Qed.
Example ts13 : Number_toString 1180591620717411303424 = lit "1.1805916207174113e+21". Proof. vm_compute. reflexivity. Qed.
Example ts14 : Number_toString (-4.35) = lit "-4.35". Proof. vm_compute. reflexivity. Qed.
Example ts15 : Number_toString 100 = lit "100". Proof. vm_compute. reflexivity. Qed.
Example ts16 : Number_toString 1.5e-10 = lit "1.5e-10". Proof. vm_compute. reflexivity. Qed.
Example ts17 : Number_toString 2.2250738585072014e-308 = lit "2.2250738585072014e-308". Proof. vm_compute. reflexivity. Qed.
Example ts18 : Number_toString 4.9e-324 = lit "5e-324". Proof. vm_compute. reflexivity. Qed.
Example ts19 : Number_toString 0.5 = lit "0.5". Proof. vm_compute. reflexivity. Qed.
Example ts20 : Number_toString 1e300 = lit "1e+300". Proof. vm_compute. reflexivity. Qed.
Example ts21 : Number_toString 9.5 = lit "9.5". Proof. vm_compute. reflexivity. Qed.
Example ts22 : Number_toString 5e-7 = lit "5e-7". Proof. vm_compute. reflexivity. Qed.
Example ts23 : Number_toString 1e23 = lit "1e+23". Proof. vm_compute. reflexivity. Qed.
Example ts24 : Number_toString 9.999999999999999e22 = lit "1e+23". Proof. vm_compute. reflexivity. Qed.
Example mr1 : Number_toString (Math_round (0.85 * 100)) = lit "85". Proof. vm_compute. reflexivity. Qed.
Example mr2 : Number_toString (Math_round 2.5) = lit "3". Proof. vm_compute. reflexivity. Qed.
Example mr3 : Number_toString (Math_round (-2.5)) = lit "-2". Proof. vm_compute. reflexivity. Qed.
Example mr4 : Number_toString (Math_round (-2.6)) = lit "-3". Proof. vm_compute. reflexivity. Qed.
Example mr5 : Number_toString (Math_round 0.49999999999999994) = lit "0". Proof. vm_compute. reflexivity. Qed.
Example mr6 : Number_toString (Math_round (0.285 * 100)) = lit "28". Proof. vm_compute. reflexivity. Qed.
Example mr7 : Number_toString (Math_round (-0.2)) = lit "0". Proof. vm_compute. reflexivity. Qed.
Example mr8 : Number_toString (Math_round 4503599627370495.5) = lit "4503599627370496". Proof. vm_compute. reflexivity. Qed.
Example mr9 : Number_toString (Math_round (0 / 0)) = lit "NaN". Proof. vm_compute. reflexivity. Qed.
Example mr10 : Math_round (-0.2) = (-0)%float. Proof. vm_compute. reflexivity. Qed.
End NumberExamples.

(* ===================================================================== *)
(** ** Stepping through a computation *)
(* ===================================================================== *)

Section Stepping.
Context {A B : Type}.
Implicit Types (k : A → js B) (s : state).

Lemma bind_normal (c : js A) k s a s' :
  c s = (Normal a, s') → (c ≫= k) s = k a s'.
Proof. unfold mbind, js_bind, js_bind_def. by intros ->. Qed.

Lemma bind_abrupt (c : js A) k s e s' :
  c s = (Abrupt e, s') → (c ≫= k) s = (Abrupt e, s').
Proof. unfold mbind, js_bind, js_bind_def. by intros ->. Qed.

Lemma bind_mret (a : A) k s : (mret a ≫= k) s = k a s.
Proof. done. Qed.

Lemma bind_get (f : state → A) k s : (get f ≫= k) s = k (f s) s.
Proof. done. Qed.

Lemma bind_throw (e : js_error) k s : (throw e ≫= k) s = (Abrupt e, s).
Proof. done. Qed.

Lemma bind_throw_null k s :
  (throw_null ≫= k) s = (Abrupt (TypeError (null_message s)), s).
Proof. done. Qed.
End Stepping.

Section SteppingUnit.
Context {B : Type}.
Implicit Types (k : unit → js B) (s : state).

Lemma bind_modify (f : state → state) k s : (modify f ≫= k) s = k tt (f s).
Proof. done. Qed.

Lemma bind_assign_Some id (f : element → element) k s :
  (assign (Some id) f ≫= k) s = k tt (on_document (alter f id) s).
Proof. done. Qed.

Lemma bind_assign_None (f : element → element) k s :
  (assign None f ≫= k) s = (Abrupt (TypeError (null_message s)), s).
Proof. done. Qed.

Lemma bind_when_true (c : js unit) k s : (when true c ≫= k) s = (c ≫= k) s.
Proof. done. Qed.

Lemma bind_when_false (c : js unit) k s : (when false c ≫= k) s = k tt s.
Proof. done. Qed.

Lemma bind_fetch r t k s :
  (fetch r t ≫= k) s
  = k tt (set_pending (pending s ++ [t]) (set_network (r :: network s) s)).
Proof. done. Qed.

Lemma bind_setTimeout t k s :
  (setTimeout t ≫= k) s = k tt (set_pending (pending s ++ [t]) s).
Proof. done. Qed.
End SteppingUnit.

Lemma bind_getElementById {B} id (k : eref → js B) s :
  (getElementById id ≫= k) s = k (ref id s) s.
Proof. done. Qed.

Lemma bind_querySelector {B} id (k : eref → js B) s :
  (querySelector id ≫= k) s = k (ref id s) s.
Proof. done. Qed.

Lemma bind_assoc {A B C} (c : js A) (k1 : A → js B) (k2 : B → js C) s :
  ((c ≫= k1) ≫= k2) s = (c ≫= λ a, k1 a ≫= k2) s.
Proof. unfold mbind, js_bind, js_bind_def. by destruct (c s) as [[]]. Qed.

Lemma state_eta s : on_document id s = s.
Proof. by destruct s. Qed.

Lemma on_document_compose g1 g2 s :
  on_document g1 (on_document g2 s) = on_document (g1 ∘ g2) s.
Proof. done. Qed.

Lemma has_alter id f k d : has id (alter f k d) = has id d.
Proof.
  unfold has. destruct (decide (k = id)) as [->|].
  - rewrite lookup_alter_eq. by destruct (d !! id).
  - by rewrite lookup_alter_ne.
Qed.

Lemma has_true id d : has id d = true ↔ is_Some (d !! id).
Proof. unfold has. destruct (d !! id); split; (done || by inversion 1 || by eauto). Qed.

(** An assignment guarded by the presence of its target is an [alter]. *)
Lemma guarded_assign id (b : bool) f s :
  has id (document s) = b →
  when (is_present (if b then Some id else None))
       (assign (if b then Some id else None) f) s
  = (Normal tt, on_document (alter f id) s).
Proof.
  intros <-. unfold has, on_document.
  destruct (document s !! id) eqn:E; simpl; [done|].
  rewrite alter_id; [by destruct s | intros ??; congruence].
Qed.

Lemma bind_guarded_assign {B} id (b : bool) f (k : unit → js B) s :
  has id (document s) = b →
  (when (is_present (if b then Some id else None))
        (assign (if b then Some id else None) f) ≫= k) s
  = k tt (on_document (alter f id) s).
Proof. intros H. by apply bind_normal, guarded_assign. Qed.

#[local] Arguments lit : simpl never.
#[local] Arguments Number_toString : simpl never.
#[local] Arguments Math_round : simpl never.

(** Projections of a state built by the setters. *)
Ltac state_simpl :=
  cbn [ currentDocumentId typeChart document window_event null_message network
        pending charts next_chart alerts next_alert
        set_currentDocumentId set_typeChart set_document set_window_event
        set_network set_pending set_charts set_next_chart set_alerts set_next_alert
        on_document exec fst snd ] in *.

(** Presence of elements is the same in every state a run goes through. *)
Ltac js_norm :=
  unfold ref, present, show_processing, show_error, reset_form, show_results in *;
  unfold progress, hide in *;
  state_simpl;
  rewrite ?has_alter.

Ltac js_known :=
  repeat match goal with
         | H : has ?id ?d = _ |- context [has ?id ?d] => rewrite H
         end;
  cbn [is_present when].

Ltac js_step :=
  first
    [ rewrite bind_assoc
    | rewrite bind_getElementById
    | rewrite bind_querySelector
    | rewrite bind_get
    | rewrite bind_mret
    | rewrite bind_modify
    | rewrite bind_guarded_assign by (state_simpl; rewrite ?has_alter; reflexivity)
    | rewrite guarded_assign by (state_simpl; rewrite ?has_alter; reflexivity)
    | rewrite bind_assign_Some
    | rewrite bind_assign_None
    | rewrite bind_when_true
    | rewrite bind_when_false
    | rewrite bind_fetch
    | rewrite bind_setTimeout
    | rewrite bind_throw
    | rewrite bind_throw_null ];
  cbv beta; js_norm; js_known.

(** Lookups in a document changed by [alter]. *)
Ltac lookup_simpl :=
  repeat first
    [ rewrite lookup_alter_eq
    | rewrite lookup_alter_ne by done ].

Lemma hideAllSections_eq s : hideAllSections s = (Normal tt, on_document hide s).
Proof.
  unfold hideAllSections, processingSection, resultsSection, errorSection.
  repeat js_step. done.
Qed.

Lemma updateProgress_eq p m s :
  updateProgress p m s = (Normal tt, on_document (progress p m) s).
Proof. unfold updateProgress. repeat js_step. done. Qed.

Lemma showError_eq msg s :
  showError msg s
  = (Normal tt,
     if present "errorSection" s then on_document (show_error msg) s
     else on_document hide s).
Proof.
  unfold showError, errorSection.
  rewrite (bind_normal _ _ _ _ _ (hideAllSections_eq s)).
  js_step. 
  destruct (has "errorSection" (document s)) eqn:E; js_known.
  - repeat js_step. done.
  - done.
Qed.

Lemma resetUploadForm_eq s :
  resetUploadForm s
  = (Normal tt, set_currentDocumentId None (on_document reset_form s)).
Proof.
  unfold resetUploadForm, fileInput.
  rewrite (bind_normal _ _ _ _ _ (hideAllSections_eq s)).
  repeat js_step. done.
Qed.

Lemma count_shown_cons id ids s :
  count_shown (id :: ids) s
  = ((if shown id s then 1 else 0) + count_shown ids s)%nat.
Proof.
  unfold count_shown. rewrite filter_cons.
  destruct (shown id s); by case_decide.
Qed.

Lemma count_shown_nil s : count_shown [] s = 0%nat.
Proof. done. Qed.

Lemma visible_hidden id d : visible id (alter (set_display none) id d) = false.
Proof.
  unfold visible. rewrite lookup_alter_eq.
  destruct (d !! id); cbn; [|done]. by rewrite bool_decide_eq_true_2.
Qed.

Lemma visible_alter_ne id k f d : k ≠ id → visible id (alter f k d) = visible id d.
Proof. intros. unfold visible. by rewrite lookup_alter_ne. Qed.

Lemma visible_alter_display id k f d :
  (∀ e, display (f e) = display e) → visible id (alter f k d) = visible id d.
Proof.
  intros Hf. unfold visible.
  destruct (decide (k = id)) as [->|]; [|by rewrite lookup_alter_ne].
  rewrite lookup_alter_eq. destruct (d !! id); cbn; [|done]. by rewrite Hf.
Qed.

Lemma visible_hide id d : id ∈ result_sections → visible id (hide d) = false.
Proof.
  unfold result_sections, hide. rewrite !elem_of_cons, elem_of_nil.
  intros [->|[->|[->|[]]]].
  - rewrite !(visible_alter_ne "processingSection") by done. apply visible_hidden.
  - rewrite !(visible_alter_ne "resultsSection") by done. apply visible_hidden.
  - apply visible_hidden.
Qed.

Lemma hide_hides s0 d :
  count_shown result_sections (set_document (hide d) s0) = 0%nat.
Proof.
  unfold result_sections. rewrite !count_shown_cons, count_shown_nil.
  unfold shown. state_simpl.
  rewrite !visible_hide; [done | | | ]; unfold result_sections; set_solver.
Qed.

Lemma visible_show_error x msg d :
  x ∈ result_sections → x ≠ "errorSection" → visible x (show_error msg d) = false.
Proof.
  intros Hx Hne. unfold show_error.
  rewrite visible_alter_ne.
  - rewrite visible_alter_ne by done. by apply visible_hide.
  - intros <-. revert Hx. unfold result_sections.
    rewrite !elem_of_cons, elem_of_nil. by intros [|[|[|[]]]].
Qed.

Lemma uploadFile_eq f s :
  uploadFile f s
  = if present "processingSection" s
    then (Normal tt,
          set_pending (pending s ++ [UploadReply])
            (set_network (upload_request f :: network s)
               (on_document show_processing s)))
    else (Abrupt (TypeError (null_message s)), on_document hide s).
Proof.
  unfold uploadFile, processingSection.
  rewrite (bind_normal _ _ _ _ _ (hideAllSections_eq s)).
  js_step.
  destruct (has "processingSection" (document s)) eqn:E; js_known.
  - js_step.
    rewrite (bind_normal _ _ _ _ _ (updateProgress_eq _ _ _)).
    done.
  - done.
Qed.

(** What [showError] leaves on the page. *)
Lemma showError_reads msg s :
  let s' := exec (showError msg) s in
  showError msg s = (Normal tt, s') ∧
  network s' = network s ∧
  pending s' = pending s ∧
  currentDocumentId s' = currentDocumentId s ∧
  shown "processingSection" s' = false ∧
  shown "resultsSection" s' = false ∧
  (present "errorSection" s = true → present "errorMessage" s = true →
     inner_of "errorMessage" s' = Some (Text msg) ∧
     display_of "errorSection" s' = Some block).
Proof.
  intros s'. subst s'. unfold exec. rewrite showError_eq. cbn [snd].
  assert (Hhid : ∀ x, x ∈ result_sections → x ≠ "errorSection" →
            shown x (if present "errorSection" s
                     then on_document (show_error msg) s
                     else on_document hide s) = false).
  { intros x Hx Hne. unfold shown.
    destruct (present "errorSection" s); state_simpl.
    - by apply visible_show_error.
    - by apply visible_hide. }
  split; [done|].
  split; [by destruct (present "errorSection" s)|].
  split; [by destruct (present "errorSection" s)|].
  split; [by destruct (present "errorSection" s)|].
  split; [apply Hhid; [repeat constructor | done]|].
  split; [apply Hhid; [repeat constructor | done]|].
  intros Hsec Hmsg. rewrite Hsec.
  unfold display_of, inner_of. js_norm.
  apply has_true in Hsec as [es Hes], Hmsg as [em Hem].
  lookup_simpl. by rewrite Hes, Hem.
Qed.

(* ===================================================================== *)
(** ** Validation of the selected file *)
(* ===================================================================== *)

(** The two listeners hand the first file of the selection to [handleFile]. *)
Lemma handleFileSelect_first f rest : handleFileSelect (f :: rest) = handleFile f.
Proof. done. Qed.

Lemma handleDrop_first f rest s :
  present "uploadArea" s = true →
  handleDrop (f :: rest) s
  = handleFile f (on_document (alter (remove_class (lit "drag-over")) "uploadArea") s).
Proof.
  intros Ha. unfold handleDrop, uploadArea, present in *.
  rewrite bind_getElementById. unfold ref, present. rewrite Ha.
  by rewrite bind_assign_Some.
Qed.

(** C1. A file whose MIME type is not one of the allowed ones (PDF, DOCX,
    JPEG under either spelling, PNG) makes [handleFile] complete without
    issuing a request or registering a continuation; on a page that has the
    error panel the panel is displayed with the type-rejection message, and
    the processing and results sections are not on screen. *)
Theorem handleFile_rejects_type (f : file) (s : state) :
  file_type f ∉ allowedTypes →
  let s' := exec (handleFile f) s in
  handleFile f s = (Normal tt, s') ∧
  network s' = network s ∧
  pending s' = pending s ∧
  shown "processingSection" s' = false ∧
  shown "resultsSection" s' = false ∧
  (present "errorSection" s = true → present "errorMessage" s = true →
     inner_of "errorMessage" s' = Some (Text invalid_type_message) ∧
     display_of "errorSection" s' = Some block).
Proof.
  intros Htype s'. subst s'.
  unfold exec, handleFile.
  rewrite bool_decide_eq_false_2 by done. cbn [negb].
  rewrite showError_eq.
  assert (Hhid : ∀ x, x ∈ result_sections → x ≠ "errorSection" →
            shown x (if present "errorSection" s
                     then on_document (show_error invalid_type_message) s
                     else on_document hide s) = false).
  { intros x Hx Hne. unfold shown.
    destruct (present "errorSection" s); state_simpl.
    - by apply visible_show_error.
    - by apply visible_hide. }
  split; [done|].
  split; [by destruct (present "errorSection" s)|].
  split; [by destruct (present "errorSection" s)|].
  split; [apply Hhid; [repeat constructor | done]|].
  split; [apply Hhid; [repeat constructor | done]|].
  intros Hsec Hmsg. cbn [snd]. rewrite Hsec.
  unfold display_of, inner_of. js_norm.
  apply has_true in Hsec as [es Hes], Hmsg as [em Hem].
  lookup_simpl. by rewrite Hes, Hem.
Qed.

(** Closed facts about the sample page are settled by evaluation. *)
Ltac by_eval := vm_compute; first [ reflexivity | exact I | done ].

Lemma handleFile_rejects_type_witness :
  (file_type Sample.text_file ∉ allowedTypes) ∧
  network (exec (handleFile Sample.text_file) Sample.start) = [] ∧
  (inner_of "errorMessage" (exec (handleFile Sample.text_file) Sample.start)
   = Some (Text invalid_type_message)).
Proof.
  assert (Ht : file_type Sample.text_file ∉ allowedTypes)
    by (apply (bool_decide_unpack (¬ _)); by_eval).
  split; [exact Ht|].
  destruct (handleFile_rejects_type Sample.text_file Sample.start Ht)
    as (_ & Hn & _ & _ & _ & Hpanel).
  split; [exact Hn|].
  destruct Hpanel as [Hm _]; [by_eval | by_eval |]. exact Hm.
Defined.

(** C2, as stated, fails on an oversized file of a disallowed type: the type
    check comes first, so the panel shows the type-rejection message. *)
Lemma handleFile_size_counterexample :
  (max_size <? file_size Sample.huge_text_file) = true ∧
  (inner_of "errorMessage" (exec (handleFile Sample.huge_text_file) Sample.start)
   = Some (Text invalid_type_message)) ∧
  bool_decide (invalid_type_message = too_large_message) = false.
Proof. by_eval. Qed.

(** C2, amended. For a file of an allowed MIME type: when its size exceeds
    16 MiB, [handleFile] issues no request and, on a page that has the error
    panel, the panel shows the size-rejection message; when its size is at
    most 16 MiB, the file passes validation and, on a page that has the
    processing section, the upload request (POST /upload with the file as
    form data) is issued, its continuation registered and the processing
    section displayed. *)
Theorem handleFile_checks_size (f : file) (s : state) :
  file_type f ∈ allowedTypes →
  let s' := exec (handleFile f) s in
  (max_size < file_size f →
     network s' = network s ∧
     pending s' = pending s ∧
     (present "errorSection" s = true → present "errorMessage" s = true →
        inner_of "errorMessage" s' = Some (Text too_large_message) ∧
        display_of "errorSection" s' = Some block)) ∧
  (file_size f ≤ max_size → present "processingSection" s = true →
     network s' = upload_request f :: network s ∧
     pending s' = pending s ++ [UploadReply] ∧
     display_of "processingSection" s' = Some block ∧
     shown "resultsSection" s' = false ∧
     shown "errorSection" s' = false).
Proof.
  intros Htype s'. subst s'.
  unfold exec, handleFile.
  rewrite bool_decide_eq_true_2 by done. cbn [negb].
  split.
  - intros Hsize. apply N.ltb_lt in Hsize. rewrite Hsize.
    rewrite showError_eq.
    split; [by destruct (present "errorSection" s)|].
    split; [by destruct (present "errorSection" s)|].
    intros Hsec Hmsg. rewrite Hsec.
    unfold display_of, inner_of. js_norm.
    apply has_true in Hsec as [es Hes], Hmsg as [em Hem].
    lookup_simpl. by rewrite Hes, Hem.
  - intros Hsize Hproc. apply N.ltb_ge in Hsize. rewrite Hsize.
    rewrite uploadFile_eq, Hproc.
    unfold display_of, shown, visible. js_norm.
    apply has_true in Hproc as [ep Hep].
    lookup_simpl. rewrite Hep. cbn.
    repeat split; try done.
    + destruct (document s !! "resultsSection"); cbn; [|done].
      by rewrite bool_decide_eq_true_2.
    + destruct (document s !! "errorSection"); cbn; [|done].
      by rewrite bool_decide_eq_true_2.
Qed.

Lemma handleFile_checks_size_witness :
  file_type Sample.pdf ∈ allowedTypes ∧
  network (exec (handleFile Sample.pdf) Sample.start) = [upload_request Sample.pdf] ∧
  (display_of "processingSection" (exec (handleFile Sample.pdf) Sample.start)
   = Some block) ∧
  network (exec (handleFile Sample.huge_pdf) Sample.start) = [] ∧
  (inner_of "errorMessage" (exec (handleFile Sample.huge_pdf) Sample.start)
   = Some (Text too_large_message)).
Proof.
  assert (Ht : file_type Sample.pdf ∈ allowedTypes)
    by (apply (bool_decide_unpack _); by_eval).
  split; [exact Ht|].
  destruct (handleFile_checks_size Sample.pdf Sample.start Ht) as [_ Hok].
  destruct Hok as (Hn & _ & Hd & _); [by_eval | by_eval |].
  destruct (handleFile_checks_size Sample.huge_pdf Sample.start Ht) as [Hbig _].
  destruct Hbig as (Hn' & _ & Hpanel); [by_eval|].
  destruct Hpanel as [Hm _]; [by_eval | by_eval |].
  repeat split; assumption.
Defined.

(* ===================================================================== *)
(** ** From the upload response to the processing request *)
(* ===================================================================== *)

Lemma truthy_nonempty (x : jsstring) : x ≠ [] → truthy x = true.
Proof. by destruct x. Qed.

(** Outside the dispatch of an event, [processDocument] on a usable reference
    issues the processing request. *)
Lemma processDocument_eq (x : jsstring) s :
  window_event s = None → x ≠ [] →
  processDocument (Some x) s
  = (Normal tt,
     set_pending (pending s ++ [ProcessReply])
       (set_network (process_request x :: network s)
          (on_document (progress 50 (lit "Extracting text using OCR...")) s))).
Proof.
  intros Hev Hx. unfold processDocument.
  cbn [truthy_opt]. rewrite truthy_nonempty by done. cbn [negb].
  js_step. rewrite Hev. js_step.
  rewrite (bind_normal _ _ _ _ _ (updateProgress_eq _ _ _)).
  done.
Qed.

Lemma processDocument_falsy id s :
  truthy_opt id = false →
  processDocument id s = showError (lit "No document ID provided") s.
Proof. unfold processDocument. by intros ->. Qed.

Lemma uploadFile_then_success d (x : jsstring) s :
  up_success d = true → document_id d = Some x → x ≠ [] →
  window_event s = None →
  uploadFile_then (Some d) s
  = (Normal tt,
     set_pending (pending s ++ [ProcessReply])
       (set_network (process_request x :: network s)
          (on_document
             (progress 50 (lit "Extracting text using OCR...")
                ∘ progress 30 (lit "File uploaded successfully. Starting processing..."))
             (set_currentDocumentId (Some x) s)))).
Proof.
  intros Hok Hid Hx Hev. unfold uploadFile_then. rewrite Hok, Hid.
  js_step.
  rewrite (bind_normal _ _ _ _ _ (updateProgress_eq _ _ _)).
  js_step. by rewrite processDocument_eq.
Qed.

(** C3, as stated, fails for the empty string: [processDocument] refuses a
    falsy reference, so the identifier is stored but no processing request
    follows; the error panel reports the missing identifier. *)
Lemma empty_document_id_counterexample :
  up_success (Sample.uploaded []) = true ∧
  document_id (Sample.uploaded []) = Some [] ∧
  currentDocumentId
    (dispatch Sample.uploading (UploadSettled 0 (Fulfilled (Some (Sample.uploaded [])))))
  = Some [] ∧
  network
    (dispatch Sample.uploading (UploadSettled 0 (Fulfilled (Some (Sample.uploaded [])))))
  = network Sample.uploading ∧
  inner_of "errorMessage"
    (dispatch Sample.uploading (UploadSettled 0 (Fulfilled (Some (Sample.uploaded [])))))
  = Some (Text (lit "No document ID provided")).
Proof. by_eval. Qed.

Lemma uploadFile_then_empty d s :
  up_success d = true → document_id d = Some [] →
  uploadFile_then (Some d) s
  = showError (lit "No document ID provided")
      (on_document
         (progress 30 (lit "File uploaded successfully. Starting processing..."))
         (set_currentDocumentId (Some []) s)).
Proof.
  intros Hok Hid. unfold uploadFile_then. rewrite Hok, Hid.
  js_step.
  rewrite (bind_normal _ _ _ _ _ (updateProgress_eq _ _ _)).
  js_step. by rewrite processDocument_falsy.
Qed.

(** C3, amended. When the pending upload is answered with success true and a
    document_id that is a string [x], the controller stores [x] as the
    current document reference.  When [x] is not empty, the request it issues
    next is a POST to exactly /process/x, the upload continuation being
    consumed and the processing one registered.  When [x] is the empty
    string, no request is issued and nothing is registered: the error panel
    is displayed with 'No document ID provided'. *)
Theorem upload_success_starts_processing
    (s : state) (i : nat) (d : upload_response) (x : jsstring) :
  pending s !! i = Some UploadReply →
  up_success d = true →
  document_id d = Some x →
  let s' := dispatch s (UploadSettled i (Fulfilled (Some d))) in
  currentDocumentId s' = Some x ∧
  (x ≠ [] →
     network s' = Request (lit "/process/" ++ x) POST [] NoBody :: network s ∧
     pending s' = delete i (pending s) ++ [ProcessReply]) ∧
  (x = [] →
     network s' = network s ∧
     pending s' = delete i (pending s) ∧
     (present "errorSection" s = true → present "errorMessage" s = true →
        inner_of "errorMessage" s' = Some (Text (lit "No document ID provided")) ∧
        display_of "errorSection" s' = Some block)).
Proof.
  intros Hp Hok Hid s'. subst s'.
  unfold dispatch, listener. rewrite Hp.
  cbn [consumed current_event uploadFile_settled].
  unfold exec, try_catch.
  destruct x as [|c x].
  - rewrite (uploadFile_then_empty d) by done.
    match goal with
    | |- context [showError ?msg ?s0] =>
        destruct (showError_reads msg s0) as (E & Hn & Hpe & Hc & _ & _ & Hpanel);
        unfold exec in *; rewrite E in *
    end.
    cbn [snd] in *. state_simpl.
    split; [done|]. split; [done|]. intros _.
    split; [done|]. split; [done|].
    intros Hes Hem. unfold inner_of, display_of in *. state_simpl.
    apply Hpanel; unfold present, progress in *; state_simpl; by rewrite !has_alter.
  - rewrite (uploadFile_then_success d (c :: x)) by done.
    split; [done|]. split; [done|]. done.
Qed.

Lemma upload_success_starts_processing_witness :
  pending Sample.uploading !! 0%nat = Some UploadReply ∧
  currentDocumentId
    (dispatch Sample.uploading
       (UploadSettled 0 (Fulfilled (Some (Sample.uploaded (lit "X"))))))
  = Some (lit "X") ∧
  network
    (dispatch Sample.uploading
       (UploadSettled 0 (Fulfilled (Some (Sample.uploaded (lit "X"))))))
  = [process_request (lit "X"); upload_request Sample.pdf] ∧
  network
    (dispatch Sample.uploading
       (UploadSettled 0 (Fulfilled (Some (Sample.uploaded [])))))
  = [upload_request Sample.pdf].
Proof.
  assert (Hp : pending Sample.uploading !! 0%nat = Some UploadReply) by by_eval.
  split; [exact Hp|].
  destruct (upload_success_starts_processing Sample.uploading 0
              (Sample.uploaded (lit "X")) (lit "X") Hp eq_refl eq_refl)
    as (Hc & Hn & _).
  destruct (upload_success_starts_processing Sample.uploading 0
              (Sample.uploaded []) [] Hp eq_refl eq_refl)
    as (_ & _ & He).
  split; [exact Hc|]. split; [exact (proj1 (Hn ltac:(done)))|].
  exact (proj1 (He eq_refl)).
Defined.

(* ===================================================================== *)
(** ** Rendering the results *)
(* ===================================================================== *)

Lemma results_ready_true s :
  results_ready s = true →
  has "resultsSection" (document s) = true ∧ has "documentType" (document s) = true ∧
  has "confidence" (document s) = true ∧ has "routedTo" (document s) = true ∧
  has "extractedText" (document s) = true.
Proof.
  unfold results_ready, present. intros H.
  repeat (apply andb_true_iff in H as [H ?]). done.
Qed.

Lemma showResults_eq d s :
  results_ready s = true →
  showResults (Some d) s = (Normal tt, on_document (show_results d) s).
Proof.
  intros (Hr & Ht & Hc & Hd & He)%results_ready_true.
  unfold showResults, resultsSection.
  rewrite (bind_normal _ _ _ _ _ (hideAllSections_eq s)).
  cbv zeta. repeat js_step. done.
Qed.

(** What [showResults] leaves on a page that has the results elements. *)
Lemma showResults_reads d s :
  results_ready s = true →
  let s' := exec (showResults (Some d)) s in
  inner_of "documentType" s' = Some (Text (rendered_type d)) ∧
  inner_of "confidence" s'
  = Some (Html (badge_html (getConfidenceBadgeClass (rendered_confidence d))
                           (percent_text (rendered_confidence d)))) ∧
  inner_of "routedTo" s' = Some (Text (rendered_department d)) ∧
  inner_of "extractedText" s' = Some (Html (extracted_html (rendered_text d))) ∧
  display_of "resultsSection" s' = Some block ∧
  shown "processingSection" s' = false ∧
  shown "errorSection" s' = false.
Proof.
  intros Hready s'. subst s'. unfold exec. rewrite showResults_eq by done.
  apply results_ready_true in Hready as (Hr & Ht & Hc & Hd & He).
  apply has_true in Hr as [? Hr], Ht as [? Ht], Hc as [? Hc], Hd as [? Hd],
    He as [? He].
  unfold inner_of, display_of, shown, visible. js_norm. lookup_simpl.
  rewrite Hr, Ht, Hc, Hd, He. cbn.
  repeat split; try done.
  - destruct (document s !! "processingSection"); cbn; [|done].
    by rewrite bool_decide_eq_true_2.
  - destruct (document s !! "errorSection"); cbn; [|done].
    by rewrite bool_decide_eq_true_2.
Qed.

Section Rounding.
Local Open Scope Z_scope.

Lemma digits2_pos_lower (m : positive) : 2 ^ (Z.pos (digits2_pos m) - 1) ≤ Z.pos m.
Proof.
  induction m as [m IH|m IH|]; cbn [digits2_pos]; [| |done].
  - rewrite Pos2Z.inj_succ.
    replace (Z.succ (Z.pos (digits2_pos m)) - 1)
      with (Z.succ (Z.pos (digits2_pos m) - 1)) by lia.
    rewrite Z.pow_succ_r by lia. lia.
  - rewrite Pos2Z.inj_succ.
    replace (Z.succ (Z.pos (digits2_pos m)) - 1)
      with (Z.succ (Z.pos (digits2_pos m) - 1)) by lia.
    rewrite Z.pow_succ_r by lia. lia.
Qed.

(** A finite binary64 value with a nonnegative exponent is at least 2^52. *)
Lemma decode_large (x : float) s m e :
  decode x = S754_finite s m e → 0 ≤ e → 2 ^ 52 ≤ Z.pos m.
Proof.
  intros Hx He. pose proof (Prim2SF_valid x) as Hv.
  unfold decode in Hx. rewrite Hx in Hv.
  cbn [SpecFloat.valid_binary] in Hv. unfold bounded, canonical_mantissa, fexp in Hv.
  apply andb_prop in Hv as [Hc _]. apply Z.eqb_eq in Hc.
  assert (Hd : Z.pos (digits2_pos m) = 53).
  { unfold emin, prec, emax in Hc. lia. }
  pose proof (digits2_pos_lower m) as Hl. rewrite Hd in Hl. exact Hl.
Qed.

(** [Math_round] gives the nearest integer, the upper one at a tie. *)
Lemma Math_round_nearest (x : float) m e n :
  decode x = S754_finite false m e → nearest_integer m e n → n < 2 ^ 52 →
  Math_round x = of_Z_small n.
Proof.
  intros Hx Hn Hsmall. unfold nearest_integer in Hn.
  destruct (Z.leb_spec 0 e) as [He|He].
  - exfalso. pose proof (decode_large x _ _ _ Hx He) as Hm.
    rewrite Z.max_r in Hn by lia. rewrite (Z.max_l e) in Hn by lia.
    assert (0 < 2 ^ e) by (apply Z.pow_pos_nonneg; lia).
    assert (2 ^ 52 = 4503599627370496) as E52 by reflexivity. rewrite E52 in *.
    change (2 ^ 0) with 1 in Hn. nia.
  - unfold Math_round. rewrite Hx.
    destruct (Z.leb_spec 0 e) as [?|_]; [lia|].
    rewrite Z.max_l in Hn by lia. rewrite (Z.max_r e) in Hn by lia.
    change (2 ^ 0) with 1 in Hn.
    assert (Hden : 0 < 2 ^ (- e)) by (apply Z.pow_pos_nonneg; lia).
    assert (Hr : (2 * Z.pos m + 2 ^ (- e)) / (2 * 2 ^ (- e)) = n).
    { symmetry.
      apply (Z.div_unique_pos _ _ _ (2 * Z.pos m + 2 ^ (- e) - n * (2 * 2 ^ (- e))));
        nia. }
    cbv zeta. rewrite Hr.
    assert (0 ≤ n) by nia.
    destruct (Z.leb_spec 0 n); [|lia]. done.
Qed.

(** The integers from 0 to 100 print as their decimal digits. *)
Lemma percent_digits_checked :
  forallb (λ k, bool_decide (Number_toString (of_Z_small (Z.of_nat k))
                             = decimal (N.of_nat k)))
          (seq 0 101) = true.
Proof. vm_compute. reflexivity. Qed.

Lemma Number_toString_percent (n : Z) :
  0 ≤ n ≤ 100 → Number_toString (of_Z_small n) = decimal (Z.to_N n).
Proof.
  intros Hn. pose proof percent_digits_checked as H.
  rewrite forallb_forall in H.
  specialize (H (Z.to_nat n)).
  rewrite Z2Nat.id in H by lia.
  replace (N.of_nat (Z.to_nat n)) with (Z.to_N n) in H by lia.
  eapply bool_decide_eq_true_1, H. apply in_seq. lia.
Qed.

(** The percentage [showResults] prints for a product that rounds to an
    integer up to 100. *)
Lemma percent_text_nearest (c : float) m e n :
  decode (c * 100)%float = S754_finite false m e → nearest_integer m e n → n ≤ 100 →
  percent_text c = decimal (Z.to_N n) ++ lit "%".
Proof.
  intros Hx Hn Hle. unfold percent_text.
  rewrite (Math_round_nearest _ m e n Hx Hn) by lia.
  rewrite Number_toString_percent; [done|].
  split; [|done]. unfold nearest_integer in Hn.
  assert (0 < 2 ^ Z.max (- e) 0) by (apply Z.pow_pos_nonneg; lia).
  assert (0 < 2 ^ Z.max e 0) by (apply Z.pow_pos_nonneg; lia).
  nia.
Qed.

Lemma percent_text_zero (c : float) sign :
  decode (c * 100)%float = S754_zero sign → percent_text c = lit "0%".
Proof.
  intros Hx. unfold percent_text, Math_round, Number_toString. by rewrite Hx, Hx.
Qed.

End Rounding.

(** C4. On a page that has the results elements, a response whose
    classification carries the confidence [c] makes [showResults] write into
    the confidence element the markup of a badge: a span of class
    'badge bg-<style>' around the percentage.  The style is success from 0.8
    on, warning from 0.6 on and danger below.  The percentage is the integer
    nearest to the binary64 product c * 100, the upper one at a tie, in
    decimal digits and followed by the percent sign (for a product that is
    zero, or positive with a nearest integer up to 100).  For 0.85 that is
    success and 85%, for 0.65 warning and 65%, for 0.3 danger and 30%. *)
Theorem confidence_badge_rendering (s : state) (d : process_response) (c : float) :
  results_ready s = true →
  pr_classification d ≫= confidence = Some c →
  let badge := inner_of "confidence" (exec (showResults (Some d)) s) in
  let markup (style text : jsstring) :=
    Some (Html (nl ++ spaces 8 ++ lit "<span class=" ++ dq ++ lit "badge bg-" ++ style
                   ++ dq ++ lit ">"
                   ++ nl ++ spaces 12 ++ text
                   ++ nl ++ spaces 8 ++ lit "</span>"
                   ++ nl ++ spaces 4)) in
  let style :=
    if (0.8 <=? c)%float then lit "success"
    else if (0.6 <=? c)%float then lit "warning"
    else lit "danger" in
  (∀ m e n, decode (c * 100)%float = S754_finite false m e →
            nearest_integer m e n → (n ≤ 100)%Z →
            badge = markup style (decimal (Z.to_N n) ++ lit "%")) ∧
  (∀ sign, decode (c * 100)%float = S754_zero sign →
           badge = markup style (lit "0%")) ∧
  (c = 0.85%float → badge = markup (lit "success") (lit "85%")) ∧
  (c = 0.65%float → badge = markup (lit "warning") (lit "65%")) ∧
  (c = 0.3%float → badge = markup (lit "danger") (lit "30%")).
Proof.
  intros Hready Hc badge markup style.
  assert (Hb : badge = markup style (percent_text c)).
  { subst badge markup style. destruct (showResults_reads d s Hready) as (_ & -> & _).
    unfold rendered_confidence. rewrite Hc. cbn [default].
    unfold badge_html, getConfidenceBadgeClass. by rewrite <- ?app_assoc. }
  split; [|split].
  - intros m e n Hx Hn Hle. rewrite Hb. by rewrite (percent_text_nearest c m e n).
  - intros sign Hx. rewrite Hb. by rewrite (percent_text_zero c sign).
  - subst markup style. repeat split; intros ->; rewrite Hb; by_eval.
Qed.

Lemma confidence_badge_rendering_witness :
  results_ready Sample.start = true ∧
  (inner_of "confidence" (exec (showResults (Some (Sample.processed 0.85))) Sample.start)
   = Some (Html (nl ++ spaces 8 ++ lit "<span class=" ++ dq ++ lit "badge bg-success"
                    ++ dq ++ lit ">"
                    ++ nl ++ spaces 12 ++ lit "85%"
                    ++ nl ++ spaces 8 ++ lit "</span>"
                    ++ nl ++ spaces 4))) ∧
  (inner_of "confidence" (exec (showResults (Some (Sample.processed 0.795))) Sample.start)
   = Some (Html (nl ++ spaces 8 ++ lit "<span class=" ++ dq ++ lit "badge bg-warning"
                    ++ dq ++ lit ">"
                    ++ nl ++ spaces 12 ++ lit "80%"
                    ++ nl ++ spaces 8 ++ lit "</span>"
                    ++ nl ++ spaces 4))).
Proof.
  assert (Hr : results_ready Sample.start = true) by by_eval.
  split; [exact Hr|].
  destruct (confidence_badge_rendering Sample.start (Sample.processed 0.85) 0.85 Hr
              eq_refl) as (_ & _ & H85 & _).
  destruct (confidence_badge_rendering Sample.start (Sample.processed 0.795) 0.795 Hr
              eq_refl) as (Hround & _).
  split; [exact (H85 eq_refl)|].
  assert (Hx : decode (0.795 * 100)%float
               = S754_finite false 5594315162124288 (-46)) by (vm_compute; reflexivity).
  assert (Hn : nearest_integer 5594315162124288 (-46) 80)
    by (unfold nearest_integer; vm_compute; split; [discriminate | reflexivity]).
  assert (Hle : (80 ≤ 100)%Z) by (vm_compute; discriminate).
  etrans; [exact (Hround _ _ _ Hx Hn Hle)|].
  vm_compute. reflexivity.
Defined.

Lemma processDocument_then_success d s :
  pr_success d = true →
  processDocument_then (Some d) s
  = (Normal tt,
     set_pending (pending s ++ [ResultsTimer (Some d)])
       (on_document (progress 80 (lit "Classifying document...")) s)).
Proof.
  intros Hok. unfold processDocument_then. rewrite Hok.
  rewrite (bind_normal _ _ _ _ _ (updateProgress_eq _ _ _)). done.
Qed.

Lemma processDocument_timer_exec data s :
  exec (processDocument_timer data) s
  = exec (showResults data) (on_document (progress 100 (lit "Processing complete!")) s).
Proof.
  unfold exec, processDocument_timer.
  by rewrite (bind_normal _ _ _ _ _ (updateProgress_eq _ _ _)).
Qed.

(** The timer of a settled processing request is the last continuation. *)
Lemma lookup_queued {A} (l : list A) (i : nat) (x y : A) :
  l !! i = Some x →
  (delete i l ++ [y]) !! (length l - 1)%nat = Some y.
Proof.
  intros Hi. apply lookup_lt_Some in Hi.
  assert (Hlen : length (delete i l) = (length l - 1)%nat).
  { rewrite length_delete; [done | by apply lookup_lt_is_Some]. }
  rewrite <- Hlen. by apply list_lookup_middle.
Qed.

(** C8. When the pending processing request is answered with success true, on
    a page that has the results elements, the results are rendered once the
    timer queued by the answer fires.  The type, the department and the text
    are shown, or 'Not classified', 'Unassigned' and '[No text extracted]'
    where they are absent or empty; the text is written as the markup of a pre
    element of class text-wrap; an absent confidence is rendered as the badge
    of 0% in the danger style.  The results section is displayed while the
    processing and error sections are not. *)
Theorem results_render_with_fallbacks (s : state) (i : nat) (d : process_response) :
  pending s !! i = Some ProcessReply →
  pr_success d = true →
  results_ready s = true →
  let s1 := dispatch s (ProcessSettled i (Fulfilled (Some d))) in
  let s2 := dispatch s1 (TimerFired (length (pending s) - 1)) in
  let badge (style text : jsstring) :=
    Html (nl ++ spaces 8 ++ lit "<span class=" ++ dq ++ lit "badge bg-" ++ style
             ++ dq ++ lit ">"
             ++ nl ++ spaces 12 ++ text
             ++ nl ++ spaces 8 ++ lit "</span>"
             ++ nl ++ spaces 4) in
  let pre (text : jsstring) :=
    Html (lit "<pre class=" ++ dq ++ lit "text-wrap" ++ dq ++ lit ">" ++ text
             ++ lit "</pre>") in
  pending s1 = delete i (pending s) ++ [ResultsTimer (Some d)] ∧
  network s2 = network s ∧
  (∀ t, pr_classification d ≫= cls_type = Some t → t ≠ [] →
     inner_of "documentType" s2 = Some (Text t)) ∧
  (∀ t, pr_routing d ≫= department = Some t → t ≠ [] →
     inner_of "routedTo" s2 = Some (Text t)) ∧
  (∀ t, extracted_text d = Some t → t ≠ [] →
     inner_of "extractedText" s2 = Some (pre t)) ∧
  (truthy_opt (pr_classification d ≫= cls_type) = false →
     inner_of "documentType" s2 = Some (Text (lit "Not classified"))) ∧
  (pr_classification d ≫= confidence = None →
     inner_of "confidence" s2 = Some (badge (lit "danger") (lit "0%"))) ∧
  (truthy_opt (pr_routing d ≫= department) = false →
     inner_of "routedTo" s2 = Some (Text (lit "Unassigned"))) ∧
  (truthy_opt (extracted_text d) = false →
     inner_of "extractedText" s2 = Some (pre (lit "[No text extracted]"))) ∧
  display_of "resultsSection" s2 = Some block ∧
  shown "processingSection" s2 = false ∧
  shown "errorSection" s2 = false.
Proof.
  intros Hp Hok Hready s1 s2 badge pre.
  assert (Hs1 : s1 = set_window_event None
                  (set_pending (delete i (pending s) ++ [ResultsTimer (Some d)])
                     (on_document (progress 80 (lit "Classifying document...")) s))).
  { subst s1. unfold dispatch, listener. rewrite Hp.
    cbn [consumed current_event processDocument_settled].
    unfold exec, try_catch. rewrite processDocument_then_success by done.
    by destruct s. }
  assert (Hs2 : ∃ s0, results_ready s0 = true ∧ network s0 = network s ∧
                s2 = set_window_event None (exec (showResults (Some d)) s0)).
  { subst s2. rewrite Hs1. unfold dispatch, listener. state_simpl.
    rewrite (lookup_queued _ _ _ _ Hp).
    cbn [consumed current_event]. rewrite processDocument_timer_exec.
    eexists. split; [|split; [|reflexivity]]; [|done].
    unfold results_ready in *. js_norm. done. }
  destruct Hs2 as (s0 & Hready0 & Hnet & ->).
  destruct (showResults_reads d s0 Hready0) as (Ht & Hc & Hd & He & Hr & Hps & Hes).
  unfold exec in *. rewrite showResults_eq in * by done.
  split; [by rewrite Hs1|].
  split; [done|].
  unfold inner_of, display_of, shown in *. state_simpl.
  rewrite Ht, Hc, Hd, He, Hr, Hps, Hes.
  unfold rendered_type, rendered_confidence, rendered_department, rendered_text.
  subst badge pre.
  unfold badge_html, extracted_html, percent_text, getConfidenceBadgeClass.
  repeat split; try done.
  - intros t -> Hne. by destruct t.
  - intros t -> Hne. by destruct t.
  - intros t -> Hne. destruct t; [done|]. cbn [or_else truthy]. by rewrite <- ?app_assoc.
  - intros Hf. by destruct (pr_classification d ≫= cls_type) as [[|]|].
  - intros ->. by_eval.
  - intros Hf. by destruct (pr_routing d ≫= department) as [[|]|].
  - intros Hf. destruct (extracted_text d) as [[|]|]; try done; by_eval.
Qed.

Lemma results_render_with_fallbacks_witness :
  pending (run Sample.uploading
             [UploadSettled 0 (Fulfilled (Some (Sample.uploaded (lit "A"))))]) !! 0%nat
  = Some ProcessReply ∧
  (inner_of "documentType"
     (run Sample.uploading
        [ UploadSettled 0 (Fulfilled (Some (Sample.uploaded (lit "A"))));
          ProcessSettled 0 (Fulfilled (Some Sample.processed_bare));
          TimerFired 0 ])
   = Some (Text (lit "Not classified"))) ∧
  (inner_of "confidence"
     (run Sample.uploading
        [ UploadSettled 0 (Fulfilled (Some (Sample.uploaded (lit "A"))));
          ProcessSettled 0 (Fulfilled (Some Sample.processed_bare));
          TimerFired 0 ])
   = Some (Html (nl ++ spaces 8 ++ lit "<span class=" ++ dq ++ lit "badge bg-danger"
                    ++ dq ++ lit ">"
                    ++ nl ++ spaces 12 ++ lit "0%"
                    ++ nl ++ spaces 8 ++ lit "</span>"
                    ++ nl ++ spaces 4))) ∧
  (inner_of "extractedText"
     (run Sample.uploading
        [ UploadSettled 0 (Fulfilled (Some (Sample.uploaded (lit "A"))));
          ProcessSettled 0 (Fulfilled (Some Sample.processed_bare));
          TimerFired 0 ])
   = Some (Html (lit "<pre class=" ++ dq ++ lit "text-wrap" ++ dq
                    ++ lit ">[No text extracted]</pre>"))).
Proof.
  assert (Hp : pending (run Sample.uploading
                 [UploadSettled 0 (Fulfilled (Some (Sample.uploaded (lit "A"))))]) !! 0%nat
               = Some ProcessReply) by by_eval.
  split; [exact Hp|].
  destruct (results_render_with_fallbacks _ 0 Sample.processed_bare Hp eq_refl eq_refl)
    as (_ & _ & _ & _ & _ & Ht & Hc & _ & He & _).
  split; [exact (Ht eq_refl)|]. split; [exact (Hc eq_refl)|].
  exact (He eq_refl).
Defined.

(* ===================================================================== *)
(** ** What a computation leaves alone *)
(* ===================================================================== *)

Section Preserves.
Context {X : Type} (π : state → X).

Lemma preserves_bind {A B} (c : js A) (k : A → js B) :
  preserves π c → (∀ a, preserves π (k a)) → preserves π (c ≫= k).
Proof.
  intros Hc Hk s. unfold exec, mbind, js_bind, js_bind_def.
  specialize (Hc s). unfold exec in Hc.
  destruct (c s) as [[a|e] s1]; cbn in *; [|done].
  specialize (Hk a s1). unfold exec in Hk. congruence.
Qed.

Lemma preserves_mret {A} (a : A) : preserves π (mret a).
Proof. done. Qed.

Lemma preserves_get {A} (f : state → A) : preserves π (get f).
Proof. done. Qed.

Lemma preserves_throw {A} e : preserves π (@throw A e).
Proof. done. Qed.

Lemma preserves_throw_null {A} : preserves π (@throw_null A).
Proof. done. Qed.

Lemma preserves_modify (f : state → state) :
  (∀ s, π (f s) = π s) → preserves π (modify f).
Proof. intros H s. apply H. Qed.

Lemma preserves_when b (c : js unit) : preserves π c → preserves π (when b c).
Proof. by destruct b. Qed.

Lemma preserves_try_catch {A} (c : js A) (h : js_error → js A) :
  preserves π c → (∀ e, preserves π (h e)) → preserves π (try_catch c h).
Proof.
  intros Hc Hh s. unfold exec, try_catch.
  specialize (Hc s). unfold exec in Hc.
  destruct (c s) as [[a|e] s1]; cbn in *; [done|].
  specialize (Hh e s1). unfold exec in Hh. congruence.
Qed.

Lemma preserves_read {A} r (f : element → A) : preserves π (read r f).
Proof.
  destruct r as [id|]; [|done]. intros s. unfold exec, read.
  by destruct (document s !! id).
Qed.

(** The aspects that do not look at the document, the requests or the
    continuations. *)
Hypothesis π_document : ∀ d s, π (set_document d s) = π s.
Hypothesis π_network : ∀ n s, π (set_network n s) = π s.
Hypothesis π_pending : ∀ p s, π (set_pending p s) = π s.

Lemma preserves_assign r (f : element → element) : preserves π (assign r f).
Proof using π_document.
  destruct r as [id|]; [|done]. intros s. apply π_document.
Qed.

Lemma preserves_fetch r t : preserves π (fetch r t).
Proof using π_network π_pending.
  intros s. unfold exec, fetch, modify. cbn. by rewrite π_pending, π_network.
Qed.

Lemma preserves_setTimeout t : preserves π (setTimeout t).
Proof using π_pending. intros s. apply π_pending. Qed.
End Preserves.

Create HintDb js_defs.
#[local] Hint Unfold
  getElementById querySelector uploadArea fileInput browseBtn
  processingSection resultsSection errorSection
  hideAllSections showError updateProgress resetUploadForm
  processDocument uploadFile uploadFile_then uploadFile_catch uploadFile_settled
  handleFile handleDragOver handleDragLeave handleDrop handleFileSelect
  showResults processDocument_then processDocument_catch processDocument_settled
  processDocument_timer showAlert showAlert_timer
  handleManualReclassification handleManualReclassification_then
  handleManualReclassification_catch handleManualReclassification_settled
  manualClassification_change chat_keypress chat_then chat_catch chat_settled
  append_html updateTypeChart destroy new_Chart : js_defs.

(** Going through a computation built from the primitives, for an aspect of
    the state the document, the requests and the continuations do not
    change. *)
Ltac frame_step :=
  lazymatch goal with
  | |- preserves _ (mbind _ _) => apply preserves_bind; [|intros ?]
  | |- preserves _ (mret _) => apply preserves_mret
  | |- preserves _ (get _) => apply preserves_get
  | |- preserves _ (throw _) => apply preserves_throw
  | |- preserves _ throw_null => apply preserves_throw_null
  | |- preserves _ (when _ _) => apply preserves_when
  | |- preserves _ (try_catch _ _) => apply preserves_try_catch; [|intros ?]
  | |- preserves _ (read _ _) => apply preserves_read
  | |- preserves _ (assign _ _) => apply preserves_assign; done
  | |- preserves _ (fetch _ _) => apply preserves_fetch; done
  | |- preserves _ (setTimeout _) => apply preserves_setTimeout; done
  | |- preserves _ (modify _) => apply preserves_modify; done
  | |- preserves _ (if _ then _ else _) => case_match
  | |- preserves _ (match _ with _ => _ end) => case_match
  | |- preserves _ _ => progress autounfold with js_defs
  end.

Ltac frame := repeat frame_step.

Lemma processDocument_keeps_reference id :
  preserves currentDocumentId (processDocument id).
Proof. frame. Qed.

(* ===================================================================== *)
(** ** The document reference *)
(* ===================================================================== *)

Lemma handleManualReclassification_no_reference s :
  currentDocumentId s = None →
  network (exec handleManualReclassification s) = network s.
Proof.
  intros Hcur. unfold exec, handleManualReclassification.
  js_step. unfold read.
  destruct (has "manualClassification" (document s)) eqn:Hm; [|done].
  apply has_true in Hm as [e He].
  unfold mbind, js_bind, js_bind_def. rewrite He. unfold get. rewrite Hcur.
  cbn [truthy_opt negb]. by rewrite orb_true_r.
Qed.

(** What [resetUploadForm] leaves on the page. *)
Lemma resetUploadForm_reads s :
  value_of "fileInput" (exec resetUploadForm s) = (λ _, []) <$> value_of "fileInput" s ∧
  count_shown result_sections (exec resetUploadForm s) = 0%nat ∧
  display_of upload_section (exec resetUploadForm s)
  = (λ _, block) <$> display_of upload_section s.
Proof.
  unfold exec. rewrite resetUploadForm_eq. cbn [snd].
  split; [|split].
  - unfold value_of. js_norm. unfold upload_section. lookup_simpl.
    by destruct (document s !! "fileInput").
  - unfold result_sections. rewrite !count_shown_cons, count_shown_nil.
    unfold shown, reset_form, upload_section. state_simpl.
    rewrite !(visible_alter_ne _ ".upload-section") by done.
    rewrite !(visible_alter_ne _ "fileInput") by done.
    rewrite !visible_hide; [done | | | ]; repeat constructor.
  - unfold display_of. js_norm. unfold upload_section. lookup_simpl.
    by destruct (document s !! ".upload-section").
Qed.

(** C6. From any state, [resetUploadForm] completes and leaves the page idle:
    none of the processing, results and error sections is on screen and the
    upload area, where the page has one, is displayed; the stored document
    reference is null and the file input, where the page has one, holds the
    empty string.  No request is issued.  The state it leaves does not depend
    on the reference stored before, so nothing that follows can reuse it: a
    manual reclassification issues no request, and an upload answered with a
    usable identifier is processed under that identifier. *)
Theorem reset_returns_to_idle (s : state) :
  let s' := exec resetUploadForm s in
  resetUploadForm s = (Normal tt, s') ∧
  currentDocumentId s' = None ∧
  value_of "fileInput" s' = (λ _, []) <$> value_of "fileInput" s ∧
  count_shown result_sections s' = 0%nat ∧
  display_of upload_section s' = (λ _, block) <$> display_of upload_section s ∧
  network s' = network s ∧
  pending s' = pending s ∧
  (∀ old, exec resetUploadForm (set_currentDocumentId old s) = s') ∧
  network (exec handleManualReclassification s') = network s' ∧
  (∀ d x, up_success d = true → document_id d = Some x → x ≠ [] →
          window_event s = None →
          let s'' := exec (uploadFile_settled (Fulfilled (Some d))) s' in
          currentDocumentId s'' = Some x ∧
          network s'' = process_request x :: network s).
Proof.
  intros s'. subst s'.
  destruct (resetUploadForm_reads s) as (Hv & Hc & Hd).
  split; [unfold exec; by rewrite resetUploadForm_eq|].
  split; [unfold exec; by rewrite resetUploadForm_eq|].
  split; [exact Hv|]. split; [exact Hc|]. split; [exact Hd|].
  unfold exec. rewrite !resetUploadForm_eq. cbn [snd].
  split; [done|]. split; [done|].
  split.
  { intros old. by rewrite resetUploadForm_eq. }
  split.
  { by apply handleManualReclassification_no_reference. }
  intros d x Hok Hid Hx Hev.
  unfold uploadFile_settled, try_catch.
  rewrite (uploadFile_then_success d x) by done. done.
Qed.

Lemma reset_returns_to_idle_witness :
  currentDocumentId Sample.with_results = Some (lit "A") ∧
  currentDocumentId (exec resetUploadForm Sample.with_results) = None ∧
  network
    (exec (uploadFile_settled (Fulfilled (Some (Sample.uploaded (lit "B")))))
       (exec resetUploadForm Sample.with_results))
  = process_request (lit "B") :: network Sample.with_results.
Proof.
  split; [by_eval|].
  destruct (reset_returns_to_idle Sample.with_results)
    as (_ & Hc & _ & _ & _ & _ & _ & _ & _ & Hnext).
  split; [exact Hc|].
  destruct (Hnext (Sample.uploaded (lit "B")) (lit "B")) as [_ Hn];
    [by_eval | by_eval | by_eval | by_eval |].
  exact Hn.
Defined.

Lemma dispatch_preserves {X} (π : state → X) s ev :
  (∀ v s, π (set_window_event v s) = π s) →
  (∀ p s, π (set_pending p s) = π s) →
  (∀ h, listener ev s = Some h → preserves π h) →
  π (dispatch s ev) = π s.
Proof.
  intros Hev Hpend Hh. unfold dispatch.
  destruct (listener ev s) as [h|] eqn:Hl; [|done].
  rewrite Hev, (Hh h eq_refl), Hev. by destruct (consumed ev).
Qed.

Lemma uploadFile_settled_reference o s :
  currentDocumentId (exec (uploadFile_settled o) s)
  = match o with
    | Fulfilled (Some d) =>
        if up_success d then document_id d else currentDocumentId s
    | _ => currentDocumentId s
    end.
Proof.
  destruct o as [e|[d|]].
  - assert (H : preserves currentDocumentId (uploadFile_catch e)) by frame.
    apply H.
  - unfold uploadFile_settled, uploadFile_then.
    destruct (up_success d).
    + change (currentDocumentId
                (exec (try_catch
                         (updateProgress 30
                            (lit "File uploaded successfully. Starting processing...");;
                          id ← get currentDocumentId; processDocument id)
                         uploadFile_catch)
                      (set_currentDocumentId (document_id d) s)) = document_id d).
      assert (H : preserves currentDocumentId
                    (try_catch
                       (updateProgress 30
                          (lit "File uploaded successfully. Starting processing...");;
                        id ← get currentDocumentId; processDocument id)
                       uploadFile_catch)) by frame.
      by rewrite H.
    + assert (H : preserves currentDocumentId
                    (try_catch (throw (Error (or_else (up_error d) (lit "Upload failed"))))
                               uploadFile_catch)) by frame.
      apply H.
  - assert (H : preserves currentDocumentId (try_catch throw_null uploadFile_catch))
      by frame.
    apply H.
Qed.

(** C7, as stated, fails: an upload attempt that the server refuses leaves the
    reference of the previous document in place. *)
Lemma refused_upload_counterexample :
  currentDocumentId Sample.with_results = Some (lit "A") ∧
  network (run Sample.with_results [FileChange [Sample.pdf]])
  = upload_request Sample.pdf :: network Sample.with_results ∧
  currentDocumentId
    (run Sample.with_results
       [ FileChange [Sample.pdf];
         UploadSettled 0 (Fulfilled (Some Sample.upload_refused)) ])
  = Some (lit "A").
Proof. by_eval. Qed.

(** C7, amended. The stored document reference changes in two ways only: the
    answer to a pending upload with success true overwrites it with the
    document_id of that answer, and a click on either reset button clears it.
    Every other event leaves it as it is: selecting or dropping a file, an
    upload that fails or is refused, and all the rest. *)
Theorem document_reference_lifecycle (s : state) (ev : event) :
  currentDocumentId (dispatch s ev)
  = match ev with
    | UploadSettled i (Fulfilled (Some d)) =>
        match pending s !! i with
        | Some UploadReply =>
            if up_success d then document_id d else currentDocumentId s
        | _ => currentDocumentId s
        end
    | ClickProcessAnother =>
        if upload_wired s && present "processAnotherBtn" s then None
        else currentDocumentId s
    | ClickRetry =>
        if upload_wired s && present "retryBtn" s then None
        else currentDocumentId s
    | _ => currentDocumentId s
    end.
Proof.
  destruct ev as [files| | |files| | |v| |v|key|i o|i o|i o|i o|i|dist|id e];
    try solve [ apply dispatch_preserves; [done | done |]; intros h Hl; cbn in Hl;
                repeat case_match; simplify_eq; frame ].
  - (* ClickProcessAnother *)
    unfold dispatch, listener.
    destruct (upload_wired s && present "processAnotherBtn" s); [|done].
    cbn [consumed]. unfold exec. by rewrite resetUploadForm_eq.
  - (* ClickRetry *)
    unfold dispatch, listener.
    destruct (upload_wired s && present "retryBtn" s); [|done].
    cbn [consumed]. unfold exec. by rewrite resetUploadForm_eq.
  - (* UploadSettled *)
    unfold dispatch, listener.
    destruct (pending s !! i) as [[]|] eqn:Hp; try by destruct o as [|[|]].
    cbn [consumed current_event]. state_simpl.
    rewrite uploadFile_settled_reference. by destruct o as [|[|]].
Qed.

(* ===================================================================== *)
(** ** The type-distribution chart *)
(* ===================================================================== *)

Lemma updateTypeChart_eq dist s :
  present "typeChart" s = true →
  updateTypeChart (Some dist) s = (Normal tt, rebuilt dist s).
Proof.
  intros Hc. unfold updateTypeChart, present in *.
  js_step. js_step.
  unfold rebuilt, without_current, type_chart, destroy, new_Chart.
  destruct (typeChart s) as [old|] eqn:Hold.
  - repeat js_step. unfold modify. by destruct s.
  - repeat js_step. unfold modify. by destruct s.
Qed.

Lemma updateTypeChart_no_canvas dist s :
  present "typeChart" s = false → updateTypeChart dist s = (Normal tt, s).
Proof.
  intros Hc. unfold updateTypeChart. rewrite bind_getElementById.
  unfold ref. by rewrite Hc.
Qed.

Lemma updateTypeChart_no_distribution s :
  present "typeChart" s = true →
  updateTypeChart None s = (Abrupt (TypeError (null_message s)), s).
Proof.
  intros Hc. unfold updateTypeChart. rewrite bind_getElementById.
  unfold ref. by rewrite Hc.
Qed.

Lemma without_current_inv s : chart_inv s → without_current s = [].
Proof.
  unfold chart_inv, without_current. intros [H _].
  destruct (typeChart s) as [old|]; [|done].
  destruct H as (c & -> & <-). rewrite filter_cons, filter_nil. by case_decide.
Qed.

Lemma rebuilt_inv dist s : chart_inv s → chart_inv (rebuilt dist s).
Proof.
  intros Hinv. unfold chart_inv, rebuilt. state_simpl.
  rewrite without_current_inv by done. split.
  - by eexists.
  - apply Forall_singleton. cbn. lia.
Qed.

Lemma updateTypeChart_inv dist s :
  chart_inv s → chart_inv (exec (updateTypeChart dist) s).
Proof.
  intros Hinv. unfold exec.
  destruct (present "typeChart" s) eqn:Hc.
  - destruct dist as [dist|].
    + rewrite updateTypeChart_eq by done. by apply rebuilt_inv.
    + by rewrite updateTypeChart_no_distribution.
  - by rewrite updateTypeChart_no_canvas.
Qed.

(** Nothing but [updateTypeChart] touches the charts. *)
Lemma chart_inv_view s s' : chart_view s' = chart_view s → chart_inv s → chart_inv s'.
Proof. unfold chart_view, chart_inv. by intros [= -> -> ->]. Qed.

Lemma dispatch_chart_inv s ev : chart_inv s → chart_inv (dispatch s ev).
Proof.
  intros Hinv.
  destruct ev as [files| | |files| | |v| |v|key|i o|i o|i o|i o|i|dist|id e];
    try solve [ apply (chart_inv_view s); [|done];
                apply dispatch_preserves; [done | done |]; intros h Hl; cbn in Hl;
                repeat case_match; simplify_eq; frame ].
  unfold dispatch. cbn [listener consumed current_event].
  apply (chart_inv_view (exec (updateTypeChart dist) (set_window_event None s))); [done|].
  apply updateTypeChart_inv. by eapply chart_inv_view.
Qed.

Lemma run_chart_inv s evs : chart_inv s → chart_inv (run s evs).
Proof.
  revert s. induction evs as [|ev evs IH]; intros s Hinv; [done|].
  apply IH. by apply dispatch_chart_inv.
Qed.

Lemma load_chart_inv page msg : chart_inv (load page msg).
Proof. by split. Qed.

Lemma rebuild_charts d s :
  chart_inv s → present "typeChart" s = true →
  let s' := dispatch s (CallUpdateTypeChart (Some d)) in
  charts s' = [type_chart (next_chart s) d] ∧
  typeChart s' = Some (next_chart s) ∧
  next_chart s' = S (next_chart s) ∧
  document s' = document s.
Proof.
  intros Hinv Hc s'. subst s'. unfold dispatch. cbn [listener consumed current_event].
  unfold exec. rewrite updateTypeChart_eq by done.
  unfold rebuilt. state_simpl.
  rewrite (without_current_inv (set_window_event None s)); [done|].
  by eapply chart_inv_view.
Qed.

(** C9. In every state the page can reach, whatever the calls to
    [updateTypeChart] and the other events before, at most one chart instance
    is live, and it is the one the global [typeChart] refers to.  On a page
    that has the canvas, a rebuild leaves exactly the chart it constructs: any
    chart that was live before is destroyed; rebuilding twice in succession
    leaves exactly one instance, the second one. *)
Theorem one_type_chart (page : gmap string element) (msg : jsstring) (evs : list event) :
  let s := run (load page msg) evs in
  (length (charts s) ≤ 1)%nat ∧
  (∀ c, c ∈ charts s → typeChart s = Some (chart_id c)) ∧
  (present "typeChart" s = true →
   ∀ d1 d2,
     let s1 := dispatch s (CallUpdateTypeChart (Some d1)) in
     let s2 := dispatch s1 (CallUpdateTypeChart (Some d2)) in
     charts s1 = [type_chart (next_chart s) d1] ∧
     (∀ c, c ∈ charts s → c ∉ charts s1) ∧
     charts s2 = [type_chart (next_chart s1) d2] ∧
     (∀ c, c ∈ charts s1 → c ∉ charts s2) ∧
     length (charts s2) = 1%nat ∧
     typeChart s2 = Some (next_chart s1)).
Proof.
  intros s.
  assert (Hinv : chart_inv s) by apply run_chart_inv, load_chart_inv.
  split; [|split].
  - destruct Hinv as [H _]. destruct (typeChart s); [|rewrite H; cbn; lia].
    destruct H as (c & -> & _). cbn. lia.
  - intros c Hin. destruct Hinv as [H _]. destruct (typeChart s).
    + destruct H as (c0 & Hc0 & <-). rewrite Hc0 in Hin.
      by apply list_elem_of_singleton in Hin as ->.
    + rewrite H in Hin. by apply elem_of_nil in Hin.
  - intros Hc d1 d2 s1 s2.
    destruct (rebuild_charts d1 s Hinv Hc) as (Hch1 & Ht1 & Hn1 & Hd1).
    fold s1 in Hch1, Ht1, Hn1, Hd1.
    assert (Hinv1 : chart_inv s1) by by apply dispatch_chart_inv.
    assert (Hc1 : present "typeChart" s1 = true) by (unfold present in *; by rewrite Hd1).
    destruct (rebuild_charts d2 s1 Hinv1 Hc1) as (Hch2 & Ht2 & _ & _).
    fold s2 in Hch2, Ht2.
    assert (Hfresh : ∀ s0 d c, chart_inv s0 → c ∈ charts s0 →
                       c ∉ [type_chart (next_chart s0) d]).
    { intros s0 d c [_ Hlt] Hin Heq. apply list_elem_of_singleton in Heq as ->.
      rewrite Forall_forall in Hlt. specialize (Hlt _ Hin). cbn in Hlt. lia. }
    rewrite Hch1, Hch2. repeat split; try done.
    + intros c Hin. by apply Hfresh.
    + intros c Hin. rewrite <- Hch1 in Hin. by apply Hfresh.
Qed.

Lemma one_type_chart_witness :
  present "typeChart" Sample.start = true ∧
  length (charts (run Sample.start
                    [ CallUpdateTypeChart (Some Sample.distribution);
                      CallUpdateTypeChart (Some Sample.distribution) ])) = 1%nat.
Proof.
  assert (Hc : present "typeChart" Sample.start = true) by by_eval.
  split; [exact Hc|].
  destruct (one_type_chart Sample.page (lit "Cannot set properties of null") [])
    as (_ & _ & Hrebuild).
  destruct (Hrebuild Hc Sample.distribution Sample.distribution)
    as (_ & _ & _ & _ & Hlen & _).
  exact Hlen.
Defined.

(* ===================================================================== *)
(** ** The chat widget *)
(* ===================================================================== *)

Lemma trim_start_white (v : jsstring) :
  Forall (λ c, is_white_space c = true) v → trim_start v = [].
Proof. induction 1 as [|c v Hc _ IH]; [done|]. cbn. by rewrite Hc. Qed.

Lemma trim_white (v : jsstring) :
  Forall (λ c, is_white_space c = true) v → trim v = [].
Proof. intros H. unfold trim. by rewrite trim_start_white. Qed.

Lemma trim_start_keeps_last (v : jsstring) c :
  is_white_space c = false → trim_start (v ++ [c]) ≠ [].
Proof.
  intros Hc. induction v as [|x v IH]; cbn.
  - by rewrite Hc.
  - by destruct (is_white_space x).
Qed.

(** The trimmed text is empty exactly for whitespace-only input. *)
Lemma trim_empty_iff (v : jsstring) :
  trim v = [] ↔ Forall (λ c, is_white_space c = true) v.
Proof.
  split; [|apply trim_white].
  intros Ht. induction v as [|x v IH]; [done|].
  unfold trim in *. cbn in Ht.
  destruct (is_white_space x) eqn:Hx; [by constructor; auto|].
  exfalso. unfold trim_end in Ht.
  assert (Hr : trim_start (rev (x :: v)) = []).
  { destruct (trim_start (rev (x :: v))) as [|a l]; [done|].
    cbn in Ht. by destruct (rev l). }
  cbn in Hr. by apply trim_start_keeps_last in Hr.
Qed.

(** *** Markup that reads back as written *)

Lemma scan_plain open (t : jsstring) :
  plain t = true → foldl scan_step (Some (InText open)) t = Some (InText open).
Proof.
  induction t as [|c t IH]; [done|]. cbn [plain forallb foldl scan_step].
  intros [Hc Ht]%andb_prop.
  assert (Hlt : (c =? 60) = false).
  { unfold plain_char in Hc. destruct (c =? 60); [|done].
    by rewrite !orb_true_r in Hc. }
  rewrite Hlt, Hc. by apply IH.
Qed.

Lemma stable_scan (h : jsstring) :
  stable h = true ↔ foldl scan_step (Some (InText [])) h = Some (InText []).
Proof.
  unfold stable. split.
  - by destruct (foldl scan_step (Some (InText [])) h) as [[[|]|]|].
  - by intros ->.
Qed.


(** Plain text between markup that opens and closes the same elements. *)
Lemma stable_wrapped (pre post t : jsstring) open :
  foldl scan_step (Some (InText [])) pre = Some (InText open) →
  foldl scan_step (Some (InText open)) post = Some (InText []) →
  plain t = true →
  stable (pre ++ t ++ post) = true.
Proof.
  intros Hpre Hpost Ht. apply stable_scan.
  by rewrite !foldl_app, Hpre, (scan_plain _ t Ht).
Qed.


Lemma stable_chat_line (who t : jsstring) :
  foldl scan_step (Some (InText [])) (lit "<div><strong>" ++ who ++ lit ":</strong> ")
  = Some (InText [TagDiv]) →
  plain t = true →
  stable ((lit "<div><strong>" ++ who ++ lit ":</strong> ") ++ t ++ lit "</div>") = true.
Proof.
  intros Hwho Ht. by apply (stable_wrapped _ _ _ [TagDiv]).
Qed.


Lemma chat_keypress_other key s :
  key ≠ lit "Enter" → chat_keypress key s = (Normal tt, s).
Proof. intros. unfold chat_keypress. by rewrite bool_decide_eq_false_2. Qed.




(** C10, as stated, fails for an answer that reports a failure in JSON: the
    chain does not look at the status of the response, so an error answer
    such as [{error: ...}], which has no [response] field, is rendered as the
    reply 'undefined' and not as the fixed error line. *)
Lemma chat_error_answer_counterexample :
  transcript
    (run Sample.start
       [ ChatInput (lit "hi"); ChatKeypress (lit "Enter");
         ChatSettled 0 (Fulfilled (Some (ChatResponse ReplyUndefined))) ])
  = Some (lit "<div><strong>You:</strong> hi</div><div><strong>Bot:</strong> undefined</div>").
Proof. by_eval. Qed.



(* ===================================================================== *)
(** ** The sections on screen *)
(* ===================================================================== *)

Section PreservesLookup.
Context {X : Type} (π : state → X).

(** A lookup yields the element's reference or null. *)
Lemma preserves_lookup_bind {B} id (k : eref → js B) :
  preserves π (k (Some id)) → preserves π (k None) →
  preserves π (get (ref id) ≫= k).
Proof.
  intros Hs Hn s. unfold exec. rewrite bind_get. unfold ref.
  destruct (present id s); [apply Hs | apply Hn].
Qed.

Lemma preserves_assign_None_bind {B} f (k : unit → js B) :
  preserves π (assign None f ≫= k).
Proof. done. Qed.

Lemma preserves_throw_null_bind {A B} (k : A → js B) :
  preserves π (throw_null ≫= k).
Proof. done. Qed.

Lemma preserves_throw_bind {A B} e (k : A → js B) :
  preserves π (throw e ≫= k).
Proof. done. Qed.
End PreservesLookup.

Lemma preserves_display_assign ids r f :
  (∀ e, display (f e) = display e) ∨ (∀ id, r = Some id → id ∉ ids) →
  preserves (displays ids) (assign r f).
Proof.
  intros Hside. destruct r as [k|]; [|done]. intros s.
  unfold exec, assign, modify, displays, display_of. state_simpl.
  apply map_ext_in. intros id Hin%list_elem_of_In.
  destruct (decide (k = id)) as [->|Hne]; [|by rewrite lookup_alter_ne].
  destruct Hside as [Hf|Hout]; [|by destruct (Hout id eq_refl)].
  rewrite lookup_alter_eq. destruct (document s !! id); cbn; [|done]. by rewrite Hf.
Qed.

Lemma count_shown_displays ids s s' :
  displays ids s' = displays ids s → count_shown ids s' = count_shown ids s.
Proof.
  unfold displays. induction ids as [|id ids IH]; [done|].
  rewrite !fmap_cons. intros [= Hd Hrest]. rewrite !count_shown_cons, IH by done.
  f_equal. unfold shown, visible, display_of in *.
  destruct (document s !! id), (document s' !! id); cbn in *; simplify_eq; try done.
  by rewrite Hd.
Qed.

Ltac display_side :=
  first
    [ left; intros ?; reflexivity
    | left; intros ?; unfold add_class; case_match; reflexivity
    | right; intros ? [= <-];
      unfold result_sections, upload_section;
      rewrite ?not_elem_of_cons; repeat split; (done || apply not_elem_of_nil) ].

Create HintDb js_mid.
#[local] Hint Unfold
  getElementById querySelector uploadArea fileInput browseBtn
  processingSection resultsSection errorSection
  processDocument uploadFile_then uploadFile_catch uploadFile_settled
  handleFile handleDragOver handleDragLeave handleDrop handleFileSelect
  processDocument_then processDocument_catch processDocument_settled
  processDocument_timer showAlert_timer
  handleManualReclassification handleManualReclassification_then
  handleManualReclassification_catch handleManualReclassification_settled
  manualClassification_change chat_keypress chat_then chat_catch chat_settled
  append_html updateTypeChart destroy new_Chart : js_mid.

Create HintDb js_frame.

(** Going through a computation for the display styles of some elements:
    every lookup is followed through its two outcomes, so that each
    assignment is checked against a known target.  The functions that write
    to the sections or to many elements are not entered: what they keep is
    proved once and found among the hints. *)
Ltac frame_display_step :=
  first
    [ solve [ auto with js_frame nocore ]
    | lazymatch goal with
      | |- preserves _ (mbind _ (get (ref _))) => apply preserves_lookup_bind
      | |- preserves _ (mbind _ (assign None _)) => apply preserves_assign_None_bind
      | |- preserves _ (mbind _ throw_null) => apply preserves_throw_null_bind
      | |- preserves _ (mbind _ (throw _)) => apply preserves_throw_bind
      | |- preserves _ (mbind _ _) => apply preserves_bind; [|intros ?]
      | |- preserves _ (mret _) => apply preserves_mret
      | |- preserves _ (get _) => apply preserves_get
      | |- preserves _ (throw _) => apply preserves_throw
      | |- preserves _ throw_null => apply preserves_throw_null
      | |- preserves _ (when _ _) => apply preserves_when
      | |- preserves _ (try_catch _ _) => apply preserves_try_catch; [|intros ?]
      | |- preserves _ (read _ _) => apply preserves_read
      | |- preserves _ (assign _ _) => apply preserves_display_assign; display_side
      | |- preserves _ (fetch _ _) => apply preserves_modify; done
      | |- preserves _ (setTimeout _) => apply preserves_modify; done
      | |- preserves _ (modify _) => apply preserves_modify; done
      | |- preserves _ (if _ then _ else _) => case_match
      | |- preserves _ (match _ with _ => _ end) => case_match
      | |- preserves _ _ => progress autounfold with js_mid
      end ].

Ltac frame_display :=
  repeat (progress autounfold with js_mid);
  repeat frame_display_step.

Lemma updateProgress_keeps_sections p m :
  preserves (displays result_sections) (updateProgress p m).
Proof. unfold updateProgress. frame_display. Qed.

Lemma showAlert_keeps_sections msg type :
  preserves (displays result_sections) (showAlert msg type).
Proof. unfold showAlert. frame_display. Qed.

#[local] Hint Resolve updateProgress_keeps_sections showAlert_keeps_sections : js_frame.

Lemma manualClassification_change_keeps_sections :
  preserves (displays result_sections) manualClassification_change.
Proof. frame_display. Qed.

Lemma all_hidden_at_most_one s : all_hidden s → at_most_one_result_section s.
Proof. unfold all_hidden, at_most_one_result_section. lia. Qed.

(** One section displayed on top of a document where all three are hidden. *)
Lemma one_shown_after_hide sec v d s0 :
  (count_shown result_sections
     (set_document (alter (set_display v) sec (hide d)) s0) ≤ 1)%nat.
Proof.
  unfold result_sections. rewrite !count_shown_cons, count_shown_nil.
  unfold shown. state_simpl.
  assert (Hh : ∀ x, x ∈ result_sections → visible x (hide d) = false)
    by (intros; by apply visible_hide).
  assert (Hne : ∀ x, sec ≠ x → x ∈ result_sections →
                  visible x (alter (set_display v) sec (hide d)) = false).
  { intros x Hx Hin. rewrite visible_alter_ne by done. by apply Hh. }
  assert (H1 : "processingSection" ∈ result_sections) by repeat constructor.
  assert (H2 : "resultsSection" ∈ result_sections) by repeat constructor.
  assert (H3 : "errorSection" ∈ result_sections) by repeat constructor.
  destruct (decide (sec = "processingSection")) as [->|N1].
  { rewrite (Hne "resultsSection"), (Hne "errorSection") by done.
    case_match; cbn; lia. }
  rewrite (Hne "processingSection") by done.
  destruct (decide (sec = "resultsSection")) as [->|N2].
  { rewrite (Hne "errorSection") by done. case_match; cbn; lia. }
  rewrite (Hne "resultsSection") by done.
  case_match; cbn; lia.
Qed.

Lemma safe_of_preserves {A} (c : js A) :
  preserves (displays result_sections) c → safe c.
Proof.
  intros Hp s Hs. unfold at_most_one_result_section in *.
  by rewrite (count_shown_displays _ s) by apply Hp.
Qed.

Lemma safe_of_establishes {A} (c : js A) :
  (∀ s, at_most_one_result_section (exec c s)) → safe c.
Proof. intros H s _. apply H. Qed.

Lemma safe_bind {A B} (c : js A) (k : A → js B) :
  safe c → (∀ a, safe (k a)) → safe (c ≫= k).
Proof.
  intros Hc Hk s Hs. specialize (Hc s Hs).
  unfold exec, mbind, js_bind, js_bind_def in *.
  destruct (c s) as [[a|e] s1]; cbn in *; [|done]. by apply Hk.
Qed.

Lemma safe_try_catch {A} (c : js A) (h : js_error → js A) :
  safe c → (∀ e, safe (h e)) → safe (try_catch c h).
Proof.
  intros Hc Hh s Hs. specialize (Hc s Hs).
  unfold exec, try_catch in *.
  destruct (c s) as [[a|e] s1]; cbn in *; [done|]. by apply Hh.
Qed.

Lemma hideAllSections_hides s : all_hidden (exec hideAllSections s).
Proof. unfold exec. rewrite hideAllSections_eq. apply hide_hides. Qed.

Lemma showError_sections msg s : at_most_one_result_section (exec (showError msg) s).
Proof.
  unfold exec. rewrite showError_eq.
  destruct (present "errorSection" s).
  - unfold at_most_one_result_section, show_error, on_document. state_simpl.
    rewrite (count_shown_displays _
               (set_document (alter (set_display block) "errorSection" (hide (document s))) s)).
    + apply one_shown_after_hide.
    + unfold displays, display_of. state_simpl. apply map_ext_in. intros id _.
      destruct (decide ("errorMessage" = id)) as [<-|]; [|by rewrite lookup_alter_ne].
      rewrite lookup_alter_eq.
      by destruct (alter _ _ _ !! "errorMessage").
  - apply all_hidden_at_most_one, hide_hides.
Qed.

Lemma resetUploadForm_sections s :
  at_most_one_result_section (exec resetUploadForm s).
Proof.
  apply all_hidden_at_most_one.
  destruct (resetUploadForm_reads s) as (_ & H & _). exact H.
Qed.

(** Once a result section has been displayed over hidden ones, what follows
    in [uploadFile] and [showResults] leaves the sections alone. *)
Lemma shown_then_kept {A} id (k : unit → js A) s :
  preserves (displays result_sections) (k tt) →
  at_most_one_result_section
    (exec (r ← getElementById id; assign r (set_display block) ≫= k)
          (on_document hide s)).
Proof.
  intros Hk. unfold exec. rewrite bind_getElementById. unfold ref.
  destruct (present id (on_document hide s)).
  - rewrite bind_assign_Some. unfold at_most_one_result_section.
    pose proof (Hk (on_document (alter (set_display block) id) (on_document hide s)))
      as Hkept.
    unfold exec in Hkept. rewrite (count_shown_displays _ _ _ Hkept).
    unfold on_document. state_simpl. apply one_shown_after_hide.
  - rewrite bind_assign_None. apply all_hidden_at_most_one, hide_hides.
Qed.

Lemma uploadFile_sections f s : at_most_one_result_section (exec (uploadFile f) s).
Proof.
  unfold exec, uploadFile, processingSection.
  rewrite (bind_normal _ _ _ _ _ (hideAllSections_eq s)).
  apply (shown_then_kept "processingSection"). frame_display.
Qed.

Lemma showResults_sections data s :
  at_most_one_result_section (exec (showResults data) s).
Proof.
  unfold exec, showResults, resultsSection.
  rewrite (bind_normal _ _ _ _ _ (hideAllSections_eq s)).
  apply (shown_then_kept "resultsSection"). cbv zeta. frame_display.
Qed.

Create HintDb js_outer.
#[local] Hint Unfold
  processDocument uploadFile_then uploadFile_catch uploadFile_settled
  handleFile handleDrop handleFileSelect uploadArea
  processDocument_then processDocument_catch processDocument_settled
  processDocument_timer : js_outer.

(** A handler keeps the sections exclusive when each of its parts either
    leaves their display styles alone or is one of the four functions that
    hide all sections before displaying one. *)
Ltac safe_tac :=
  lazymatch goal with
  | |- safe (showError _) =>
      apply safe_of_establishes; intros ?; apply showError_sections
  | |- safe (uploadFile _) =>
      apply safe_of_establishes; intros ?; apply uploadFile_sections
  | |- safe (showResults _) =>
      apply safe_of_establishes; intros ?; apply showResults_sections
  | |- safe resetUploadForm =>
      apply safe_of_establishes; intros ?; apply resetUploadForm_sections
  | |- _ =>
      first
        [ solve [ apply safe_of_preserves; frame_display ]
        | lazymatch goal with
          | |- safe (mbind _ _) => apply safe_bind; [safe_tac | intros ?; safe_tac]
          | |- safe (try_catch _ _) =>
              apply safe_try_catch; [safe_tac | intros ?; safe_tac]
          | |- safe (if _ then _ else _) => case_match; safe_tac
          | |- safe (match _ with _ => _ end) => case_match; safe_tac
          | |- safe _ => progress autounfold with js_outer; safe_tac
          end ]
  end.

Lemma uploadFile_settled_safe o : safe (uploadFile_settled o).
Proof. safe_tac. Qed.

Lemma processDocument_timer_safe data : safe (processDocument_timer data).
Proof. safe_tac. Qed.

Lemma listener_safe ev s h : listener ev s = Some h → safe h.
Proof.
  intros Hl.
  destruct ev as [files| | |files| | |v| |v|key|i o|i o|i o|i o|i|dist|id e];
    unfold listener in Hl; repeat case_match; simplify_eq; safe_tac.
Qed.

Lemma dispatch_sections s ev :
  at_most_one_result_section s → at_most_one_result_section (dispatch s ev).
Proof.
  intros Hs. unfold dispatch.
  destruct (listener ev s) as [h|] eqn:Hl; [|done].
  apply listener_safe in Hl.
  refine (Hl (set_window_event (current_event ev) _) _).
  by destruct (consumed ev).
Qed.

Lemma run_sections s evs :
  at_most_one_result_section s → at_most_one_result_section (run s evs).
Proof.
  revert s. induction evs as [|ev evs IH]; intros s Hs; [done|].
  apply IH. by apply dispatch_sections.
Qed.

(** *** The upload area *)

Lemma hideAllSections_keeps_upload :
  preserves (displays [upload_section]) hideAllSections.
Proof. unfold hideAllSections. frame_display. Qed.

Lemma updateProgress_keeps_upload p m :
  preserves (displays [upload_section]) (updateProgress p m).
Proof. unfold updateProgress. frame_display. Qed.

Lemma showAlert_keeps_upload msg type :
  preserves (displays [upload_section]) (showAlert msg type).
Proof. unfold showAlert. frame_display. Qed.

#[local] Hint Resolve hideAllSections_keeps_upload updateProgress_keeps_upload
  showAlert_keeps_upload : js_frame.

Lemma showError_keeps_upload msg :
  preserves (displays [upload_section]) (showError msg).
Proof. unfold showError. frame_display. Qed.

Lemma uploadFile_keeps_upload f :
  preserves (displays [upload_section]) (uploadFile f).
Proof. unfold uploadFile. frame_display. Qed.

Lemma showResults_keeps_upload data :
  preserves (displays [upload_section]) (showResults data).
Proof. unfold showResults. cbv zeta. frame_display. Qed.

#[local] Hint Resolve showError_keeps_upload uploadFile_keeps_upload
  showResults_keeps_upload : js_frame.

(** Every listener but the reset leaves the display style of the upload area
    as it is. *)
Lemma listener_keeps_upload ev s h :
  listener ev s = Some h →
  h = resetUploadForm ∨ preserves (displays [upload_section]) h.
Proof.
  intros Hl.
  destruct ev as [files| | |files| | |v| |v|key|i o|i o|i o|i o|i|dist|id e];
    unfold listener in Hl; repeat case_match; simplify_eq;
    first [ by left | right; frame_display ].
Qed.

Lemma dispatch_upload_area s ev :
  display_of upload_section (dispatch s ev) = display_of upload_section s ∨
  display_of upload_section (dispatch s ev) = Some block.
Proof.
  unfold dispatch.
  destruct (listener ev s) as [h|] eqn:Hl; [|by left].
  set (s1 := set_window_event (current_event ev) _).
  assert (Hs1 : display_of upload_section s1 = display_of upload_section s)
    by (subst s1; by destruct (consumed ev)).
  change (display_of upload_section (set_window_event None (exec h s1)))
    with (display_of upload_section (exec h s1)).
  apply listener_keeps_upload in Hl as [->|Hkeep].
  - destruct (resetUploadForm_reads s1) as (_ & _ & Hd).
    rewrite Hd, Hs1. destruct (display_of upload_section s); [by right | by left].
  - left. specialize (Hkeep s1). unfold displays in Hkeep. cbn in Hkeep.
    injection Hkeep as Hkeep. by rewrite Hkeep.
Qed.

Lemma shown_display id s :
  shown id s = match display_of id s with
               | Some d => negb (bool_decide (d = none))
               | None => false
               end.
Proof. unfold shown, visible, display_of. by destruct (document s !! id). Qed.

Lemma run_upload_area s evs :
  shown upload_section s = true → shown upload_section (run s evs) = true.
Proof.
  revert s. induction evs as [|ev evs IH]; intros s Hs; [done|].
  apply IH. rewrite shown_display in *.
  destruct (dispatch_upload_area s ev) as [-> | ->]; [done|].
  by_eval.
Qed.

(** C5, as stated, fails: no function of the script hides the upload area, so
    once a file is selected on the idle page the upload area and the
    processing section are on screen together. *)
Lemma two_sections_counterexample :
  exactly_one_section (run Sample.start [ClickRetry]) ∧
  display_of upload_section (run Sample.start [ClickRetry; FileChange [Sample.pdf]])
  = Some block ∧
  display_of "processingSection" (run Sample.start [ClickRetry; FileChange [Sample.pdf]])
  = Some block ∧
  count_shown workflow_sections (run Sample.start [ClickRetry; FileChange [Sample.pdf]])
  = 2%nat ∧
  ¬ exactly_one_section (run Sample.start [ClickRetry; FileChange [Sample.pdf]]).
Proof. repeat split; by_eval. Qed.

(** C5, amended. At every point the page can reach from a load where at most
    one of the processing, results and error sections is on screen, at most
    one of these three is on screen; the upload area is not part of the
    exclusion: no event hides it, so once on screen it stays on screen beside
    them. *)
Theorem sections_exclusive (page : gmap string element) (msg : jsstring)
    (evs : list event) :
  at_most_one_result_section (load page msg) →
  let s := run (load page msg) evs in
  at_most_one_result_section s ∧
  (∀ more, shown upload_section s = true → shown upload_section (run s more) = true).
Proof.
  intros Hinit s. split.
  - by apply run_sections.
  - intros more. apply run_upload_area.
Qed.

Lemma sections_exclusive_witness :
  at_most_one_result_section (load Sample.page (lit "Cannot set properties of null")) ∧
  at_most_one_result_section Sample.with_results ∧
  shown "resultsSection" Sample.with_results = true.
Proof.
  assert (H0 : at_most_one_result_section
                 (load Sample.page (lit "Cannot set properties of null"))).
  { unfold at_most_one_result_section.
    replace (count_shown _ _) with 0%nat by by_eval. lia. }
  split; [exact H0|]. split; [|by_eval].
  exact (proj1 (sections_exclusive Sample.page _
                  [ FileChange [Sample.pdf];
                    UploadSettled 0 (Fulfilled (Some (Sample.uploaded (lit "A"))));
                    ProcessSettled 0 (Fulfilled (Some (Sample.processed 0.85)));
                    TimerFired 0 ] H0)).
Defined.

(* ===================================================================== *)
(** ** The error paths of the upload and processing chains *)
(* ===================================================================== *)

Lemma uploadFile_settled_failure o s reason :
  upload_failure o s = Some reason →
  uploadFile_settled o s = showError (lit "Upload failed: " ++ reason) s.
Proof.
  unfold upload_failure, uploadFile_settled, uploadFile_catch, try_catch, uploadFile_then.
  destruct o as [e|[d|]]; [by intros [= <-]| |by intros [= <-]].
  destruct (up_success d); [done|]. by intros [= <-].
Qed.

(** X1. An upload that fails (the request is rejected, the body is not JSON
    or is null, or the server answers success false) ends in the error
    panel: no request follows, the stored reference is kept, processing and
    results are off screen, and the panel reads 'Upload failed: ' followed by
    the error's message, the server's error text, or 'Upload failed' again
    when the server gave none. *)
Theorem upload_failure_reported (o : settled upload_response) (s : state)
    (reason : jsstring) :
  upload_failure o s = Some reason →
  let s' := exec (uploadFile_settled o) s in
  uploadFile_settled o s = (Normal tt, s') ∧
  network s' = network s ∧
  pending s' = pending s ∧
  currentDocumentId s' = currentDocumentId s ∧
  shown "processingSection" s' = false ∧
  shown "resultsSection" s' = false ∧
  (present "errorSection" s = true → present "errorMessage" s = true →
     inner_of "errorMessage" s' = Some (Text (lit "Upload failed: " ++ reason)) ∧
     display_of "errorSection" s' = Some block).
Proof.
  intros Hf. unfold exec. rewrite (uploadFile_settled_failure o s reason Hf).
  apply showError_reads.
Qed.

Lemma upload_failure_reported_witness :
  upload_failure (Fulfilled (Some (UploadResponse false None None))) Sample.uploading
  = Some (lit "Upload failed") ∧
  (inner_of "errorMessage"
     (exec (uploadFile_settled (Fulfilled (Some (UploadResponse false None None))))
           Sample.uploading)
   = Some (Text (lit "Upload failed: Upload failed"))).
Proof.
  assert (Hf : upload_failure (Fulfilled (Some (UploadResponse false None None)))
                 Sample.uploading = Some (lit "Upload failed")) by by_eval.
  split; [exact Hf|].
  destruct (upload_failure_reported _ _ _ Hf) as (_ & _ & _ & _ & _ & _ & Hpanel).
  destruct Hpanel as [Hm _]; [by_eval | by_eval |]. exact Hm.
Defined.

Lemma processDocument_settled_failure o s reason :
  process_failure o s = Some reason →
  processDocument_settled o s = showError (lit "Processing failed: " ++ reason) s.
Proof.
  unfold process_failure, processDocument_settled, processDocument_catch, try_catch,
    processDocument_then.
  destruct o as [e|[d|]]; [by intros [= <-]| |by intros [= <-]].
  destruct (pr_success d); [done|]. by intros [= <-].
Qed.

(** X2. A processing request that fails (rejected, no JSON, null body, or
    success false) ends in the error panel with 'Processing failed: ' and the
    reason; no results timer is queued, no request is issued and the stored
    reference is kept. *)
Theorem process_failure_reported (o : settled process_response) (s : state)
    (reason : jsstring) :
  process_failure o s = Some reason →
  let s' := exec (processDocument_settled o) s in
  processDocument_settled o s = (Normal tt, s') ∧
  network s' = network s ∧
  pending s' = pending s ∧
  currentDocumentId s' = currentDocumentId s ∧
  shown "processingSection" s' = false ∧
  shown "resultsSection" s' = false ∧
  (present "errorSection" s = true → present "errorMessage" s = true →
     inner_of "errorMessage" s' = Some (Text (lit "Processing failed: " ++ reason)) ∧
     display_of "errorSection" s' = Some block).
Proof.
  intros Hf. unfold exec. rewrite (processDocument_settled_failure o s reason Hf).
  apply showError_reads.
Qed.

Lemma process_failure_reported_witness :
  process_failure (Rejected (TypeError (lit "Failed to fetch"))) Sample.uploading
  = Some (lit "Failed to fetch") ∧
  (inner_of "errorMessage"
     (exec (processDocument_settled (Rejected (TypeError (lit "Failed to fetch"))))
           Sample.uploading)
   = Some (Text (lit "Processing failed: Failed to fetch"))).
Proof.
  assert (Hf : process_failure (Rejected (TypeError (lit "Failed to fetch")))
                 Sample.uploading = Some (lit "Failed to fetch")) by by_eval.
  split; [exact Hf|].
  destruct (process_failure_reported _ _ _ Hf) as (_ & _ & _ & _ & _ & _ & Hpanel).
  destruct Hpanel as [Hm _]; [by_eval | by_eval |]. exact Hm.
Defined.

(* ===================================================================== *)
(** ** The clicked button of [processDocument] *)
(* ===================================================================== *)

(** An assignment to one property leaves the reading of another as it is. *)
Lemma lookup_alter_fmap {X} (g : element → X) f k b (d : gmap string element) :
  (∀ e, g (f e) = g e) → g <$> alter f k d !! b = g <$> d !! b.
Proof.
  intros Hg. destruct (decide (k = b)) as [->|].
  - rewrite lookup_alter_eq. destruct (d !! b); cbn; [by rewrite Hg | done].
  - by rewrite lookup_alter_ne.
Qed.

Lemma disabled_progress p m b d :
  disabled <$> progress p m d !! b = disabled <$> d !! b.
Proof. unfold progress. by rewrite !lookup_alter_fmap. Qed.

Lemma inner_progress p m b d :
  b ≠ "processingStatus" → inner <$> progress p m d !! b = inner <$> d !! b.
Proof.
  intros Hb. unfold progress.
  rewrite lookup_alter_fmap by done. rewrite lookup_alter_ne by done.
  by rewrite lookup_alter_fmap.
Qed.

(** X3. [processDocument] called with a truthy reference while an event is
    being dispatched looks for the button the event's target lies in.  When
    the target lies in a button, the button is disabled, it shows the
    spinner (unless it is the status line itself, which the progress text
    then overwrites), and the request POST /process/<id> is issued with its
    continuation queued.  When the target lies in no button, the call throws
    a TypeError before anything is changed: no request is issued. *)
Theorem processDocument_button (s : state) (ev : dom_event) (id : option jsstring) :
  truthy_opt id = true →
  window_event s = Some ev →
  match closest_button ev with
  | None => processDocument id s = (Abrupt (TypeError (null_message s)), s)
  | Some b =>
      present b s = true →
      let s' := exec (processDocument id) s in
      processDocument id s = (Normal tt, s') ∧
      network s' = process_request (default [] id) :: network s ∧
      pending s' = pending s ++ [ProcessReply] ∧
      disabled <$> document s' !! b = Some true ∧
      (b ≠ "processingStatus" → inner_of b s' = Some (Html spinner_html))
  end.
Proof.
  intros Hid Hev. destruct (closest_button ev) as [b|] eqn:Hbtn.
  - intros Hb s'.
    assert (E : processDocument id s
                = (Normal tt,
                   set_pending (pending s ++ [ProcessReply])
                     (set_network (process_request (default [] id) :: network s)
                        (on_document
                           (progress 50 (lit "Extracting text using OCR...")
                            ∘ alter (set_inner (Html spinner_html)) b
                            ∘ alter (set_disabled true) b) s)))).
    { unfold processDocument. rewrite Hid. cbn [negb].
      rewrite bind_get, Hev, Hbtn.
      rewrite bind_assoc, bind_assign_Some, bind_assign_Some.
      by rewrite (bind_normal _ _ _ _ _ (updateProgress_eq _ _ _)). }
    subst s'. unfold exec. rewrite E. cbn [snd]. state_simpl.
    apply has_true in Hb as [e He].
    split; [done|]. split; [done|]. split; [done|]. split.
    + unfold compose. rewrite disabled_progress, !lookup_alter_eq, He. done.
    + intros Hne. unfold inner_of. state_simpl. unfold compose.
      rewrite inner_progress by done. by rewrite !lookup_alter_eq, He.
  - unfold processDocument. rewrite Hid. cbn [negb].
    rewrite bind_get, Hev, Hbtn. by rewrite bind_assoc, bind_assign_None.
Qed.

Lemma processDocument_button_witness :
  network (exec (processDocument (Some (lit "42")))
             (set_window_event (Some (DomEvent (Some "retryBtn"))) Sample.start))
  = [process_request (lit "42")] ∧
  processDocument (Some (lit "42"))
    (set_window_event (Some (DomEvent None)) Sample.start)
  = (Abrupt (TypeError (null_message Sample.start)),
     set_window_event (Some (DomEvent None)) Sample.start).
Proof.
  split.
  - pose proof (processDocument_button
                  (set_window_event (Some (DomEvent (Some "retryBtn"))) Sample.start)
                  (DomEvent (Some "retryBtn")) (Some (lit "42"))
                  eq_refl eq_refl) as H.
    cbn [closest_button] in H.
    destruct H as (_ & Hn & _); [by_eval|]. exact Hn.
  - exact (processDocument_button
             (set_window_event (Some (DomEvent None)) Sample.start)
             (DomEvent None) (Some (lit "42")) eq_refl eq_refl).
Defined.

(* ===================================================================== *)
(** ** Manual reclassification *)
(* ===================================================================== *)

Lemma showAlert_eq msg type s : showAlert msg type s = (Normal tt, alerted msg type s).
Proof.
  unfold showAlert, alerted, banner.
  rewrite bind_get, bind_modify, bind_querySelector.
  unfold ref, present. state_simpl.
  by destruct (has ".container" (document s)).
Qed.

Lemma showAlert_keeps_displays ids msg type :
  preserves (displays ids) (showAlert msg type).
Proof.
  intros s. unfold exec. rewrite showAlert_eq. cbn [snd].
  unfold alerted. by destruct (present ".container" s).
Qed.

#[local] Hint Resolve showAlert_keeps_displays : js_frame.

(** X4. [handleManualReclassification] issues its request exactly when the
    value of the manualClassification control and the stored reference are
    both truthy: it is then POST /reclassify/<reference> with the JSON body
    {new_type: <value>}, and nothing else on the page changes.  With an
    empty choice or no reference nothing happens at all.  On a page without
    the control the handler throws a TypeError and issues nothing. *)
Theorem reclassification_request (s : state) :
  match document s !! "manualClassification" with
  | None =>
      handleManualReclassification s = (Abrupt (TypeError (null_message s)), s)
  | Some sel =>
      handleManualReclassification s
      = (Normal tt,
         if truthy (value sel) && truthy_opt (currentDocumentId s)
         then set_pending (pending s ++ [ReclassifyReply])
                (set_network
                   (reclassify_request (default [] (currentDocumentId s)) (value sel)
                    :: network s) s)
         else s)
  end.
Proof.
  unfold handleManualReclassification. rewrite bind_getElementById.
  unfold ref, present, has, read.
  destruct (document s !! "manualClassification") as [sel|] eqn:Hsel; [|done].
  unfold mbind, js_bind, js_bind_def. rewrite Hsel. unfold get.
  destruct (truthy (value sel)), (truthy_opt (currentDocumentId s)); done.
Qed.

Lemma reclassification_then_success d doc r s :
  rc_success d = true → rc_document d = Some doc → rc_routing d = Some r →
  present "documentType" s = true → present "confidence" s = true →
  present "routedTo" s = true → present "reclassifyBtn" s = true →
  present "manualClassification" s = true →
  handleManualReclassification_then (Some d) s
  = (Normal tt,
     alerted (lit "Document reclassified successfully!") (lit "success")
       (on_document (reclassified (default [] (document_type doc))
                                  (default [] (department r))) s)).
Proof.
  intros Hok Hdoc Hr H1 H2 H3 H4 H5. unfold present in *.
  unfold handleManualReclassification_then. rewrite Hok, Hdoc, Hr.
  repeat js_step. by rewrite showAlert_eq.
Qed.

(** X5. A reclassification the server accepts, with the document and the
    routing in its answer, updates the results in place: the type reads the
    new document type, the confidence shows the '100% (Manual)' badge, the
    department reads the new routing, the reclassify button is hidden and the
    choice is cleared.  A success banner is put on top of the page's
    container with its timer queued; no request is issued. *)
Theorem reclassification_rendered (s : state) (d : reclassify_response)
    (doc : reclassified_document) (r : routing) :
  rc_success d = true → rc_document d = Some doc → rc_routing d = Some r →
  present "documentType" s = true → present "confidence" s = true →
  present "routedTo" s = true → present "reclassifyBtn" s = true →
  present "manualClassification" s = true → present ".container" s = true →
  let s' := exec (handleManualReclassification_settled (Fulfilled (Some d))) s in
  inner_of "documentType" s' = Some (Text (default [] (document_type doc))) ∧
  inner_of "confidence" s' = Some (Html manual_badge_html) ∧
  inner_of "routedTo" s' = Some (Text (default [] (department r))) ∧
  display_of "reclassifyBtn" s' = Some none ∧
  value_of "manualClassification" s' = Some [] ∧
  alerts s' = banner (next_alert s) (lit "Document reclassified successfully!")
                     (lit "success") :: alerts s ∧
  pending s' = pending s ++ [AlertTimer (next_alert s)] ∧
  network s' = network s.
Proof.
  intros Hok Hdoc Hr H1 H2 H3 H4 H5 Hc s'. subst s'.
  unfold exec, handleManualReclassification_settled, try_catch.
  rewrite (reclassification_then_success d doc r s) by done.
  cbn [snd]. unfold alerted, reclassified. js_norm. rewrite Hc.
  unfold inner_of, display_of, value_of. state_simpl.
  apply has_true in H1 as [? E1], H2 as [? E2], H3 as [? E3], H4 as [? E4],
    H5 as [? E5].
  lookup_simpl. rewrite E1, E2, E3, E4, E5. done.
Qed.

Lemma reclassification_rendered_witness :
  inner_of "documentType"
    (exec (handleManualReclassification_settled (Fulfilled (Some Board.reclassified_ok)))
          Board.results)
  = Some (Text (lit "Invoice")).
Proof.
  refine (proj1 (reclassification_rendered Board.results Board.reclassified_ok
                   (ReclassifiedDocument (Some (lit "Invoice")))
                   (Routing (Some (lit "Finance")))
                   eq_refl eq_refl eq_refl _ _ _ _ _ _)); by_eval.
Defined.

Lemma reclassification_settled_failure o s reason :
  reclassify_failure o s = Some reason →
  handleManualReclassification_settled o s
  = (Normal tt, alerted (lit "Reclassification failed: " ++ reason) (lit "danger") s).
Proof.
  unfold reclassify_failure, handleManualReclassification_settled,
    handleManualReclassification_catch, try_catch, handleManualReclassification_then.
  destruct o as [e|[d|]]; [intros [= <-]; apply showAlert_eq| |intros [= <-]; apply showAlert_eq].
  destruct (rc_success d); [done|]. intros [= <-]. apply showAlert_eq.
Qed.

(** X6. A reclassification that fails (rejected, no JSON, null body, or
    success false) leaves the rendered results, the stored reference and the
    network as they are.  On a page with a container it puts a danger banner
    'Reclassification failed: ' with the reason on top and queues its timer;
    on a page without one the failure leaves no trace. *)
Theorem reclassification_failure_reported (o : settled reclassify_response) (s : state)
    (reason : jsstring) :
  reclassify_failure o s = Some reason →
  let s' := exec (handleManualReclassification_settled o) s in
  document s' = document s ∧
  currentDocumentId s' = currentDocumentId s ∧
  network s' = network s ∧
  (if present ".container" s
   then alerts s' = banner (next_alert s) (lit "Reclassification failed: " ++ reason)
                           (lit "danger") :: alerts s ∧
        pending s' = pending s ++ [AlertTimer (next_alert s)]
   else alerts s' = alerts s ∧ pending s' = pending s).
Proof.
  intros Hf s'. subst s'. unfold exec.
  rewrite (reclassification_settled_failure o s reason Hf). cbn [snd].
  unfold alerted. by destruct (present ".container" s).
Qed.

Lemma reclassification_failure_reported_witness :
  alerts (exec (handleManualReclassification_settled
                  (Fulfilled (Some Board.reclassify_refused))) Board.results)
  = [banner 0 (lit "Reclassification failed: Unknown type") (lit "danger")].
Proof.
  pose proof (reclassification_failure_reported
                (Fulfilled (Some Board.reclassify_refused))
                Board.results (lit "Unknown type") eq_refl) as H.
  destruct H as (_ & _ & _ & H).
  replace (present ".container" Board.results) with true in H by by_eval.
  exact (proj1 H).
Defined.

(** X7. Whatever the server answers to a reclassification, the answer is
    handled in place: the display styles of the upload area and of the
    processing, results and error sections are kept, and so are the stored
    reference and the requests issued. *)
Theorem reclassification_in_place (o : settled reclassify_response) :
  preserves (displays workflow_sections) (handleManualReclassification_settled o) ∧
  preserves currentDocumentId (handleManualReclassification_settled o) ∧
  preserves network (handleManualReclassification_settled o).
Proof.
  split; [|split].
  - unfold workflow_sections. frame_display.
  - frame.
  - frame.
Qed.

(** X8. Choosing a document type in the manualClassification control shows
    the reclassify button (display inline-block), and choosing the empty
    entry hides it; the choice issues no request. *)
Theorem reclassify_button_follows_choice (s : state) (v : jsstring) :
  present "manualClassification" s = true →
  present "reclassifyBtn" s = true →
  let s' := dispatch s (ManualClassificationChange v) in
  value_of "manualClassification" s' = Some v ∧
  display_of "reclassifyBtn" s'
  = Some (if truthy v then lit "inline-block" else none) ∧
  network s' = network s ∧
  pending s' = pending s.
Proof.
  intros Hm Hb s'. subst s'. unfold dispatch, listener. rewrite Hm.
  cbn [consumed current_event].
  assert (E : (assign (Some "manualClassification") (set_value v);;
               manualClassification_change)
                (set_window_event (Some (DomEvent None)) s)
              = (Normal tt,
                 on_document
                   (alter (set_display (if truthy v then lit "inline-block" else none))
                          "reclassifyBtn"
                    ∘ alter (set_value v) "manualClassification")
                   (set_window_event (Some (DomEvent None)) s))).
  { unfold present in *. pose proof Hm as [e He]%has_true.
    rewrite bind_assign_Some. unfold manualClassification_change.
    rewrite !bind_getElementById. js_norm. rewrite Hb, Hm.
    unfold read, mbind, js_bind, js_bind_def. state_simpl.
    rewrite lookup_alter_eq, He. cbn [fmap option_fmap option_map value set_value].
    rewrite andb_true_r.
    destruct (truthy v); done. }
  unfold exec. rewrite E. cbn [snd]. unfold value_of, display_of. state_simpl.
  unfold compose. unfold present in *.
  apply has_true in Hm as [e He], Hb as [b Hbe].
  rewrite lookup_alter_ne by done. rewrite !lookup_alter_eq.
  rewrite lookup_alter_ne by done. rewrite He, Hbe. done.
Qed.

Lemma reclassify_button_follows_choice_witness :
  display_of "reclassifyBtn"
    (dispatch Sample.with_results (ManualClassificationChange (lit "Invoice")))
  = Some (lit "inline-block").
Proof.
  refine (proj1 (proj2 (reclassify_button_follows_choice Sample.with_results
                          (lit "Invoice") _ _))); by_eval.
Defined.

(* ===================================================================== *)
(** ** Alert banners *)
(* ===================================================================== *)

Section Keeps.
Context (I : state → Prop).

Lemma keeps_bind {A B} (c : js A) (k : A → js B) :
  keeps I c → (∀ a, keeps I (k a)) → keeps I (c ≫= k).
Proof.
  intros Hc Hk s Hs. specialize (Hc s Hs).
  unfold exec, mbind, js_bind, js_bind_def in *.
  destruct (c s) as [[a|e] s1]; cbn in *; [|done]. by apply Hk.
Qed.

Lemma keeps_try_catch {A} (c : js A) (h : js_error → js A) :
  keeps I c → (∀ e, keeps I (h e)) → keeps I (try_catch c h).
Proof.
  intros Hc Hh s Hs. specialize (Hc s Hs).
  unfold exec, try_catch in *.
  destruct (c s) as [[a|e] s1]; cbn in *; [done|]. by apply Hh.
Qed.

Lemma keeps_of_preserves {A X} (π : state → X) (c : js A) :
  (∀ s s', π s' = π s → I s → I s') → preserves π c → keeps I c.
Proof. intros HI Hp s Hs. apply (HI s); [apply Hp | done]. Qed.
End Keeps.

Lemma filter_all {A} (P : A → Prop) `{!∀ x, Decision (P x)} (l : list A) :
  Forall P l → filter P l = l.
Proof.
  induction 1 as [|x l Hx _ IH]; [done|]. by rewrite filter_cons_True, IH.
Qed.

Lemma alerts_fresh_view s s' : alert_view s' = alert_view s → alerts_fresh s → alerts_fresh s'.
Proof. unfold alert_view, alerts_fresh. by intros [= -> ->]. Qed.

Lemma showAlert_fresh msg type : keeps alerts_fresh (showAlert msg type).
Proof.
  intros s Hlt. unfold exec. rewrite showAlert_eq. cbn [snd].
  unfold alerted, alerts_fresh in *. destruct (present ".container" s); state_simpl.
  - constructor; [cbn; lia|]. eapply Forall_impl; [done|]. cbn. lia.
  - eapply Forall_impl; [done|]. cbn. lia.
Qed.

Lemma showAlert_timer_fresh id : keeps alerts_fresh (showAlert_timer id).
Proof.
  intros s Hlt. unfold exec, showAlert_timer, modify, alerts_fresh in *. state_simpl.
  rewrite Forall_forall in *. intros a [_ Ha]%list_elem_of_filter. by apply Hlt.
Qed.

(** Going through a handler for the freshness of the banners: only
    [showAlert] and its timer touch them. *)
Ltac fresh_tac :=
  lazymatch goal with
  | |- keeps _ (showAlert _ _) => apply showAlert_fresh
  | |- keeps _ (showAlert_timer _) => apply showAlert_timer_fresh
  | |- keeps _ (handleManualReclassification_then _) =>
      unfold handleManualReclassification_then; fresh_tac
  | |- keeps _ (handleManualReclassification_catch _) =>
      unfold handleManualReclassification_catch; fresh_tac
  | |- keeps _ (handleManualReclassification_settled _) =>
      unfold handleManualReclassification_settled; fresh_tac
  | |- keeps _ (mbind _ _) => apply keeps_bind; [fresh_tac | intros ?; fresh_tac]
  | |- keeps _ (try_catch _ _) =>
      apply keeps_try_catch; [fresh_tac | intros ?; fresh_tac]
  | |- keeps _ (if _ then _ else _) => case_match; fresh_tac
  | |- keeps _ (match _ with _ => _ end) => case_match; fresh_tac
  | |- keeps _ _ =>
      solve [ apply (keeps_of_preserves _ alert_view);
              [apply alerts_fresh_view | frame] ]
  end.

Lemma listener_fresh ev s h : listener ev s = Some h → keeps alerts_fresh h.
Proof.
  intros Hl.
  destruct ev as [files| | |files| | |v| |v|key|i o|i o|i o|i o|i|dist|id e];
    unfold listener in Hl; repeat case_match; simplify_eq; fresh_tac.
Qed.

Lemma dispatch_fresh s ev : alerts_fresh s → alerts_fresh (dispatch s ev).
Proof.
  intros Hs. unfold dispatch.
  destruct (listener ev s) as [h|] eqn:Hl; [|done].
  apply listener_fresh in Hl.
  eapply (alerts_fresh_view (exec h _)); [done|].
  apply Hl. by destruct (consumed ev).
Qed.

Lemma run_fresh s evs : alerts_fresh s → alerts_fresh (run s evs).
Proof.
  revert s. induction evs as [|ev evs IH]; intros s Hs; [done|].
  cbn. apply IH. by apply dispatch_fresh.
Qed.

Lemma load_fresh page msg : alerts_fresh (load page msg).
Proof. constructor. Qed.

(** X9. After any sequence of events on a freshly loaded page that has a
    container, [showAlert] puts its banner above the banners already there
    and queues a timer; when that timer fires, the banner is removed and the
    other banners are exactly those that were there before. *)
Theorem banner_round_trip (page : gmap string element) (null_msg : jsstring)
    (evs : list event) (msg type : jsstring) :
  let s := run (load page null_msg) evs in
  present ".container" s = true →
  let s1 := exec (showAlert msg type) s in
  alerts s1 = banner (next_alert s) msg type :: alerts s ∧
  pending s1 = pending s ++ [AlertTimer (next_alert s)] ∧
  alerts (dispatch s1 (TimerFired (length (pending s)))) = alerts s.
Proof.
  intros s Hc s1.
  assert (Hfresh : alerts_fresh s) by apply run_fresh, load_fresh.
  assert (E : s1 = set_pending (pending s ++ [AlertTimer (next_alert s)])
                     (set_alerts (banner (next_alert s) msg type :: alerts s)
                        (set_next_alert (S (next_alert s)) s))).
  { subst s1. unfold exec. rewrite showAlert_eq. cbn [snd]. unfold alerted.
    by rewrite Hc. }
  rewrite E. state_simpl. split; [done|]. split; [done|].
  unfold dispatch, listener. state_simpl.
  rewrite list_lookup_middle by done.
  cbn [consumed current_event]. unfold exec, showAlert_timer, modify. state_simpl.
  rewrite filter_cons_False by (cbn; intros H; by apply H).
  apply filter_all.
  eapply Forall_impl; [exact Hfresh|]. cbn. lia.
Qed.

Lemma banner_round_trip_witness :
  let s := run (load Board.page (lit "null")) [FileChange [Sample.pdf]] in
  alerts (dispatch (exec (showAlert (lit "Saved") (lit "info")) s)
                   (TimerFired (length (pending s))))
  = alerts s.
Proof.
  intros s.
  refine (proj2 (proj2 (banner_round_trip Board.page (lit "null")
                          [FileChange [Sample.pdf]] (lit "Saved") (lit "info") _))).
  by_eval.
Defined.

(* ===================================================================== *)
(** ** Dragging a file over the upload area *)
(* ===================================================================== *)

Lemma remove_added_class c e : c ∉ classes e → remove_class c (add_class c e) = e.
Proof.
  intros Hc. unfold add_class, remove_class.
  rewrite bool_decide_eq_false_2 by done. destruct e as [d w i v dis cs st]. cbn in *.
  unfold set_classes. cbn. f_equal.
  rewrite filter_app, filter_cons_False, filter_nil, app_nil_r by (intros H; by apply H).
  apply filter_all. rewrite Forall_forall. intros x Hx ->. done.
Qed.

Lemma upload_wired_on_document g s :
  (∀ id, has id (g (document s)) = has id (document s)) →
  upload_wired (set_window_event None (on_document g s)) = upload_wired s.
Proof. intros Hg. unfold upload_wired, present. state_simpl. by rewrite !Hg. Qed.

(** X10. On a page whose upload controls are wired, dragging a file over the
    upload area adds the class 'drag-over' after the classes the area has;
    further dragover events change nothing; and leaving the area, or dropping
    nothing, gives the document back as it was, without a request. *)
Theorem drag_over_round_trip (s : state) (a : element) :
  upload_wired s = true →
  document s !! "uploadArea" = Some a →
  lit "drag-over" ∉ classes a →
  let s1 := dispatch s DragOver in
  classes_of "uploadArea" s1 = Some (classes a ++ [lit "drag-over"]) ∧
  document (dispatch s1 DragOver) = document s1 ∧
  document (dispatch s1 DragLeave) = document s ∧
  document (dispatch s1 (Drop [])) = document s ∧
  network (dispatch s1 (Drop [])) = network s.
Proof.
  intros Hw Ha Hc s1.
  assert (Hup : present "uploadArea" s = true).
  { unfold upload_wired in Hw. by destruct (present "uploadArea" s). }
  assert (E1 : s1 = set_window_event None
                      (on_document (alter (add_class (lit "drag-over")) "uploadArea") s)).
  { subst s1. unfold dispatch, listener. rewrite Hw. cbn [consumed current_event].
    unfold exec, handleDragOver, uploadArea. rewrite bind_getElementById.
    unfold ref. state_simpl. unfold present in Hup. unfold present. state_simpl.
    rewrite Hup. unfold assign, modify. cbn [snd]. by destruct s. }
  assert (Hw1 : upload_wired s1 = true).
  { rewrite E1, upload_wired_on_document; [done|]. intros. apply has_alter. }
  assert (Hup1 : has "uploadArea" (document s1) = true).
  { rewrite E1. state_simpl. by rewrite has_alter. }
  assert (Hdoc1 : document s1 = alter (add_class (lit "drag-over")) "uploadArea" (document s)).
  { by rewrite E1. }
  split; [|split; [|split; [|split]]].
  - unfold classes_of. rewrite Hdoc1, lookup_alter_eq, Ha. cbn.
    unfold add_class. by rewrite bool_decide_eq_false_2.
  - unfold dispatch, listener. rewrite Hw1. cbn [consumed current_event].
    unfold exec, handleDragOver, uploadArea. rewrite bind_getElementById.
    unfold ref, present. state_simpl. rewrite Hup1.
    unfold assign, modify. cbn [snd]. state_simpl.
    apply alter_id. intros e He. rewrite Hdoc1, lookup_alter_eq, Ha in He.
    cbn in He. simplify_eq. unfold add_class at 1.
    rewrite bool_decide_eq_true_2; [done|].
    unfold add_class. rewrite bool_decide_eq_false_2 by done. cbn.
    apply elem_of_app. right. constructor.
  - unfold dispatch, listener. rewrite Hw1. cbn [consumed current_event].
    unfold exec, handleDragLeave, uploadArea. rewrite bind_getElementById.
    unfold ref, present. state_simpl. rewrite Hup1.
    unfold assign, modify. cbn [snd]. state_simpl.
    rewrite Hdoc1, alter_alter_eq. apply alter_id. intros e He.
    rewrite Ha in He. simplify_eq. cbn. by apply remove_added_class.
  - unfold dispatch, listener. rewrite Hw1. cbn [consumed current_event].
    unfold exec, handleDrop, uploadArea. rewrite bind_getElementById.
    unfold ref, present. state_simpl. rewrite Hup1.
    rewrite bind_assign_Some. unfold mret, js_ret, js_ret_def. cbn [snd]. state_simpl.
    rewrite Hdoc1, alter_alter_eq. apply alter_id. intros e He.
    rewrite Ha in He. simplify_eq. cbn. by apply remove_added_class.
  - unfold dispatch, listener. rewrite Hw1. cbn [consumed current_event].
    unfold exec, handleDrop, uploadArea. rewrite bind_getElementById.
    unfold ref, present. state_simpl. rewrite Hup1.
    rewrite bind_assign_Some. unfold mret, js_ret, js_ret_def. cbn [snd]. state_simpl.
    by rewrite E1.
Qed.

Lemma drag_over_round_trip_witness :
  classes_of "uploadArea" (dispatch Sample.start DragOver) = Some [lit "drag-over"] ∧
  document (dispatch (dispatch Sample.start DragOver) DragLeave) = document Sample.start.
Proof.
  pose proof (drag_over_round_trip Sample.start (Sample.el []) eq_refl eq_refl
                (not_elem_of_nil _)) as H.
  cbn zeta in H. destruct H as (H1 & _ & H2 & _).
  split; [exact H1 | exact H2].
Defined.

(* ===================================================================== *)
(** ** The requests the page issues *)
(* ===================================================================== *)

Lemma sends_of_preserves {A} (c : js A) : preserves network c → sends c.
Proof. intros Hp s. left. apply Hp. Qed.

Lemma sends_bind_l {A B} (c : js A) (k : A → js B) :
  preserves network c → (∀ a, sends (k a)) → sends (c ≫= k).
Proof.
  intros Hc Hk s. specialize (Hc s).
  unfold exec, mbind, js_bind, js_bind_def in *.
  destruct (c s) as [[a|e] s1]; cbn in *; [|by left].
  rewrite <- Hc. apply Hk.
Qed.

Lemma sends_bind_r {A B} (c : js A) (k : A → js B) :
  sends c → (∀ a, preserves network (k a)) → sends (c ≫= k).
Proof.
  intros Hc Hk s. specialize (Hc s).
  unfold exec, mbind, js_bind, js_bind_def in *.
  destruct (c s) as [[a|e] s1]; cbn in *; [|done].
  specialize (Hk a s1). unfold exec in Hk. by rewrite Hk.
Qed.

Lemma sends_try_catch {A} (c : js A) (h : js_error → js A) :
  sends c → (∀ e, preserves network (h e)) → sends (try_catch c h).
Proof.
  intros Hc Hh s. specialize (Hc s).
  unfold exec, try_catch in *.
  destruct (c s) as [[a|e] s1]; cbn in *; [done|].
  specialize (Hh e s1). unfold exec in Hh. by rewrite Hh.
Qed.

Lemma sends_fetch r t : workflow_request r → sends (fetch r t).
Proof. intros Hr s. right. by exists r. Qed.

Lemma processDocument_sends id : sends (processDocument id).
Proof.
  unfold processDocument.
  destruct (truthy_opt id) eqn:Hid; cbn [negb];
    [|apply sends_of_preserves; frame].
  apply sends_bind_l; [frame|intros ev].
  apply sends_bind_l; [frame|intros _].
  apply sends_bind_l; [frame|intros _].
  apply sends_fetch. right. left. exists (default [] id). split; [|done].
  by destruct id as [[|]|].
Qed.

Lemma handleFile_sends f : sends (handleFile f).
Proof.
  unfold handleFile. repeat case_match; try solve [apply sends_of_preserves; frame].
  unfold uploadFile.
  apply sends_bind_l; [frame|intros _].
  apply sends_bind_l; [frame|intros p].
  apply sends_bind_l; [frame|intros _].
  apply sends_bind_l; [frame|intros _].
  apply sends_fetch. left. by exists f.
Qed.

Lemma handleManualReclassification_sends : sends handleManualReclassification.
Proof.
  unfold handleManualReclassification.
  apply sends_bind_l; [frame|intros m].
  apply sends_bind_l; [frame|intros newType].
  apply sends_bind_l; [frame|intros cur].
  destruct (truthy newType) eqn:Hn, (truthy_opt cur) eqn:Hc; cbn [negb orb];
    try solve [apply sends_of_preserves; frame].
  apply sends_fetch. right. right. left.
  exists (default [] cur), newType. split; [|split; [|done]].
  - by destruct cur as [[|]|].
  - by destruct newType.
Qed.

Lemma chat_keypress_sends key : sends (chat_keypress key).
Proof.
  unfold chat_keypress. case_match; [|apply sends_of_preserves; frame].
  apply sends_bind_l; [frame|intros this].
  apply sends_bind_l; [frame|intros v].
  destruct (truthy (trim v)) eqn:Hv; [|apply sends_of_preserves; frame].
  apply sends_bind_l; [frame|intros [div|]]; [|apply sends_of_preserves; frame].
  apply sends_bind_l; [frame|intros _].
  apply sends_bind_l; [frame|intros _].
  apply sends_fetch. right. right. right. exists v. split; [|done].
  by destruct (trim v).
Qed.

Lemma uploadFile_settled_sends o : sends (uploadFile_settled o).
Proof.
  unfold uploadFile_settled. destruct o as [e|data]; [apply sends_of_preserves; frame|].
  apply sends_try_catch; [|intros e; frame].
  unfold uploadFile_then. destruct data as [d|]; [|apply sends_of_preserves; frame].
  destruct (up_success d); [|apply sends_of_preserves; frame].
  apply sends_bind_l; [frame|intros _].
  apply sends_bind_l; [frame|intros _].
  apply sends_bind_l; [frame|intros id].
  apply processDocument_sends.
Qed.

Lemma listener_sends ev s h : listener ev s = Some h → sends h.
Proof.
  intros Hl.
  destruct ev as [files| | |files| | |v| |v|key|i o|i o|i o|i o|i|dist|id e];
    unfold listener in Hl; repeat case_match; simplify_eq;
    first
      [ apply uploadFile_settled_sends
      | apply processDocument_sends
      | apply handleManualReclassification_sends
      | apply chat_keypress_sends
      | apply handleFile_sends
      | solve [ apply sends_of_preserves; frame ]
      | idtac ].
  - (* a selection *)
    destruct files as [|f rest]; [apply sends_of_preserves; frame|].
    apply handleFile_sends.
  - (* a drop *)
    unfold handleDrop.
    apply sends_bind_l; [frame|intros a].
    apply sends_bind_l; [frame|intros _].
    destruct files as [|f rest]; [apply sends_of_preserves; frame|].
    apply handleFile_sends.
Qed.

(** X11. Whatever happens to the page, one turn of the event loop issues at
    most one request, and it is one of four: the upload of a file to
    /upload, POST /process/<id> with a non-empty id, POST /reclassify/<id>
    with a non-empty id and a non-empty new type, or POST /api/chatbot with a
    trimmed, non-empty message.  Requests issued earlier are never removed
    from the log. *)
Theorem one_workflow_request_per_event (s : state) (ev : event) :
  network (dispatch s ev) = network s ∨
  ∃ r, workflow_request r ∧ network (dispatch s ev) = r :: network s.
Proof.
  unfold dispatch. destruct (listener ev s) as [h|] eqn:Hl; [|by left].
  apply listener_sends in Hl. state_simpl.
  specialize (Hl (set_window_event (current_event ev)
                    match consumed ev with
                    | Some i => set_pending (delete i (pending s)) s
                    | None => s
                    end)).
  replace (network (set_window_event _ _)) with (network s) in Hl
    by by destruct (consumed ev).
  done.
Qed.

(* ===================================================================== *)
(** ** The statistics cards *)
(* ===================================================================== *)

Lemma updateStatsCards_eq st s :
  updateStatsCards (Some st) s = (Normal tt, on_document (stats_rendered st) s).
Proof.
  unfold updateStatsCards, stats_cards, forEach, stats_rendered.
  repeat js_step. done.
Qed.

Lemma count_text_zero v :
  (∀ x, v = Some x → truthy_number x = false) → count_text v = Text (lit "0").
Proof.
  intros Hv. unfold count_text, or_zero. destruct v as [x|]; [|by_eval].
  rewrite (Hv x eq_refl). by_eval.
Qed.

Lemma stats_rendered_reads st d id v e :
  (id, v) ∈ stats_cards st → d !! id = Some e →
  inner <$> stats_rendered st d !! id = Some (count_text v).
Proof.
  unfold stats_cards, stats_rendered. rewrite !elem_of_cons, elem_of_nil.
  intros [[= -> ->]|[[= -> ->]|[[= -> ->]|[[= -> ->]|[]]]]] He;
    lookup_simpl; by rewrite He.
Qed.

Lemma stats_rendered_others st d id :
  id ∉ card_ids → stats_rendered st d !! id = d !! id.
Proof.
  unfold card_ids, stats_rendered. rewrite !not_elem_of_cons.
  intros (? & ? & ? & ? & _). by rewrite !lookup_alter_ne.
Qed.

(** X12. [updateStatsCards] writes each of the four counts to its card when
    the page has the card, and skips the cards it lacks without failing; a
    count that is missing, null, zero or NaN is shown as 0; no other element
    changes and no request is issued.  Called on null it throws a TypeError
    before it touches the page. *)
Theorem stats_cards_rendered (s : state) (st : stats_response) :
  let s' := exec (updateStatsCards (Some st)) s in
  updateStatsCards (Some st) s = (Normal tt, s') ∧
  (∀ id v e, (id, v) ∈ stats_cards st → document s !! id = Some e →
     inner_of id s' = Some (count_text v)) ∧
  (∀ v, (∀ x, v = Some x → truthy_number x = false) → count_text v = Text (lit "0")) ∧
  (∀ id, id ∉ card_ids → document s' !! id = document s !! id) ∧
  (∀ id, present id s' = present id s) ∧
  network s' = network s ∧
  updateStatsCards None s = (Abrupt (TypeError (null_message s)), s).
Proof.
  intros s'. subst s'. unfold exec. rewrite updateStatsCards_eq. cbn [snd].
  split; [done|]. split; [|split; [|split; [|split; [|split]]]].
  - intros id v e Hin He. unfold inner_of. state_simpl.
    by apply (stats_rendered_reads st _ id v e).
  - apply count_text_zero.
  - intros id Hid. state_simpl. by apply stats_rendered_others.
  - intros id. unfold present, stats_rendered. state_simpl. by rewrite !has_alter.
  - done.
  - done.
Qed.

(* ===================================================================== *)
(** ** The dashboard statistics *)
(* ===================================================================== *)

Lemma loadDashboardStats_then_eq d s :
  present "totalDocs" s = true → present "completedDocs" s = true →
  present "processingDocs" s = true → present "errorDocs" s = true →
  loadDashboardStats_then (Some d) s = (Normal tt, on_document (stats_rendered d) s).
Proof.
  unfold present. intros H1 H2 H3 H4.
  unfold loadDashboardStats_then, stats_cards, forEach, stats_rendered.
  repeat js_step. done.
Qed.

(** X13. When the dashboard statistics arrive on a page that has the four
    cards, each card shows its count, or 0 for a count that is missing or
    zero; no banner is raised and nothing is queued. *)
Theorem dashboard_stats_loaded (s : state) (d : stats_response) :
  present "totalDocs" s = true → present "completedDocs" s = true →
  present "processingDocs" s = true → present "errorDocs" s = true →
  let s' := exec (loadDashboardStats_settled (Fulfilled (Some d))) s in
  (∀ id v, (id, v) ∈ stats_cards d → inner_of id s' = Some (count_text v)) ∧
  alerts s' = alerts s ∧
  pending s' = pending s ∧
  network s' = network s.
Proof.
  intros H1 H2 H3 H4 s'. subst s'.
  unfold exec, loadDashboardStats_settled, try_catch.
  rewrite loadDashboardStats_then_eq by done. cbn [snd].
  split; [|done]. intros id v Hin. unfold inner_of. state_simpl.
  assert (is_Some (document s !! id)) as [e He].
  { apply has_true. revert Hin. unfold stats_cards, present in *.
    rewrite !elem_of_cons, elem_of_nil.
    by intros [[= -> ->]|[[= -> ->]|[[= -> ->]|[[= -> ->]|[]]]]]. }
  by apply (stats_rendered_reads d _ id v e).
Qed.

Lemma dashboard_stats_loaded_witness :
  inner_of "totalDocs"
    (exec (loadDashboardStats_settled (Fulfilled (Some Board.stats))) Board.dashboard)
  = Some (Text (lit "4")) ∧
  inner_of "processingDocs"
    (exec (loadDashboardStats_settled (Fulfilled (Some Board.stats))) Board.dashboard)
  = Some (Text (lit "0")).
Proof.
  pose proof (dashboard_stats_loaded Board.dashboard Board.stats
                eq_refl eq_refl eq_refl eq_refl) as [H _].
  split.
  - rewrite (H "totalDocs" (Some 4%float)) by (vm_compute; repeat constructor).
    by_eval.
  - rewrite (H "processingDocs" None) by (vm_compute; repeat constructor).
    by_eval.
Defined.

(** X14. [loadDashboardStats] writes to the four cards without looking
    whether they exist: on a page that lacks one of them the statistics end in
    a danger banner 'Failed to load dashboard stats: ' with the engine's
    TypeError text, although the request succeeded; the cards before the
    missing one have been written, and the last card is left as it was. *)
Theorem dashboard_stats_missing_card (s : state) (d : stats_response) (id : string) :
  id ∈ card_ids → present id s = false →
  let s' := exec (loadDashboardStats_settled (Fulfilled (Some d))) s in
  alerts s'
  = (if present ".container" s
     then banner (next_alert s)
            (lit "Failed to load dashboard stats: " ++ null_message s) (lit "danger")
          :: alerts s
     else alerts s) ∧
  inner_of "errorDocs" s' = inner_of "errorDocs" s ∧
  (present "totalDocs" s = true →
     inner_of "totalDocs" s' = Some (count_text (total_documents d))).
Proof.
  intros Hid Hmiss s'. subst s'.
  unfold exec, loadDashboardStats_settled, try_catch, loadDashboardStats_then,
    loadDashboardStats_catch, stats_cards, forEach.
  unfold card_ids in Hid. rewrite !elem_of_cons, elem_of_nil in Hid.
  unfold present in *.
  destruct (has "totalDocs" (document s)) eqn:H1.
  2:{ repeat js_step.
      rewrite showAlert_eq. cbn [snd message]. unfold alerted, present.
      destruct (has ".container" (document s)); done. }
  destruct (has "completedDocs" (document s)) eqn:H2.
  2:{ repeat js_step.
      rewrite showAlert_eq. cbn [snd message]. unfold alerted, present, inner_of.
      state_simpl. rewrite has_alter.
      apply has_true in H1 as [e He].
      destruct (has ".container" (document s)); state_simpl;
        lookup_simpl; rewrite He; done. }
  destruct (has "processingDocs" (document s)) eqn:H3.
  2:{ repeat js_step.
      rewrite showAlert_eq. cbn [snd message]. unfold alerted, present, inner_of.
      state_simpl. rewrite !has_alter.
      apply has_true in H1 as [e He].
      destruct (has ".container" (document s)); state_simpl;
        lookup_simpl; rewrite He; done. }
  destruct (has "errorDocs" (document s)) eqn:H4.
  2:{ repeat js_step.
      rewrite showAlert_eq. cbn [snd message]. unfold alerted, present, inner_of.
      state_simpl. rewrite !has_alter.
      apply has_true in H1 as [e He].
      destruct (has ".container" (document s)); state_simpl;
        lookup_simpl; rewrite He; done. }
  destruct Hid as [->|[->|[->|[->|[]]]]]; congruence.
Qed.

Lemma dashboard_stats_missing_card_witness :
  alerts (exec (loadDashboardStats_settled (Fulfilled (Some Board.stats)))
               Board.dashboard_without_card)
  = [banner 0 (lit "Failed to load dashboard stats: null") (lit "danger")].
Proof.
  refine (proj1 (dashboard_stats_missing_card Board.dashboard_without_card Board.stats
                   "completedDocs" _ eq_refl)).
  unfold card_ids. repeat constructor.
Defined.

(* ===================================================================== *)
(** ** The routing summary *)
(* ===================================================================== *)

Lemma routing_row_nonempty type dept count : routing_row type dept count ≠ [].
Proof. unfold routing_row, nl. done. Qed.

Lemma routing_rows_truthy inherited dist :
  truthy (routing_rows inherited dist) = negb (bool_decide (dist = [])).
Proof.
  destruct dist as [|[type count] dist]; [done|].
  unfold routing_rows. rewrite fmap_cons. cbn [concat].
  pose proof (routing_row_nonempty type (department_for inherited type) count).
  by destruct (routing_row type (department_for inherited type) count).
Qed.

(** The markup [updateRoutingSummary] writes. *)
Lemma updateRoutingSummary_eq inherited dist s :
  present "routingSummary" s = true →
  updateRoutingSummary inherited (Some dist) s
  = (Normal tt,
     on_document
       (alter (set_inner (Html (if bool_decide (dist = []) then no_documents_html
                                else routing_rows inherited dist)))
              "routingSummary") s).
Proof.
  intros Hp. unfold updateRoutingSummary. rewrite bind_getElementById.
  unfold ref. rewrite Hp. rewrite routing_rows_truthy.
  by destruct (bool_decide (dist = [])).
Qed.

(** X15. On a page that has the routing summary, [updateRoutingSummary]
    replaces its content: by the paragraph 'No documents processed yet' exactly
    when the distribution has no entry, and otherwise by one row per document
    type, in the order of the distribution, each with the type, its
    department and its count.  Nothing else on the page changes.  On a page
    without the summary the function returns without looking at the
    distribution, even an undefined one; with the summary and an undefined
    distribution it throws a TypeError. *)
Theorem routing_summary_rendered (inherited : jsstring → option jsstring)
    (s : state) (e : element) :
  document s !! "routingSummary" = Some e →
  (∀ dist,
     let s' := exec (updateRoutingSummary inherited (Some dist)) s in
     document s'
     = <["routingSummary" :=
           set_inner (Html (match dist with
                            | [] => no_documents_html
                            | _ => concat ((λ row, routing_row row.1
                                                     (department_for inherited row.1)
                                                     row.2) <$> dist)
                            end)) e]> (document s) ∧
     network s' = network s ∧ alerts s' = alerts s) ∧
  updateRoutingSummary inherited None s = (Abrupt (TypeError (null_message s)), s) ∧
  (∀ dist, updateRoutingSummary inherited dist
             (on_document (delete "routingSummary") s)
           = (Normal tt, on_document (delete "routingSummary") s)).
Proof.
  intros He.
  assert (Hp : present "routingSummary" s = true).
  { unfold present. apply has_true. by eexists. }
  split; [|split].
  - intros dist s'. subst s'. unfold exec.
    rewrite updateRoutingSummary_eq by done. cbn [snd]. state_simpl.
    split; [|done].
    rewrite <- (insert_id (document s) _ _ He) at 1.
    rewrite alter_insert_eq. f_equal. f_equal. f_equal.
    destruct dist as [|[type count] dist]; [done|].
    rewrite bool_decide_eq_false_2 by done. unfold routing_rows. f_equal.
    apply list_fmap_ext. by intros _ [??] _.
  - unfold updateRoutingSummary. rewrite bind_getElementById. unfold ref.
    by rewrite Hp.
  - intros dist. unfold updateRoutingSummary. rewrite bind_getElementById.
    unfold ref, present, has. state_simpl. by rewrite lookup_delete_eq.
Qed.

Lemma routing_summary_rendered_witness :
  inner_of "routingSummary"
    (exec (updateRoutingSummary (λ _, None) (Some [])) Board.dashboard)
  = Some (Html no_documents_html).
Proof.
  pose proof (routing_summary_rendered (λ _, None) Board.dashboard
                (Element [] [] (Html []) [] false [] None) eq_refl) as [H _].
  destruct (H []) as [Hdoc _]. unfold inner_of. rewrite Hdoc.
  by rewrite lookup_insert_eq.
Defined.

(** X16. The department of a document type: each of the five types of the
    routing table gets its own department whatever Object.prototype holds
    (Invoice Accounting, Resume Human Resources, Contract Legal, Bank
    Statement Finance, Other General Office); a type that is neither in the
    table nor the name of an inherited property gets 'General Office'; and a
    type that names a truthy inherited property (such as constructor) gets
    that property's text instead of a department. *)
Theorem department_of_type (inherited : jsstring → option jsstring) :
  (∀ type dept, (type, dept) ∈ routingMap → department_for inherited type = dept) ∧
  (∀ type, type ∉ routingMap.*1 → inherited type = None →
     department_for inherited type = lit "General Office") ∧
  (∀ type text, type ∉ routingMap.*1 → inherited type = Some text →
     department_for inherited type = text).
Proof.
  split; [|split].
  - intros type dept. unfold routingMap. rewrite !elem_of_cons, elem_of_nil.
    intros [[= -> ->]|[[= -> ->]|[[= -> ->]|[[= -> ->]|[[= -> ->]|[]]]]]]; by_eval.
  - intros type Hout Hinh. unfold department_for.
    assert (own_property type routingMap = None) as ->; [|by rewrite Hinh].
    revert Hout. unfold routingMap. cbn [fmap list_fmap fst own_property].
    rewrite !not_elem_of_cons. intros (? & ? & ? & ? & ? & _).
    by rewrite !bool_decide_eq_false_2 by done.
  - intros type text Hout Hinh. unfold department_for.
    assert (own_property type routingMap = None) as ->; [|by rewrite Hinh].
    revert Hout. unfold routingMap. cbn [fmap list_fmap fst own_property].
    rewrite !not_elem_of_cons. intros (? & ? & ? & ? & ? & _).
    by rewrite !bool_decide_eq_false_2 by done.
Qed.

(* ===================================================================== *)
(** ** Analytics *)
(* ===================================================================== *)

Lemma updateStatsCards_outcome data : preserves outcome_view (updateStatsCards data).
Proof. intros s. unfold exec. destruct data; [by rewrite updateStatsCards_eq | done]. Qed.

Lemma updateTypeChart_outcome dist : preserves outcome_view (updateTypeChart dist).
Proof. frame. Qed.

Lemma updateRoutingSummary_outcome inherited dist :
  preserves outcome_view (updateRoutingSummary inherited dist).
Proof. unfold updateRoutingSummary. frame. Qed.

Lemma loadAnalytics_settled_outcome inherited r :
  preserves outcome_view (loadAnalytics_settled inherited r).
Proof.
  unfold loadAnalytics_settled, loadAnalytics_catch, loadAnalytics_then.
  destruct r as [e|ok status [e|data]]; try done; destruct ok; try done. cbn [negb].
  apply preserves_try_catch; [|done].
  apply preserves_bind; [apply updateStatsCards_outcome|intros _].
  destruct data as [d|]; [|done].
  apply preserves_bind; [apply updateTypeChart_outcome|intros _].
  apply updateRoutingSummary_outcome.
Qed.

(** X17. The analytics chain keeps every failure to itself.  When the request
    is rejected, when the response is not ok (whatever its body), when the
    body is not JSON or is null, the page is left exactly as it was; and
    whatever the answer, no banner is raised, no request is issued, nothing is
    queued and the stored reference is kept. *)
Theorem analytics_failures_silent (inherited : jsstring → option jsstring) (s : state) :
  (∀ e, exec (loadAnalytics_settled inherited (NoResponse e)) s = s) ∧
  (∀ status body,
     exec (loadAnalytics_settled inherited (HttpResponse false status body)) s = s) ∧
  (∀ status e,
     exec (loadAnalytics_settled inherited (HttpResponse true status (Rejected e))) s
     = s) ∧
  (∀ status,
     exec (loadAnalytics_settled inherited (HttpResponse true status (Fulfilled None))) s
     = s) ∧
  (∀ r, let s' := exec (loadAnalytics_settled inherited r) s in
        alerts s' = alerts s ∧ network s' = network s ∧ pending s' = pending s ∧
        currentDocumentId s' = currentDocumentId s).
Proof.
  split; [done|]. split; [done|]. split; [done|]. split; [done|].
  intros r s'. subst s'.
  pose proof (loadAnalytics_settled_outcome inherited r s) as H.
  unfold outcome_view in H. by simplify_eq.
Qed.

Lemma loadAnalytics_then_eq inherited d dist s :
  type_distribution d = Some dist →
  present "typeChart" s = true → present "routingSummary" s = true →
  loadAnalytics_then inherited (Some d) s
  = (Normal tt,
     on_document (alter (set_inner (Html (routing_summary_html inherited dist)))
                        "routingSummary")
       (rebuilt dist (on_document (stats_rendered d) s))).
Proof.
  intros Hd Hc Hr. unfold loadAnalytics_then.
  rewrite (bind_normal _ _ _ _ _ (updateStatsCards_eq _ _)). rewrite Hd.
  assert (Hc1 : present "typeChart" (on_document (stats_rendered d) s) = true).
  { unfold present, stats_rendered in *. state_simpl. by rewrite !has_alter. }
  rewrite (bind_normal _ _ _ _ _ (updateTypeChart_eq _ _ Hc1)).
  rewrite updateRoutingSummary_eq; [done|].
  unfold present, rebuilt, stats_rendered in *. state_simpl. by rewrite !has_alter.
Qed.

(** X18. When the statistics arrive with a type distribution on a dashboard
    that has the canvas and the routing summary, the three views are
    refreshed together: each card the page has shows its count, exactly one
    chart is live on the canvas and it is the doughnut of the new
    distribution, and the routing summary shows the rows of the same
    distribution. *)
Theorem analytics_rendered (inherited : jsstring → option jsstring) (s : state)
    (status : N) (d : stats_response) (dist : list (jsstring * float)) :
  type_distribution d = Some dist →
  present "typeChart" s = true → present "routingSummary" s = true →
  chart_inv s →
  let s' := exec (loadAnalytics_settled inherited
                    (HttpResponse true status (Fulfilled (Some d)))) s in
  (∀ id v e, (id, v) ∈ stats_cards d → document s !! id = Some e →
     inner_of id s' = Some (count_text v)) ∧
  charts s' = [type_chart (next_chart s) dist] ∧
  typeChart s' = Some (next_chart s) ∧
  inner_of "routingSummary" s' = Some (Html (routing_summary_html inherited dist)).
Proof.
  intros Hd Hc Hr Hinv s'. subst s'.
  unfold exec, loadAnalytics_settled, try_catch. cbn [negb].
  rewrite (loadAnalytics_then_eq inherited d dist s) by done. cbn [snd].
  split; [|split; [|split]].
  - intros id v e Hin He. unfold inner_of, rebuilt. state_simpl.
    assert (id ≠ "routingSummary").
    { intros ->. revert Hin. unfold stats_cards. rewrite !elem_of_cons, elem_of_nil.
      by intros [|[|[|[|[]]]]]. }
    rewrite lookup_alter_ne by done.
    by apply (stats_rendered_reads d _ id v e).
  - state_simpl. unfold rebuilt. state_simpl.
    rewrite without_current_inv; [done|].
    by apply (chart_inv_view s).
  - done.
  - unfold inner_of, rebuilt. state_simpl. rewrite lookup_alter_eq.
    apply has_true in Hr as [e He]. unfold stats_rendered.
    rewrite !lookup_alter_ne by done. by rewrite He.
Qed.

Lemma analytics_rendered_witness :
  charts (exec (loadAnalytics_settled (λ _, None)
                  (HttpResponse true 200 (Fulfilled (Some Board.stats))))
               Board.dashboard)
  = [type_chart 0 Sample.distribution].
Proof.
  refine (proj1 (proj2 (analytics_rendered (λ _, None) Board.dashboard 200 Board.stats
                          Sample.distribution eq_refl eq_refl eq_refl _))).
  apply load_chart_inv.
Defined.

(** X19. Statistics that arrive without a type distribution, on a dashboard
    that has the canvas, update the cards and then stop: the chart, the
    global that refers to it and the routing summary are left as they were,
    and the TypeError this raises is not reported. *)
Theorem analytics_without_distribution (inherited : jsstring → option jsstring)
    (s : state) (status : N) (d : stats_response) :
  type_distribution d = None →
  present "typeChart" s = true →
  let s' := exec (loadAnalytics_settled inherited
                    (HttpResponse true status (Fulfilled (Some d)))) s in
  s' = on_document (stats_rendered d) s ∧
  chart_view s' = chart_view s ∧
  inner_of "routingSummary" s' = inner_of "routingSummary" s ∧
  alerts s' = alerts s.
Proof.
  intros Hd Hc s'.
  assert (E : s' = on_document (stats_rendered d) s).
  { subst s'. unfold exec, loadAnalytics_settled, try_catch, loadAnalytics_then.
    cbn [negb].
    rewrite (bind_normal _ _ _ _ _ (updateStatsCards_eq _ _)). rewrite Hd.
    assert (Hc1 : present "typeChart" (on_document (stats_rendered d) s) = true).
    { unfold present, stats_rendered in *. state_simpl. by rewrite !has_alter. }
    by rewrite (bind_abrupt _ _ _ _ _ (updateTypeChart_no_distribution _ Hc1)). }
  rewrite E. split; [done|]. split; [done|]. split; [|done].
  unfold inner_of, stats_rendered. state_simpl. by rewrite !lookup_alter_ne.
Qed.

Lemma analytics_without_distribution_witness :
  charts (exec (loadAnalytics_settled (λ _, None)
                  (HttpResponse true 200
                     (Fulfilled (Some (StatsResponse (Some 1%float) None None None None)))))
               Board.dashboard)
  = [].
Proof.
  pose proof (analytics_without_distribution (λ _, None) Board.dashboard 200
                (StatsResponse (Some 1%float) None None None None) eq_refl eq_refl)
    as (_ & H & _).
  cbn zeta in H. unfold chart_view in H. by simplify_eq.
Defined.

(** X20. The analytics chain keeps the type chart single: if no chart is live
    besides the one the global refers to, this still holds after the chain
    has run, whatever the server answered. *)
Theorem analytics_keeps_one_chart (inherited : jsstring → option jsstring)
    (r : http_result stats_response) (s : state) :
  chart_inv s → chart_inv (exec (loadAnalytics_settled inherited r) s).
Proof.
  intros Hinv. unfold loadAnalytics_settled, loadAnalytics_catch.
  destruct r as [e|ok status [e|data]]; try done; destruct ok; try done. cbn [negb].
  unfold exec, try_catch, loadAnalytics_then.
  destruct data as [d|]; [|done].
  rewrite (bind_normal _ _ _ _ _ (updateStatsCards_eq _ _)).
  assert (Hinv1 : chart_inv (on_document (stats_rendered d) s)).
  { by apply (chart_inv_view s). }
  pose proof (updateTypeChart_inv (type_distribution d) _ Hinv1) as Hinv2.
  unfold exec in Hinv2. unfold mbind, js_bind, js_bind_def.
  destruct (updateTypeChart (type_distribution d) (on_document (stats_rendered d) s))
    as [[[]|e] s2]; cbn [snd] in *; [|done].
  assert (Hview : chart_view (exec (updateRoutingSummary inherited (type_distribution d)) s2)
                  = chart_view s2).
  { assert (preserves chart_view (updateRoutingSummary inherited (type_distribution d)))
      as Hp by (unfold updateRoutingSummary; frame).
    apply Hp. }
  unfold exec in Hview.
  destruct (updateRoutingSummary inherited (type_distribution d) s2) as [[[]|e] s3];
    cbn [snd] in *; by apply (chart_inv_view s2).
Qed.

Lemma analytics_keeps_one_chart_witness :
  chart_inv (exec (loadAnalytics_settled (λ _, None)
                     (HttpResponse true 200 (Fulfilled (Some Board.stats))))
                  Board.dashboard).
Proof.
  apply (analytics_keeps_one_chart (λ _, None)
           (HttpResponse true 200 (Fulfilled (Some Board.stats))) Board.dashboard).
  apply load_chart_inv.
Defined.

(* ===================================================================== *)
(** ** The pipeline demo *)
(* ===================================================================== *)

Lemma alter_inner_same id e c (d : gmap string element) :
  d !! id = Some e → inner e = c → alter (set_inner c) id d = d.
Proof.
  intros He Hc. apply alter_id. intros e' He'.
  rewrite He in He'. injection He' as <-.
  destruct e. cbn in *. by subst.
Qed.

Lemma alter_inner_twice c1 c2 id (d : gmap string element) :
  alter (set_inner c2) id (alter (set_inner c1) id d) = alter (set_inner c2) id d.
Proof. rewrite alter_alter_eq. apply alter_ext. by intros [] _. Qed.

Lemma appendChild_eq id tag cls h e s :
  document s !! id = Some e →
  appendChild (Some id) tag cls h s
  = (Normal tt, on_document (alter (set_inner (Child (inner e) tag cls h)) id) s).
Proof.
  intros He. unfold appendChild, read, mbind, js_bind, js_bind_def. by rewrite He.
Qed.

(** The loop over the stages appends one list item per stage. *)
Lemma forEach_from_stages id (stages : list jsstring) :
  ∀ i e s, document s !! id = Some e →
  forEach_from i stages
    (λ index stage, appendChild (Some id) "li" stage_class (stage_html index stage)) s
  = (Normal tt,
     on_document
       (alter (set_inner (appended (inner e) "li" stage_class
                            (imap (λ j, stage_html (i + j)) stages))) id) s).
Proof.
  induction stages as [|x l IH]; intros i e s He.
  - cbn. unfold on_document. rewrite (alter_inner_same id e (inner e)) by done.
    by destruct s.
  - cbn [forEach_from].
    rewrite (bind_normal _ _ _ _ _ (appendChild_eq id _ _ _ e s He)).
    rewrite (IH (S i) (set_inner (Child (inner e) "li" stage_class (stage_html i x)) e)).
    + unfold on_document. state_simpl. rewrite alter_inner_twice.
      cbn [imap appended foldl inner set_inner]. rewrite Nat.add_0_r.
      rewrite (imap_ext (λ j, stage_html (S i + j)) ((λ j, stage_html (i + j)) ∘ S) l);
        [done|].
      intros j y _. unfold compose. by rewrite Nat.add_succ_r.
    + state_simpl. by rewrite lookup_alter_eq, He.
Qed.

(** The loop over the samples appends one card per sample, up to the first
    sample that cannot be rendered, where it throws. *)
Lemma forEach_cards id (demo : list (jsstring * option demo_result)) :
  ∀ e s, document s !! id = Some e →
  forEach demo
    (λ '(docType, result),
       match result with
       | None => throw_null
       | Some result =>
           match demo_classification result with
           | None => throw_null
           | Some classificationResult =>
               appendChild (Some id) "div" card_class
                 (card_html docType result classificationResult)
           end
       end) s
  = (if (cards_until demo).2 then Normal tt else Abrupt (TypeError (null_message s)),
     on_document
       (alter (set_inner (appended (inner e) "div" card_class (cards_until demo).1)) id)
       s).
Proof.
  induction demo as [|[docType result] demo IH]; intros e s He.
  - cbn. unfold on_document. rewrite (alter_inner_same id e (inner e)) by done.
    by destruct s.
  - cbn [forEach cards_until]. unfold card_of. cbn [fst snd].
    destruct result as [r|]; cbn [mbind option_bind].
    2:{ rewrite bind_throw_null. cbn. unfold on_document.
        rewrite (alter_inner_same id e (inner e)) by done. by destruct s. }
    destruct (demo_classification r) as [cr|]; cbn [mbind option_bind].
    2:{ rewrite bind_throw_null. cbn. unfold on_document.
        rewrite (alter_inner_same id e (inner e)) by done. by destruct s. }
    rewrite (bind_normal _ _ _ _ _ (appendChild_eq id _ _ _ e s He)).
    rewrite (IH (set_inner (Child (inner e) "div" card_class (card_html docType r cr)) e)).
    + destruct (cards_until demo) as [cards ok]. cbn [fst snd].
      unfold on_document. state_simpl. by rewrite alter_inner_twice.
    + state_simpl. by rewrite lookup_alter_eq, He.
Qed.

(** What [displayPipelineResults] does on a page that has the two containers,
    for an answer that has its stages and its samples. *)
Lemma displayPipelineResults_eq d stages demo s :
  pipeline_stages d = Some stages → pipeline_demo d = Some demo →
  present "pipelineStages" s = true → present "sampleResults" s = true →
  displayPipelineResults d s
  = (if (cards_until demo).2 then Normal tt else Abrupt (TypeError (null_message s)),
     on_document
       (alter (set_inner (appended (Html []) "div" card_class (cards_until demo).1))
              "sampleResults"
        ∘ alter (set_inner (appended (Html []) "li" stage_class (imap stage_html stages)))
                "pipelineStages") s).
Proof.
  intros Hst Hdm Hps Hsr. unfold displayPipelineResults, present in *.
  rewrite Hst, Hdm.
  pose proof Hps as [es Hes]%has_true. pose proof Hsr as [er Her]%has_true.
  js_step. js_step.
  assert (Hes1 : document (on_document (alter (set_inner (Html [])) "pipelineStages") s)
                  !! "pipelineStages" = Some (set_inner (Html []) es)).
  { state_simpl. by rewrite lookup_alter_eq, Hes. }
  rewrite (bind_normal _ _ _ _ _
             (forEach_from_stages "pipelineStages" stages 0 _ _ Hes1)).
  clear Hes1. js_step. js_step.
  rewrite (forEach_cards "sampleResults" demo (set_inner (Html []) er)).
  - state_simpl. f_equal.
    unfold on_document, compose, set_document. state_simpl. f_equal.
    cbn [inner set_inner Nat.add].
    apply map_eq. intros k.
    destruct (decide (k = "sampleResults")) as [->|Hk1];
      [|destruct (decide (k = "pipelineStages")) as [->|Hk2]];
      repeat first [ rewrite lookup_alter_eq | rewrite lookup_alter_ne by done ].
    + by rewrite Her.
    + by rewrite Hes.
    + done.
  - state_simpl. rewrite lookup_alter_eq, !lookup_alter_ne by done. by rewrite Her.
Qed.




(** An assignment of content leaves the display styles, the presence of the
    elements and everything outside the document as they are. *)
Lemma set_inner_frame c k s :
  let s1 := on_document (alter (set_inner c) k) s in
  (∀ id, display_of id s1 = display_of id s) ∧
  (∀ id, present id s1 = present id s) ∧
  outcome_view s1 = outcome_view s ∧ null_message s1 = null_message s.
Proof.
  intros s1. subst s1. split; [|split; [|done]].
  - intros id. unfold display_of. state_simpl. by apply lookup_alter_fmap.
  - intros id. unfold present. state_simpl. apply has_alter.
Qed.

(** [displayPipelineResults] returns exactly when it can render the answer
    and throws a TypeError otherwise; either way it changes at most the
    content of the two containers. *)
Lemma displayPipelineResults_outcome d s :
  ∃ s1, displayPipelineResults d s
        = (if pipeline_renders d s then Normal tt
           else Abrupt (TypeError (null_message s)), s1) ∧
        (∀ id, display_of id s1 = display_of id s) ∧
        (∀ id, present id s1 = present id s) ∧
        outcome_view s1 = outcome_view s.
Proof.
  unfold pipeline_renders.
  destruct (present "pipelineStages" s) eqn:Hps; cbn [andb].
  2:{ exists s. unfold displayPipelineResults.
      rewrite bind_getElementById. unfold ref. rewrite Hps.
      by rewrite bind_assign_None. }
  destruct (pipeline_stages d) as [stages|] eqn:Hst.
  2:{ rewrite bool_decide_eq_false_2 by by intros [? [=]]. cbn [andb].
      destruct (set_inner_frame (Html []) "pipelineStages" s) as (Hd1 & Hp1 & Ho1 & Hn1).
      eexists. unfold displayPipelineResults.
      rewrite bind_getElementById. unfold ref. rewrite Hps, Hst.
      rewrite bind_assign_Some, bind_throw_null. rewrite Hn1. done. }
  rewrite bool_decide_eq_true_2 by by eexists. cbn [andb].
  destruct (present "sampleResults" s) eqn:Hsr; cbn [andb].
  2:{ pose proof Hps as [es Hes]%has_true.
      unfold displayPipelineResults.
      rewrite bind_getElementById. unfold ref. rewrite Hps, Hst.
      rewrite bind_assign_Some.
      destruct (set_inner_frame (Html []) "pipelineStages" s) as (Hd1 & Hp1 & Ho1 & Hn1).
      assert (Hes1 : document (on_document (alter (set_inner (Html [])) "pipelineStages") s)
                      !! "pipelineStages" = Some (set_inner (Html []) es)).
      { state_simpl. by rewrite lookup_alter_eq, Hes. }
      set (s1 := on_document (alter (set_inner (Html [])) "pipelineStages") s) in *.
      rewrite (bind_normal _ _ _ _ _
                 (forEach_from_stages "pipelineStages" stages 0 _ _ Hes1)).
      match goal with
      | |- context [on_document (alter (set_inner ?c) "pipelineStages") s1] =>
          destruct (set_inner_frame c "pipelineStages" s1) as (Hd2 & Hp2 & Ho2 & Hn2);
          set (s2 := on_document (alter (set_inner c) "pipelineStages") s1) in *
      end.
      exists s2. rewrite bind_getElementById. unfold ref. rewrite Hp2, Hp1, Hsr.
      rewrite bind_assign_None, Hn2, Hn1.
      split; [done|]. split; [|split].
      - intros id. by rewrite Hd2, Hd1.
      - intros id. by rewrite Hp2, Hp1.
      - by rewrite Ho2, Ho1. }
  destruct (pipeline_demo d) as [demo|] eqn:Hdm.
  - rewrite (displayPipelineResults_eq d stages demo s Hst Hdm Hps Hsr).
    eexists. split; [done|]. unfold compose.
    match goal with
    | |- context [on_document (λ x, alter (set_inner ?c2) ?k2 (alter (set_inner ?c1) ?k1 x)) s] =>
        destruct (set_inner_frame c1 k1 s) as (Hd1 & Hp1 & Ho1 & _);
        destruct (set_inner_frame c2 k2 (on_document (alter (set_inner c1) k1) s))
          as (Hd2 & Hp2 & Ho2 & _)
    end.
    split; [|split].
    + intros id. etrans; [|apply Hd1]. etrans; [|apply Hd2]. done.
    + intros id. etrans; [|apply Hp1]. etrans; [|apply Hp2]. done.
    + done.
  - pose proof Hps as [es Hes]%has_true.
    unfold displayPipelineResults.
    rewrite bind_getElementById. unfold ref. rewrite Hps, Hst, Hdm.
    rewrite bind_assign_Some.
    destruct (set_inner_frame (Html []) "pipelineStages" s) as (Hd1 & Hp1 & Ho1 & Hn1).
    assert (Hes1 : document (on_document (alter (set_inner (Html [])) "pipelineStages") s)
                    !! "pipelineStages" = Some (set_inner (Html []) es)).
    { state_simpl. by rewrite lookup_alter_eq, Hes. }
    set (s1 := on_document (alter (set_inner (Html [])) "pipelineStages") s) in *.
    rewrite (bind_normal _ _ _ _ _
               (forEach_from_stages "pipelineStages" stages 0 _ _ Hes1)).
    match goal with
    | |- context [on_document (alter (set_inner ?c) "pipelineStages") s1] =>
        destruct (set_inner_frame c "pipelineStages" s1) as (Hd2 & Hp2 & Ho2 & Hn2);
        set (s2 := on_document (alter (set_inner c) "pipelineStages") s1) in *
    end.
    rewrite bind_getElementById. unfold ref. rewrite Hp2, Hp1, Hsr.
    rewrite bind_assign_Some.
    destruct (set_inner_frame (Html []) "sampleResults" s2) as (Hd3 & Hp3 & Ho3 & Hn3).
    set (s3 := on_document (alter (set_inner (Html [])) "sampleResults") s2) in *.
    exists s3. unfold throw_null. rewrite Hn3, Hn2, Hn1.
    split; [done|]. split; [|split].
    + intros id. by rewrite Hd3, Hd2, Hd1.
    + intros id. by rewrite Hp3, Hp2, Hp1.
    + by rewrite Ho3, Ho2, Ho1.
Qed.

Lemma alerted_frame msg type s :
  (∀ id, display_of id (alerted msg type s) = display_of id s) ∧
  (∀ id, present id (alerted msg type s) = present id s).
Proof. unfold alerted. by destruct (present ".container" s). Qed.

Lemma alerts_alerted msg type s :
  alerts (alerted msg type s)
  = if present ".container" s then banner (next_alert s) msg type :: alerts s
    else alerts s.
Proof. unfold alerted. by destruct (present ".container" s). Qed.

Lemma display_hidden id s :
  present id s = true →
  display_of id (on_document (alter (set_display none) id) s) = Some none.
Proof.
  intros [e He]%has_true. unfold display_of. state_simpl.
  by rewrite lookup_alter_eq, He.
Qed.

Lemma display_other id k v s :
  id ≠ k →
  display_of id (on_document (alter (set_display v) k) s) = display_of id s.
Proof. intros. unfold display_of. state_simpl. by rewrite lookup_alter_ne. Qed.

(** X22. Once the request of the pipeline demo has settled, on a page that
    has the demo and the loading indicator: the loading indicator is hidden
    whatever the outcome; the demo is displayed exactly when the answer is a
    success that [displayPipelineResults] can render (both containers exist,
    stages and sample results are there, and no sample is null or lacks its
    classification result), and otherwise its display style is left as it
    was; and on a page with a container every other outcome raises
    one banner: of type 'error' with the server's error text for a refusal,
    of type 'danger' with a fixed text for a rejected request, a null body
    or an exception while rendering. *)
Theorem pipeline_demo_outcome (s : state) (o : settled pipeline_response) :
  present "pipelineDemo" s = true → present "pipelineLoading" s = true →
  let s' := exec (loadPipelineDemo_settled "pipelineDemo" "pipelineLoading" o) s in
  display_of "pipelineLoading" s' = Some none ∧
  display_of "pipelineDemo" s'
  = (if pipeline_shown o s then Some block else display_of "pipelineDemo" s) ∧
  alerts s'
  = match pipeline_banner o s with
    | Some (msg, type) =>
        if present ".container" s then banner (next_alert s) msg type :: alerts s
        else alerts s
    | None => alerts s
    end ∧
  network s' = network s.
Proof.
  intros Hdemo Hload s'. subst s'.
  unfold exec, loadPipelineDemo_settled, finally.
  (* the state in which the .finally callback runs *)
  assert (Hmid : ∃ r s1,
            match o with
            | Rejected e => loadPipelineDemo_catch e
            | Fulfilled data =>
                try_catch (loadPipelineDemo_then "pipelineDemo" data)
                          loadPipelineDemo_catch
            end s = (r, s1) ∧
            present "pipelineLoading" s1 = true ∧
            display_of "pipelineDemo" s1
            = (if pipeline_shown o s then Some block else display_of "pipelineDemo" s) ∧
            alerts s1
            = match pipeline_banner o s with
              | Some (msg, type) =>
                  if present ".container" s
                  then banner (next_alert s) msg type :: alerts s
                  else alerts s
              | None => alerts s
              end ∧
            network s1 = network s).
  { unfold loadPipelineDemo_catch, loadPipelineDemo_then, try_catch, showMessage,
      pipeline_shown, pipeline_banner.
    destruct o as [e|[d|]].
    - eexists _, _. rewrite showAlert_eq. split; [done|].
      destruct (alerted_frame (lit "Error running pipeline demo") (lit "danger") s)
        as [Hd Hp].
      rewrite Hp, Hd, alerts_alerted. repeat split; try done.
      unfold alerted. by destruct (present ".container" s).
    - destruct (pl_success d).
      + cbn [andb].
        destruct (displayPipelineResults_outcome d s) as (s1 & E & Hd & Hp & Ho).
        unfold outcome_view in Ho.
        destruct (pipeline_renders d s) eqn:Hr.
        * rewrite (bind_normal _ _ _ _ _ E).
          eexists _, _. split; [done|]. unfold assign, modify.
          split.
          { rewrite <- (Hp "pipelineLoading") in Hload.
            unfold present in *. state_simpl. by rewrite has_alter. }
          split.
          { rewrite <- (Hp "pipelineDemo") in Hdemo.
            apply has_true in Hdemo as [e He].
            unfold display_of. state_simpl. by rewrite lookup_alter_eq, He. }
          state_simpl. simplify_eq. split; congruence.
        * rewrite (bind_abrupt _ _ _ _ _ E). rewrite showAlert_eq.
          eexists _, _. split; [done|].
          destruct (alerted_frame (lit "Error running pipeline demo") (lit "danger") s1)
            as [Hd' Hp'].
          rewrite Hp', Hd', Hp, Hd, alerts_alerted, Hp.
          simplify_eq.
          repeat split; try done; try congruence.
          -- destruct (present ".container" s); congruence.
          -- unfold alerted. rewrite Hp. destruct (present ".container" s); done.
      + cbn [andb]. rewrite showAlert_eq. eexists _, _. split; [done|].
        match goal with
        | |- context [alerted ?m ?t s] =>
            destruct (alerted_frame m t s) as [Hd Hp]
        end.
        rewrite Hp, Hd, alerts_alerted. repeat split; try done.
        unfold alerted. by destruct (present ".container" s).
    - unfold throw_null. cbv beta iota.
      rewrite showAlert_eq. eexists _, _. split; [done|].
      destruct (alerted_frame (lit "Error running pipeline demo") (lit "danger") s)
        as [Hd Hp].
      rewrite Hp, Hd, alerts_alerted. repeat split; try done.
      unfold alerted. by destruct (present ".container" s). }
  destruct Hmid as (r & s1 & E & Hl1 & Hd1 & Ha1 & Hn1).
  rewrite E. unfold assign, modify. cbn [snd].
  split; [by apply display_hidden|].
  split; [|done].
  etrans; [|exact Hd1].
  by apply (display_other "pipelineDemo" "pipelineLoading" none s1).
Qed.

Lemma pipeline_demo_outcome_witness :
  let s' := exec (loadPipelineDemo_settled "pipelineDemo" "pipelineLoading"
                    (Fulfilled (Some Board.pipeline)))
                 (exec loadPipelineDemo Board.dashboard) in
  let s'' := exec (loadPipelineDemo_settled "pipelineDemo" "pipelineLoading"
                     (Fulfilled (Some Board.pipeline_broken)))
                  (exec loadPipelineDemo Board.dashboard) in
  display_of "pipelineLoading" s' = Some none ∧
  display_of "pipelineDemo" s' = Some block ∧
  display_of "pipelineDemo" s'' = Some none ∧
  alerts s'' = [banner 0 (lit "Error running pipeline demo") (lit "danger")].
Proof.
  intros s' s''.
  pose proof (pipeline_demo_outcome (exec loadPipelineDemo Board.dashboard)
                (Fulfilled (Some Board.pipeline)) eq_refl eq_refl) as (H1 & H2 & _).
  pose proof (pipeline_demo_outcome (exec loadPipelineDemo Board.dashboard)
                (Fulfilled (Some Board.pipeline_broken)) eq_refl eq_refl)
    as (_ & H3 & H4 & _).
  split; [exact H1|]. split; [exact H2|]. split; [exact H3 | exact H4].
Defined.

(** X23. [loadPipelineDemo] hides the demo, shows the loading indicator and
    issues GET /api/pipeline-demo when the page has both elements.  On a page
    that lacks one of them it throws a TypeError and issues no request:
    without the demo nothing is changed, without the loading indicator the
    demo has already been hidden. *)
Theorem pipeline_demo_requested (s : state) :
  let s' := exec loadPipelineDemo s in
  (present "pipelineDemo" s = true → present "pipelineLoading" s = true →
     loadPipelineDemo s = (Normal tt, s') ∧
     display_of "pipelineDemo" s' = Some none ∧
     display_of "pipelineLoading" s' = Some block ∧
     network s' = pipeline_request :: network s) ∧
  (present "pipelineDemo" s = false →
     loadPipelineDemo s = (Abrupt (TypeError (null_message s)), s)) ∧
  (present "pipelineDemo" s = true → present "pipelineLoading" s = false →
     loadPipelineDemo s = (Abrupt (TypeError (null_message s)), s') ∧
     display_of "pipelineDemo" s' = Some none ∧
     network s' = network s).
Proof.
  intros s'. subst s'. unfold exec, loadPipelineDemo.
  rewrite !bind_getElementById. unfold ref.
  split; [|split].
  - intros Hd Hl. rewrite Hd, Hl.
    rewrite !bind_assign_Some. unfold issue, modify. cbn [snd].
    apply has_true in Hd as [ed Hed], Hl as [el Hel].
    unfold display_of. state_simpl.
    rewrite lookup_alter_ne by done. rewrite !lookup_alter_eq.
    rewrite lookup_alter_ne by done. by rewrite Hed, Hel.
  - intros Hd. rewrite Hd. by rewrite bind_assign_None.
  - intros Hd Hl. rewrite Hd, Hl.
    rewrite bind_assign_Some, bind_assign_None. cbn [snd].
    apply has_true in Hd as [ed Hed].
    unfold display_of. state_simpl. by rewrite lookup_alter_eq, Hed.
Qed.

Lemma replace_first_absent from to (t : jsstring) :
  from ∉ t → replace_first from to t = t.
Proof.
  induction t as [|c t IH]; [done|]. rewrite not_elem_of_cons. intros [Hc Ht].
  cbn. destruct (N.eqb_spec c from); [congruence|]. by rewrite IH.
Qed.

(** X24. The title of a sample card is the document type with its first
    underscore, and only the first, turned into a space: what precedes the
    first underscore and everything after it, later underscores included, is
    kept; a type without an underscore is kept as it is. *)
Theorem card_title_first_underscore (a b : jsstring) :
  95 ∉ a →
  replace_first 95 (lit " ") (a ++ 95 :: b) = a ++ lit " " ++ b ∧
  replace_first 95 (lit " ") a = a.
Proof.
  intros Ha. split; [|by apply replace_first_absent].
  induction a as [|c a IH]; [done|].
  apply not_elem_of_cons in Ha as [Hc Ha].
  cbn. destruct (N.eqb_spec c 95); [congruence|]. by rewrite IH.
Qed.

Lemma card_title_first_underscore_witness :
  replace_first 95 (lit " ") (lit "bank_statement_2024") = lit "bank statement_2024".
Proof.
  refine (proj1 (card_title_first_underscore (lit "bank") (lit "statement_2024") _)).
  vm_compute. intros H. repeat (inversion H as [|? ? ? H']; clear H; rename H' into H).
Defined.

(* ===================================================================== *)
(** ** The reclassification dialog *)
(* ===================================================================== *)

(** X25. [submitReclassification] reads the document identifier and the new
    type from the dialog.  Without a new type it shows the dialog 'Please
    select a new document type' and issues nothing.  With one it issues POST
    /reclassify/<identifier> with the JSON body {new_type}, whatever the
    identifier is: unlike [handleManualReclassification] it does not look
    whether the identifier is empty.  No dialog is shown then. *)
Theorem submit_reclassification_request (w : window) (d n : element) :
  document (page w) !! "reclassifyDocId" = Some d →
  document (page w) !! "newType" = Some n →
  submitReclassification w
  = (Normal tt,
     if truthy (value n)
     then set_page (set_network (reclassify_request (value d) (value n)
                                 :: network (page w)) (page w)) w
     else set_dialogs (lit "Please select a new document type" :: dialogs w) w).
Proof.
  intros Hd Hn. destruct w as [s dl m rl]. cbn [page dialogs] in *.
  assert (E1 : (e ← getElementById "reclassifyDocId"; read e value) s
               = (Normal (value d), s)).
  { rewrite bind_getElementById. unfold ref, present, has. rewrite Hd.
    unfold read. by rewrite Hd. }
  assert (E2 : (e ← getElementById "newType"; read e value) s = (Normal (value n), s)).
  { rewrite bind_getElementById. unfold ref, present, has. rewrite Hn.
    unfold read. by rewrite Hn. }
  unfold submitReclassification, on_page.
  unfold mbind at 1, wjs_bind. cbn [page]. rewrite E1.
  unfold set_page, set_dialogs. cbn [page dialogs modal_instance reloaded].
  unfold mbind at 1. cbn [page]. rewrite E2.
  destruct (truthy (value n)); cbn [negb]; done.
Qed.

Lemma submit_reclassification_request_witness :
  network (page (submitReclassification Board.list_window).2)
  = [reclassify_request (lit "7") (lit "Contract")].
Proof.
  rewrite (submit_reclassification_request Board.list_window
             (Element [] [] (Text []) (lit "7") false [] None)
             (Element [] [] (Text []) (lit "Contract") false [] None)
             eq_refl eq_refl).
  reflexivity.
Defined.

(** X26. The answer to [submitReclassification]: a success hides the modal
    and reloads the location when a modal instance exists for reclassifyModal;
    a success without such an instance, although the server has
    reclassified the document, ends in the dialog 'Reclassification failed: '
    with the engine's TypeError text and no reload; and a failure (rejected,
    no JSON, null body or success false) ends in the dialog
    'Reclassification failed: ' with the reason, the modal and the location
    left as they are.  The page itself is never changed. *)
Theorem submit_reclassification_outcome (w : window) (o : settled reclassify_response) :
  let w' := (submitReclassification_settled o w).2 in
  page w' = page w ∧
  match reclassify_failure o (page w) with
  | Some reason =>
      dialogs w' = (lit "Reclassification failed: " ++ reason) :: dialogs w ∧
      modal_instance w' = modal_instance w ∧ reloaded w' = reloaded w
  | None =>
      if present "reclassifyModal" (page w) && bool_decide (is_Some (modal_instance w))
      then dialogs w' = dialogs w ∧ modal_instance w' = Some false ∧ reloaded w' = true
      else dialogs w'
           = (lit "Reclassification failed: " ++ null_message (page w)) :: dialogs w ∧
           modal_instance w' = modal_instance w ∧ reloaded w' = reloaded w
  end.
Proof.
  intros w'. subst w'. destruct w as [s dl m rl].
  unfold submitReclassification_settled, submitReclassification_catch, wtry_catch,
    submitReclassification_then, reclassify_failure, window_alert, on_page.
  cbn [page dialogs modal_instance reloaded].
  destruct o as [e|[d|]]; [done| |done].
  destruct (rc_success d); [|done].
  unfold mbind, wjs_bind, Modal_getInstance, Modal_hide, location_reload, on_page,
    getElementById, get, ref.
  cbn [page dialogs modal_instance reloaded].
  destruct (present "reclassifyModal" s); cbn [andb]; [|done].
  destruct m as [shown|].
  - by rewrite bool_decide_eq_true_2 by by eexists.
  - by rewrite bool_decide_eq_false_2 by by intros [? [=]].
Qed.
